(** * Graph matching network (GMN) and gated graph network (GGNN) models

    A shallow embedding of [models.py]: the custom message-passing layer
    [GMNlayer], and the two networks [GMNnet] and [GGNN] built from it and
    from the layers of the tensor and graph-learning libraries.

    Scalars are real numbers (ideal arithmetic); a two-dimensional tensor
    is a list of rows together with its number of columns, so that tensors
    without rows keep their second dimension.  The theorems on the models
    state which operations are applied to which rows and in which order,
    the shapes of the results and the inputs that raise; none of them
    rests on re-ordering a sum or on the exact value of a normalised sum,
    which hold in ideal arithmetic only.  Every operation that can
    raise in Python returns in the result monad [Res].

    The functions of the tensor library ([torch]) and of the
    graph-learning library ([torch_geometric]) that the models call are no
    part of [models.py]: the modules [torch], [nn] and [torch_geometric]
    below model them from their documented behaviour, for the releases of
    the graph library whose [utils] export [scatter], as [models.py]
    imports it. *)

From Stdlib Require Import Reals Lra Lia List String Bool Arith.
From stdpp Require Import base option list strings gmap.
Import ListNotations.

Set Warnings "-register-all".

(** ** Python exceptions and the result monad *)

Inductive PyErr : Type :=
| ValueError
| IndexError
| RuntimeError
| TypeError
| AssertionError
| KeyError
| AttributeError.

Inductive Res (A : Type) : Type :=
| Ok (a : A)
| Raise (e : PyErr).

Arguments Ok {A} a.
Arguments Raise {A} e.

#[global] Instance Res_ret : MRet Res := fun A a => Ok a.
#[global] Instance Res_bind : MBind Res := fun A B k m =>
  match m with
  | Ok a => k a
  | Raise e => Raise e
  end.

Definition is_Ok {A : Type} (m : Res A) : bool :=
  match m with
  | Ok _ => true
  | Raise _ => false
  end.

(** ** Rows of scalars *)

Definition Rsum (v : list R) : R := fold_right Rplus 0%R v.
Definition dot (u v : list R) : R := Rsum (zip_with Rmult u v).
Definition vadd (u v : list R) : list R := zip_with Rplus u v.
Definition vsub (u v : list R) : list R := zip_with Rminus u v.
Definition vmul (u v : list R) : list R := zip_with Rmult u v.
Definition vscale (c : R) (v : list R) : list R := map (Rmult c) v.
Definition vzero (d : nat) : list R := replicate d 0%R.

(** ** Two-dimensional tensors *)

Record Tensor : Type := mkTensor { ncols : nat; rows : list (list R) }.

Definition size0 (t : Tensor) : nat := length (rows t).
Definition size1 (t : Tensor) : nat := ncols t.

(** Every row has [ncols] entries. *)
Definition wfT (t : Tensor) : bool :=
  forallb (fun r => length r =? ncols t) (rows t).

Definition row (i : nat) (t : Tensor) : list R := nth i (rows t) [].
Definition col (j : nat) (t : Tensor) : list R :=
  map (fun r => nth j r 0%R) (rows t).
Definition entry (i j : nat) (t : Tensor) : R := nth j (row i t) 0%R.

(** An index tensor of shape [2, E]: one (source, target) column per edge. *)
Definition EdgeIndex : Type := list (nat * nat).
Definition edge_row (k : nat) (ei : EdgeIndex) : list nat :=
  match k with
  | 0 => map fst ei
  | _ => map snd ei
  end.

(** ** The tensor library ([torch], [torch.nn.functional]) *)

Module torch.

Definition ones (n m : nat) : Tensor := mkTensor m (replicate n (replicate m 1%R)).
Definition zeros (n m : nat) : Tensor := mkTensor m (replicate n (vzero m)).

(** [a.t()] *)
Definition t (a : Tensor) : Tensor :=
  mkTensor (size0 a) (map (fun j => col j a) (seq 0 (ncols a))).

(** [torch.mm(a, b)] *)
Definition mm (a b : Tensor) : Res Tensor :=
  if ncols a =? size0 b
  then Ok (mkTensor (ncols b)
             (map (fun r => map (fun j => dot r (col j b)) (seq 0 (ncols b)))
                  (rows a)))
  else Raise RuntimeError.

Definition softmax_row (v : list R) : list R :=
  map (fun y => (exp y / Rsum (map exp v))%R) v.

(** [F.softmax(a, dim)] on a two-dimensional tensor. *)
Definition softmax (a : Tensor) (dim : nat) : Res Tensor :=
  match dim with
  | 0 =>
      let den := map (fun j => Rsum (map exp (col j a))) (seq 0 (ncols a)) in
      Ok (mkTensor (ncols a)
            (map (fun r => zip_with (fun y s => (exp y / s)%R) r den) (rows a)))
  | 1 => Ok (mkTensor (ncols a) (map softmax_row (rows a)))
  | _ => Raise IndexError
  end.

(** [a - b] for operands of one shape (the only case the models meet). *)
Definition sub (a b : Tensor) : Res Tensor :=
  if (size0 a =? size0 b) && (ncols a =? ncols b)
  then Ok (mkTensor (ncols a) (zip_with vsub (rows a) (rows b)))
  else Raise RuntimeError.

(** [torch.cat(ts, dim=1)] *)
Fixpoint cat1 (ts : list Tensor) : Res Tensor :=
  match ts with
  | [] => Raise RuntimeError
  | [a] => Ok a
  | a :: ts' =>
      r ← cat1 ts';
      if size0 a =? size0 r
      then Ok (mkTensor (ncols a + ncols r) (zip_with app (rows a) (rows r)))
      else Raise RuntimeError
  end.

Definition relu (a : Tensor) : Tensor :=
  mkTensor (ncols a) (map (map (Rmax 0)) (rows a)).

(** [torch.index_select(a, 0, idx)] *)
Definition index_select (a : Tensor) (idx : list nat) : Res Tensor :=
  if forallb (fun i => i <? size0 a) idx
  then Ok (mkTensor (ncols a) (map (fun i => row i a) idx))
  else Raise IndexError.

(** Scatter with sum reduction along dimension 0: starting from zeros,
    row [e] of [src] is added to row [idx[e]] of the output, edge by
    edge. *)
Definition scatter_step (acc : list (list R)) (p : nat * list R) : list (list R) :=
  <[p.1 := vadd (nth p.1 acc []) p.2]> acc.

Definition scatter_add (src : Tensor) (idx : list nat) (dim_size : nat) : Res Tensor :=
  if negb (length idx =? size0 src) then Raise RuntimeError
  else if forallb (fun i => i <? dim_size) idx
  then Ok (mkTensor (ncols src)
             (fold_left scatter_step (combine idx (rows src))
                        (rows (zeros dim_size (ncols src)))))
  else Raise RuntimeError.

Definition sigmoid (x : R) : R := (1 / (1 + exp (- x)))%R.

End torch.

(** ** Layers of the tensor library ([torch.nn]) *)

Module nn.

(** A tensor of shape [N, dim1, dim2], as [nn.Embedding] returns it for an
    index tensor of shape [N, dim1]. *)
Record Tensor3 : Type :=
  mkTensor3 { dim1 : nat; dim2 : nat; blocks : list (list (list R)) }.

(** [a.squeeze(1)]: the middle axis is dropped when it has size one.  A
    tensor that keeps three axes is no matrix, and every later matrix
    operation raises on it. *)
Definition squeeze1 (a : Tensor3) : Res Tensor :=
  if dim1 a =? 1
  then Ok (mkTensor (dim2 a) (map (fun b => nth 0 b []) (blocks a)))
  else Raise RuntimeError.

(** [nn.Embedding(num_embeddings, embedding_dim)] *)
Record Embedding : Type := mkEmbedding {
  num_embeddings : nat;
  embedding_dim : nat;
  table : list (list R)
}.

Definition Embedding_wf (E : Embedding) : bool :=
  (length (table E) =? num_embeddings E)
  && forallb (fun r => length r =? embedding_dim E) (table E).

(** The index tensor has shape [N, 1] and is given by its [N] entries. *)
Definition Embedding_forward (E : Embedding) (idx : list nat) : Res Tensor3 :=
  if forallb (fun i => i <? num_embeddings E) idx
  then Ok (mkTensor3 1 (embedding_dim E) (map (fun i => [nth i (table E) []]) idx))
  else Raise IndexError.

(** [nn.Linear(in_features, out_features)]: [y = x W^T + b]. *)
Record Linear : Type := mkLinear {
  in_features : nat;
  out_features : nat;
  weight : list (list R);
  bias : list R
}.

Definition Linear_wf (L : Linear) : bool :=
  (length (weight L) =? out_features L)
  && forallb (fun r => length r =? in_features L) (weight L)
  && (length (bias L) =? out_features L).

Definition affine (L : Linear) (r : list R) : list R :=
  vadd (map (dot r) (weight L)) (bias L).

Definition Linear_forward (L : Linear) (x : Tensor) : Res Tensor :=
  if ncols x =? in_features L
  then Ok (mkTensor (out_features L) (map (affine L) (rows x)))
  else Raise RuntimeError.

(** [nn.Sequential(nn.Linear(d, 1), nn.Sigmoid())] *)
Definition Sequential_Linear_Sigmoid (L : Linear) (x : Tensor) : Res Tensor :=
  y ← Linear_forward L x;
  Ok (mkTensor (ncols y) (map (map torch.sigmoid) (rows y))).

(** [nn.GRUCell(input_size, hidden_size, bias=True)].  The stacked weights
    [W_ih], [W_hh] and biases are kept as their three chunks (reset,
    update, new). *)
Record GRUCell : Type := mkGRUCell {
  input_size : nat;
  hidden_size : nat;
  W_ir : Linear; W_iz : Linear; W_in : Linear;
  W_hr : Linear; W_hz : Linear; W_hn : Linear
}.

Definition GRUCell_wf (G : GRUCell) : bool :=
  forallb (fun L => Linear_wf L && (in_features L =? input_size G)
                    && (out_features L =? hidden_size G))
          [W_ir G; W_iz G; W_in G]
  && forallb (fun L => Linear_wf L && (in_features L =? hidden_size G)
                       && (out_features L =? hidden_size G))
             [W_hr G; W_hz G; W_hn G].

Definition GRU_row (G : GRUCell) (x h : list R) : list R :=
  let r := map torch.sigmoid (vadd (affine (W_ir G) x) (affine (W_hr G) h)) in
  let z := map torch.sigmoid (vadd (affine (W_iz G) x) (affine (W_hz G) h)) in
  let n := map tanh (vadd (affine (W_in G) x) (vmul r (affine (W_hn G) h))) in
  vadd (vmul (map (fun zi => (1 - zi)%R) z) n) (vmul z h).

Definition GRUCell_forward (G : GRUCell) (x h : Tensor) : Res Tensor :=
  if (ncols x =? input_size G) && (ncols h =? hidden_size G)
     && (size0 x =? size0 h)
  then Ok (mkTensor (hidden_size G) (zip_with (GRU_row G) (rows x) (rows h)))
  else Raise RuntimeError.

End nn.

(** ** Python's [for i in range(n)] over a state in the result monad *)

Fixpoint for_each {I A : Type} (body : I -> A -> Res A) (l : list I) (a : A) : Res A :=
  match l with
  | [] => Ok a
  | i :: l' => a' ← body i a; for_each body l' a'
  end.

Definition for_range {A : Type} (n : nat) (body : nat -> A -> Res A) (a : A) : Res A :=
  for_each body (seq 0 n) a.

(** ** The graph-learning library ([torch_geometric]) *)

Module torch_geometric.

(** [MessagePassing._set_size] *)
Definition set_size (size : option nat * option nat) (dim : nat) (src : Tensor)
  : Res (option nat * option nat) :=
  match (if dim =? 0 then size.1 else size.2) with
  | None =>
      Ok (if dim =? 0 then (Some (size0 src), size.2) else (size.1, Some (size0 src)))
  | Some n => if n =? size0 src then Ok size else Raise ValueError
  end.

(** [MessagePassing._lift]: the rows of [src] at one end of every edge. *)
Definition lift (src : Tensor) (edge_index : EdgeIndex) (dim : nat) : Res Tensor :=
  torch.index_select src (edge_row dim edge_index).

(** [MessagePassing.propagate(edge_index, size=size, x=x, edge_weight=w)]
    of a layer built with sum aggregation and the default flow
    (source to target, so [i = 1] and [j = 0]): the node features are
    gathered at both ends of every edge ([x_i] only when the message
    function asks for it), the message function is called on them, its
    rows are summed at the target node of their edge, and [update] sees
    the sums.  An argument without the suffix [_i] or [_j], such as
    [edge_weight], reaches the message function as it is. *)
Definition propagate
    (uses_x_i : bool)
    (message : Tensor -> Tensor -> EdgeIndex -> option nat * option nat ->
               option Tensor -> Res Tensor)
    (update : Tensor -> Res Tensor)
    (edge_index : EdgeIndex) (size : option (nat * nat))
    (x : Tensor) (edge_weight : option Tensor) : Res Tensor :=
  let size :=
    match size with
    | None => (None, None)
    | Some (a, b) => (Some a, Some b)
    end in
  '(size, x_i) ←
    (if uses_x_i
     then size ← set_size size 1 x; x_i ← lift x edge_index 1; Ok (size, x_i)
     else Ok (size, x));
  size ← set_size size 0 x;
  x_j ← lift x edge_index 0;
  let dim_size :=
    match size.2 with
    | Some n => n
    | None => default 0 size.1
    end in
  out ← message x_i x_j edge_index size edge_weight;
  out ← torch.scatter_add out (edge_row 1 edge_index) dim_size;
  update out.

(** [GatedGraphConv(out_channels, num_layers)] *)
Record GatedGraphConv : Type := mkGatedGraphConv {
  out_channels : nat;
  num_layers : nat;
  weight : list Tensor;
  rnn : nn.GRUCell
}.

Definition GatedGraphConv_wf (G : GatedGraphConv) : bool :=
  (length (weight G) =? num_layers G)
  && forallb (fun w => wfT w && (size0 w =? out_channels G)
                       && (ncols w =? out_channels G)) (weight G)
  && nn.GRUCell_wf (rnn G)
  && (nn.input_size (rnn G) =? out_channels G)
  && (nn.hidden_size (rnn G) =? out_channels G).

(** One propagation step of [GatedGraphConv.forward], called without
    edge weights: the message of an edge is the source row [x_j]. *)
Definition GatedGraphConv_step (G : GatedGraphConv) (edge_index : EdgeIndex)
    (i : nat) (x : Tensor) : Res Tensor :=
  match weight G !! i with
  | None => Raise IndexError
  | Some w =>
      m ← torch.mm x w;
      m ← propagate false (fun _ x_j _ _ _ => Ok x_j) Ok edge_index None m None;
      nn.GRUCell_forward (rnn G) m x
  end.

Definition GatedGraphConv_forward (G : GatedGraphConv) (x : Tensor)
    (edge_index : EdgeIndex) : Res Tensor :=
  if out_channels G <? size1 x then Raise ValueError
  else
    x ← (if size1 x <? out_channels G
         then torch.cat1 [x; torch.zeros (size0 x) (out_channels G - size1 x)]
         else Ok x);
    for_range (num_layers G) (GatedGraphConv_step G edge_index) x.

(** The values of [v] whose index is [g]. *)
Definition group (g : nat) (index : list nat) (v : list R) : list R :=
  map snd (List.filter (fun p => fst p =? g) (combine index v)).

Definition group_max (g : nat) (index : list nat) (v : list R) : R :=
  match group g index v with
  | [] => 0%R
  | y :: ys => fold_left Rmax ys y
  end.

(** [torch_geometric.utils.softmax(src, index)]: a softmax within every
    group of equal index. *)
Definition softmax (src : list R) (index : list nat) : list R :=
  let out := zip_with (fun y g => exp (y - group_max g index src)) src index in
  zip_with (fun o g => (o / (Rsum (group g index out) + / 10 ^ 16))%R) out index.

(** [GlobalAttention(gate_nn)(x, batch=batch)] *)
Definition GlobalAttention_forward (gate_nn : Tensor -> Res Tensor)
    (x : Tensor) (batch : list nat) : Res Tensor :=
  let dim_size :=
    match batch with
    | [] => 0
    | _ => S (list_max batch)
    end in
  gate ← gate_nn x;
  if negb ((ncols gate =? 1) && (size0 gate =? size0 x)
           && (length batch =? size0 x))
  then Raise RuntimeError
  else
    let gate := softmax (col 0 gate) batch in
    torch.scatter_add (mkTensor (ncols x) (zip_with vscale gate (rows x)))
                      batch dim_size.

End torch_geometric.

(** ** Module-level constants of [models.py] *)

Definition special_args : list string :=
  ["edge_index"; "edge_index_i"; "edge_index_j"; "size"; "size_i"; "size_j"]%string.

(** [arg[-2:]] and [arg[:-2]] *)
Definition last2 (s : string) : string :=
  substring (String.length s - 2) 2 s.
Definition drop_last2 (s : string) : string :=
  substring 0 (String.length s - 2) s.

(** Python values that reach [propagate_match] through [**kwargs]. *)
Inductive PyVal : Type :=
| VNone
| VInt (n : nat)
| VTensor (a : Tensor)
| VLong (l : list nat)
| VEdges (ei : EdgeIndex)
| VList (l : list PyVal).

(** [v.size(0)] *)
Definition py_size0 (v : PyVal) : Res nat :=
  match v with
  | VTensor a => Ok (size0 a)
  | VLong l => Ok (length l)
  | VEdges _ => Ok 2
  | _ => Raise AttributeError
  end.

(** [v[k]] *)
Definition py_getitem (v : PyVal) (k : nat) : Res PyVal :=
  match v with
  | VList l =>
      match l !! k with
      | Some w => Ok w
      | None => Raise IndexError
      end
  | VEdges ei => if k <? 2 then Ok (VLong (edge_row k ei)) else Raise IndexError
  | VTensor a =>
      if k <? size0 a then Ok (VTensor (mkTensor (ncols a) [row k a]))
      else Raise IndexError
  | VLong l =>
      match l !! k with
      | Some n => Ok (VInt n)
      | None => Raise IndexError
      end
  | _ => Raise TypeError
  end.

Definition py_size (size : list (option nat)) : PyVal :=
  VList (map (fun o => match o with Some n => VInt n | None => VNone end) size).

(** [kwargs[key]] *)
Definition py_lookup (kwargs : gmap string PyVal) (key : string) : Res PyVal :=
  match kwargs !! key with
  | Some v => Ok v
  | None => Raise KeyError
  end.

(** [l.insert(idx, v)] *)
Definition py_insert {A : Type} (idx : nat) (v : A) (l : list A) : list A :=
  take idx l ++ v :: drop idx l.

(** The scatter function [propagate_match] calls: it reduces the rows of
    a tensor, and raises on a source that is no tensor. *)
Definition scatter (name : string) (src : PyVal) (index : list nat)
    (dim_size : option nat) : Res Tensor :=
  match src with
  | VTensor a =>
      if negb (String.eqb name "add") then Raise RuntimeError
      else
        torch.scatter_add a index
          (match dim_size with
           | Some n => n
           | None => match index with [] => 0 | _ => S (list_max index) end
           end)
  | _ => Raise TypeError
  end.

Definition str_in (a : string) (l : list string) : bool := existsb (String.eqb a) l.

(** ** [class GMNlayer(MessagePassing)] *)

Module GMNlayer.

(** The attributes of a layer.  [flow], [aggr] and [update_args] (the
    names [__update_args__]) are those the base class keeps. *)
Record t : Type := mk {
  device : string;
  out_channels : nat;
  fmessage : nn.Linear;
  fnode : nn.GRUCell;
  flow : string;
  aggr : string;
  update_args : list string
}.

(** What [__init__(in_channels, out_channels, device)] establishes, for
    whatever values the weights hold. *)
Definition init_ok (in_channels out_ch : nat) (L : t) : bool :=
  (out_channels L =? out_ch)
  && nn.Linear_wf (fmessage L)
  && (nn.in_features (fmessage L) =? 3 * in_channels)
  && (nn.out_features (fmessage L) =? out_ch)
  && nn.GRUCell_wf (fnode L)
  && (nn.input_size (fnode L) =? 2 * out_ch)
  && (nn.hidden_size (fnode L) =? out_ch)
  && String.eqb (flow L) "source_to_target"
  && String.eqb (aggr L) "add"
  && (length (update_args L) =? 0).

(** The parameters of [match] after [self]. *)
Definition match_argspec : list string :=
  ["edge_index_i"; "x_i"; "x_j"; "size_i"]%string.

(** [self.__special_match_args__] *)
Definition special_match_args : list (nat * string) :=
  List.filter (fun p => str_in p.2 special_args) (imap pair match_argspec).

(** [self.__match_args__] *)
Definition match_args : list string :=
  List.filter (fun arg => negb (str_in arg special_args)) match_argspec.

(** [message(self, x_i, x_j, edge_index, size, edge_weight=None)] *)
Definition message (L : t) (x_i x_j : Tensor) (edge_index : EdgeIndex)
    (size : option nat * option nat) (edge_weight : option Tensor) : Res Tensor :=
  match edge_weight with
  | None =>
      let edge_weight := torch.ones (size0 x_i) (size1 x_i) in
      c ← torch.cat1 [x_i; x_j; edge_weight];
      m ← nn.Linear_forward (fmessage L) c;
      Ok (torch.relu m)
  | Some edge_weight =>
      c ← torch.cat1 [x_i; x_j; edge_weight];
      m ← nn.Linear_forward (fmessage L) c;
      Ok (torch.relu m)
  end.

(** [match(self, edge_index_i, x_i, x_j, size_i)]: four arguments, and a
    bare [return]. *)
Definition match_ (L : t) (args : list PyVal) : Res PyVal :=
  if length args =? 4 then Ok VNone else Raise TypeError.

(** [update(self, aggr_out)] *)
Definition update (L : t) (aggr_out : Tensor) : Res Tensor := Ok aggr_out.

(** [self.propagate(...)], inherited from [MessagePassing]. *)
Definition propagate (L : t) :=
  torch_geometric.propagate true (message L) (update L).

(** [forward(self, x1, x2, edge_index1, edge_index2, edge_weight1,
    edge_weight2, mode)] *)
Definition forward (L : t) (x1 x2 : Tensor) (edge_index1 edge_index2 : EdgeIndex)
    (edge_weight1 edge_weight2 : option Tensor) : Res (Tensor * Tensor) :=
  m1 ← propagate L edge_index1 (Some (size0 x1, size0 x1)) x1 edge_weight1;
  m2 ← propagate L edge_index2 (Some (size0 x2, size0 x2)) x2 edge_weight2;
  scores ← torch.mm x1 (torch.t x2);
  attn_1 ← torch.softmax scores 1;
  attn_2 ← (s ← torch.softmax scores 0; Ok (torch.t s));
  attnsum_1 ← torch.mm attn_1 x2;
  attnsum_2 ← torch.mm attn_2 x1;
  u1 ← torch.sub x1 attnsum_1;
  u2 ← torch.sub x2 attnsum_2;
  m1 ← torch.cat1 [m1; u1];
  h1 ← nn.GRUCell_forward (fnode L) m1 x1;
  m2 ← torch.cat1 [m2; u2];
  h2 ← nn.GRUCell_forward (fnode L) m2 x2;
  Ok (h1, h2).

(** Lines 108-114 of [forward] on their own: the attention between the
    two graphs and the difference each node keeps. *)
Definition forward_attention (x1 x2 : Tensor)
  : Res (Tensor * Tensor * Tensor * Tensor) :=
  scores ← torch.mm x1 (torch.t x2);
  attn_1 ← torch.softmax scores 1;
  attn_2 ← (s ← torch.softmax scores 0; Ok (torch.t s));
  attnsum_1 ← torch.mm attn_1 x2;
  attnsum_2 ← torch.mm attn_2 x1;
  u1 ← torch.sub x1 attnsum_1;
  u2 ← torch.sub x2 attnsum_2;
  Ok (attn_1, attn_2, u1, u2).

(** [ij = {"_i": i, "_j": j}] *)
Definition ij (L : t) (suffix : string) : nat :=
  let '(i, j) :=
    if String.eqb (flow L) "target_to_source" then (0, 1) else (1, 0) in
  if String.eqb suffix "_i" then i else j.

Definition size_get (size : option nat * option nat) (k : nat) : option nat :=
  if k =? 0 then size.1 else size.2.
Definition size_set (size : option nat * option nat) (k n : nat)
  : option nat * option nat :=
  if k =? 0 then (Some n, size.2) else (size.1, Some n).

(** [if size[k] is None: size[k] = v.size(0)], then
    [if size[k] != v.size(0): raise ValueError]. *)
Definition check_size (size : option nat * option nat) (k : nat) (v : PyVal)
  : Res (option nat * option nat) :=
  n ← py_size0 v;
  let size :=
    match size_get size k with
    | None => size_set size k n
    | Some _ => size
    end in
  match size_get size k with
  | Some n' => if n' =? n then Ok size else Raise ValueError
  | None => Raise ValueError
  end.

(** [torch.index_select(tmp, 0, idx)] on a Python value. *)
Definition py_index_select (tmp : PyVal) (idx : list nat) : Res PyVal :=
  match tmp with
  | VTensor a => a' ← torch.index_select a idx; Ok (VTensor a')
  | VLong l =>
      if forallb (fun i => i <? length l) idx
      then Ok (VLong (map (fun i => nth i l 0) idx))
      else Raise IndexError
  | _ => Raise TypeError
  end.

(** One turn of the first loop of [propagate_match] (lines 49-73). *)
Definition collect_match_arg (L : t) (edge_index : EdgeIndex)
    (kwargs : gmap string PyVal) (arg : string)
    (st : (option nat * option nat) * list PyVal)
  : Res ((option nat * option nat) * list PyVal) :=
  let '(size, margs) := st in
  if str_in (last2 arg) ["_i"; "_j"]%string
  then
    match default VNone (kwargs !! drop_last2 arg) with
    | VNone => Ok (size, margs ++ [VNone])
    | tmp =>
        let idx := ij L (last2 arg) in
        '(size, tmp) ←
          (match tmp with
           | VList l =>
               if negb (length l =? 2) then Raise AssertionError
               else
                 other ← py_getitem tmp (1 - idx);
                 size ← (match other with
                         | VNone => Ok size
                         | _ => check_size size (1 - idx) other
                         end);
                 tmp ← py_getitem tmp idx;
                 Ok (size, tmp)
           | _ => Ok (size, tmp)
           end);
        size ← check_size size idx tmp;
        tmp ← py_index_select tmp (edge_row idx edge_index);
        Ok (size, margs ++ [tmp])
    end
  else Ok (size, margs ++ [default VNone (kwargs !! arg)]).

(** One turn of the second loop (lines 81-85). *)
Definition insert_special_arg (L : t) (kwargs : gmap string PyVal)
    (p : nat * string) (margs : list PyVal) : Res (list PyVal) :=
  let '(idx, arg) := p in
  if str_in (last2 arg) ["_i"; "_j"]%string
  then
    c ← py_lookup kwargs (drop_last2 arg);
    v ← py_getitem c (ij L (last2 arg));
    Ok (py_insert idx v margs)
  else
    v ← py_lookup kwargs arg;
    Ok (py_insert idx v margs).

(** [update(out_attn, *update_args)]: [update] takes one argument. *)
Definition update_call (L : t) (aggr_out : Tensor) (extra : list PyVal) : Res Tensor :=
  match extra with
  | [] => update L aggr_out
  | _ => Raise TypeError
  end.

(** [propagate_match(self, edge_index, size=None, **kwargs)] *)
Definition propagate_match (L : t) (edge_index : EdgeIndex)
    (size : option (list (option nat))) (kwargs : gmap string PyVal) : Res Tensor :=
  size ← (match size with
          | None => Ok (None, None)
          | Some [a; b] => Ok (a, b)
          | Some _ => Raise AssertionError
          end);
  let i := ij L "_i" in
  '(size, margs) ← for_each (collect_match_arg L edge_index kwargs) match_args (size, []);
  let size := ((match size.1 with None => size.2 | Some a => Some a end), size.2) in
  let size := (size.1, (match size.2 with None => size.1 | Some b => Some b end)) in
  let kwargs := <["edge_index" := VEdges edge_index]> kwargs in
  let kwargs := <["size" := py_size [size.1; size.2]]> kwargs in
  margs ← for_each (insert_special_arg L kwargs) special_match_args margs;
  uargs ← mapM (py_lookup kwargs) (update_args L);
  out_attn ← match_ L margs;
  out_attn ← scatter (aggr L) out_attn (edge_row i edge_index) (size_get size i);
  update_call L out_attn uargs.

End GMNlayer.

(** ** [class GMNnet(torch.nn.Module)] *)

Module GMNnet.

Record t : Type := mk {
  device : string;
  num_layers : nat;
  embed : nn.Embedding;
  edge_embed : nn.Embedding;
  gmnlayer : GMNlayer.t;
  mlp_gate : nn.Linear
}.

(** What [__init__(vocablen, embedding_dim, num_layers, device)]
    establishes. *)
Definition init_ok (vocablen embedding_dim n_layers : nat) (N : t) : bool :=
  (num_layers N =? n_layers)
  && nn.Embedding_wf (embed N)
  && (nn.num_embeddings (embed N) =? vocablen)
  && (nn.embedding_dim (embed N) =? embedding_dim)
  && nn.Embedding_wf (edge_embed N)
  && (nn.num_embeddings (edge_embed N) =? 20)
  && (nn.embedding_dim (edge_embed N) =? embedding_dim)
  && GMNlayer.init_ok embedding_dim embedding_dim (gmnlayer N)
  && nn.Linear_wf (mlp_gate N)
  && (nn.in_features (mlp_gate N) =? embedding_dim)
  && (nn.out_features (mlp_gate N) =? 1).

(** [self.pool = GlobalAttention(gate_nn=self.mlp_gate)] *)
Definition pool (N : t) (x : Tensor) (batch : list nat) : Res Tensor :=
  torch_geometric.GlobalAttention_forward
    (nn.Sequential_Linear_Sigmoid (mlp_gate N)) x batch.

(** The tuple [data]: node indices of both graphs (index tensors of
    shape [N, 1]), both edge lists, and the edge attributes (index
    tensors of shape [E, 1], or [None]). *)
Definition Data : Type :=
  (list nat * list nat * EdgeIndex * EdgeIndex
   * option (list nat) * option (list nat))%type.

(** Lines 157-164: the edge weights. *)
Definition edge_weights (N : t) (edge_attr1 edge_attr2 : option (list nat))
  : Res (option Tensor * option Tensor) :=
  match edge_attr1 with
  | None => Ok (None, None)
  | Some a1 =>
      edge_weight1 ← nn.Embedding_forward (edge_embed N) a1;
      edge_weight1 ← nn.squeeze1 edge_weight1;
      edge_weight2 ← (match edge_attr2 with
                      | Some a2 => nn.Embedding_forward (edge_embed N) a2
                      | None => Raise TypeError
                      end);
      edge_weight2 ← nn.squeeze1 edge_weight2;
      Ok (Some edge_weight1, Some edge_weight2)
  end.

(** [forward(self, data, mode)] *)
Definition forward (N : t) (data : Data) : Res (Tensor * Tensor) :=
  let '(x1, x2, edge_index1, edge_index2, edge_attr1, edge_attr2) := data in
  x1 ← nn.Embedding_forward (embed N) x1;
  x1 ← nn.squeeze1 x1;
  x2 ← nn.Embedding_forward (embed N) x2;
  x2 ← nn.squeeze1 x2;
  '(edge_weight1, edge_weight2) ← edge_weights N edge_attr1 edge_attr2;
  '(x1, x2) ←
    for_range (num_layers N)
      (fun _ '(x1, x2) =>
         GMNlayer.forward (gmnlayer N) x1 x2 edge_index1 edge_index2
                          edge_weight1 edge_weight2)
      (x1, x2);
  let batch1 := replicate (size0 x1) 0 in
  let batch2 := replicate (size0 x2) 0 in
  hg1 ← pool N x1 batch1;
  hg2 ← pool N x2 batch2;
  Ok (hg1, hg2).

End GMNnet.

(** ** [class GGNN(torch.nn.Module)] *)

Module GGNN.

Record t : Type := mk {
  device : string;
  embed : nn.Embedding;
  edge_embed : nn.Embedding;
  ggnnlayer : torch_geometric.GatedGraphConv;
  mlp_gate : nn.Linear
}.

(** What [__init__(vocablen, embedding_dim, num_layers, device)]
    establishes. *)
Definition init_ok (vocablen embedding_dim n_layers : nat) (G : t) : bool :=
  nn.Embedding_wf (embed G)
  && (nn.num_embeddings (embed G) =? vocablen)
  && (nn.embedding_dim (embed G) =? embedding_dim)
  && nn.Embedding_wf (edge_embed G)
  && (nn.num_embeddings (edge_embed G) =? 20)
  && (nn.embedding_dim (edge_embed G) =? embedding_dim)
  && torch_geometric.GatedGraphConv_wf (ggnnlayer G)
  && (torch_geometric.out_channels (ggnnlayer G) =? embedding_dim)
  && (torch_geometric.num_layers (ggnnlayer G) =? n_layers)
  && nn.Linear_wf (mlp_gate G)
  && (nn.in_features (mlp_gate G) =? embedding_dim)
  && (nn.out_features (mlp_gate G) =? 1).

Definition pool (G : t) (x : Tensor) (batch : list nat) : Res Tensor :=
  torch_geometric.GlobalAttention_forward
    (nn.Sequential_Linear_Sigmoid (mlp_gate G)) x batch.

Definition Data : Type := (list nat * EdgeIndex * option (list nat))%type.

(** [forward(self, data)] *)
Definition forward (G : t) (data : Data) : Res Tensor :=
  let '(x, edge_index, edge_attr) := data in
  x ← nn.Embedding_forward (embed G) x;
  x ← nn.squeeze1 x;
  edge_weight ← (match edge_attr with
                 | None => Ok None
                 | Some a =>
                     edge_weight ← nn.Embedding_forward (edge_embed G) a;
                     edge_weight ← nn.squeeze1 edge_weight;
                     Ok (Some edge_weight)
                 end);
  x ← torch_geometric.GatedGraphConv_forward (ggnnlayer G) x edge_index;
  let batch := replicate (size0 x) 0 in
  hg ← pool G x batch;
  Ok hg.

End GGNN.

(** * Notions the properties are stated with *)

(** Every entry is non-negative; every row sums to one. *)
Definition nonneg_rows (a : Tensor) : Prop :=
  Forall (fun r => Forall (fun y => (0 <= y)%R) r) (rows a).
Definition unit_rows (a : Tensor) : Prop :=
  Forall (fun r => Rsum r = 1%R) (rows a).

(** [sum_to n f] is the sum of [f 0], ..., [f (n - 1)]. *)
Definition sum_to (n : nat) (f : nat -> R) : R := Rsum (map f (seq 0 n)).

(** Both ends of every edge are nodes of a graph with [n] nodes. *)
Definition valid_edges (n : nat) (ei : EdgeIndex) : bool :=
  forallb (fun e => (e.1 <? n) && (e.2 <? n)) ei.

(** Edge weights are absent, or one row of [d] entries per edge. *)
Definition valid_weight (E d : nat) (edge_weight : option Tensor) : bool :=
  match edge_weight with
  | None => true
  | Some w => wfT w && (size0 w =? E) && (ncols w =? d)
  end.

(** The weight row of every edge: ones when there are no weights. *)
Definition edge_weight_rows (E d : nat) (edge_weight : option Tensor)
  : list (list R) :=
  match edge_weight with
  | None => replicate E (replicate d 1%R)
  | Some w => rows w
  end.

(** The message of one edge from node [j] to node [i] with weight row
    [w]: [relu(fmessage(cat(x_i, x_j, w)))]. *)
Definition edge_message (L : GMNlayer.t) (x : Tensor) (ji : nat * nat)
    (w : list R) : list R :=
  map (Rmax 0)
      (nn.affine (GMNlayer.fmessage L) (row ji.2 x ++ row ji.1 x ++ w)).

(** The edges that arrive at node [v], each with its weight row. *)
Definition incoming (v : nat) (ei : EdgeIndex) (W : list (list R))
  : list ((nat * nat) * list R) :=
  List.filter (fun p => p.1.2 =? v) (combine ei W).

(** The sum, at node [v], of the messages of the edges that arrive there. *)
Definition aggregate (L : GMNlayer.t) (x : Tensor) (ei : EdgeIndex)
    (edge_weight : option Tensor) (v : nat) : list R :=
  fold_left vadd
    (map (fun p => edge_message L x p.1 p.2)
         (incoming v ei (edge_weight_rows (length ei) (ncols x) edge_weight)))
    (vzero (nn.out_features (GMNlayer.fmessage L))).

(** A graph the layer accepts: node features of width [d], edges between
    its nodes, and edge weights absent or of shape [E, d]. *)
Definition valid_graph (d : nat) (x : Tensor) (ei : EdgeIndex)
    (ew : option Tensor) : bool :=
  wfT x && (ncols x =? d) && valid_edges (size0 x) ei
  && valid_weight (length ei) d ew.

(** Edge attributes are absent, or index the 20 rows of the edge table,
    one index per edge, for both graphs. *)
Definition valid_attrs (E1 E2 : nat) (edge_attr1 edge_attr2 : option (list nat)) : bool :=
  match edge_attr1 with
  | None => true
  | Some a1 =>
      forallb (fun i => i <? 20) a1 && (length a1 =? E1)
      && match edge_attr2 with
         | Some a2 => forallb (fun i => i <? 20) a2 && (length a2 =? E2)
         | None => false
         end
  end.

(** A pair of graphs with valid vocabulary indices. *)
Definition valid_data (vocablen : nat) (data : GMNnet.Data) : bool :=
  let '(x1, x2, edge_index1, edge_index2, edge_attr1, edge_attr2) := data in
  forallb (fun i => i <? vocablen) x1
  && forallb (fun i => i <? vocablen) x2
  && valid_edges (length x1) edge_index1
  && valid_edges (length x2) edge_index2
  && valid_attrs (length edge_index1) (length edge_index2) edge_attr1 edge_attr2.

(** Edge attributes are absent or index the 20 rows of the edge table. *)
Definition valid_edge_attr (edge_attr : option (list nat)) : bool :=
  match edge_attr with
  | None => true
  | Some a => forallb (fun i => i <? 20) a
  end.

(** One graph with valid vocabulary indices. *)
Definition GGNN_valid_data (vocablen : nat) (data : GGNN.Data) : bool :=
  let '(x, edge_index, edge_attr) := data in
  forallb (fun i => i <? vocablen) x
  && valid_edges (length x) edge_index
  && valid_edge_attr edge_attr.

(** The expression both branches of [message] evaluate. *)
Definition message_body (L : GMNlayer.t) (x_i x_j edge_weight : Tensor) : Res Tensor :=
  c ← torch.cat1 [x_i; x_j; edge_weight];
  m ← nn.Linear_forward (GMNlayer.fmessage L) c;
  Ok (torch.relu m).

(** ** A small network and two small graphs *)

Definition lin (n_in n_out : nat) (w : R) : nn.Linear :=
  nn.mkLinear n_in n_out (replicate n_out (replicate n_in w)) (replicate n_out 0%R).

Definition gru0 (n_in n_hid : nat) : nn.GRUCell :=
  nn.mkGRUCell n_in n_hid
    (lin n_in n_hid 1) (lin n_in n_hid 1) (lin n_in n_hid 1)
    (lin n_hid n_hid 1) (lin n_hid n_hid 1) (lin n_hid n_hid 1).

(** A layer as [GMNlayer(1, 1, "cpu")] builds it. *)
Definition layer0 : GMNlayer.t :=
  GMNlayer.mk "cpu" 1 (lin 3 1 1) (gru0 2 1) "source_to_target" "add" [].

(** A network as [GMNnet(2, 1, 2, "cpu")] builds it. *)
Definition net0 : GMNnet.t :=
  GMNnet.mk "cpu" 2
    (nn.mkEmbedding 2 1 [[1%R]; [2%R]])
    (nn.mkEmbedding 20 1 (replicate 20 [1%R]))
    layer0 (lin 1 1 1).

(** A network as [GGNN(2, 1, 2, "cpu")] builds it. *)
Definition ggnn0 : GGNN.t :=
  GGNN.mk "cpu"
    (nn.mkEmbedding 2 1 [[1%R]; [2%R]])
    (nn.mkEmbedding 20 1 (replicate 20 [1%R]))
    (torch_geometric.mkGatedGraphConv 1 2
       [mkTensor 1 [[1%R]]; mkTensor 1 [[1%R]]] (gru0 1 1))
    (lin 1 1 1).

(** Graph 1 has two nodes and one edge from node 0 to node 1; graph 2
    has one node and no edge. *)
Definition X1 : Tensor := mkTensor 1 [[1%R]; [2%R]].
Definition X2 : Tensor := mkTensor 1 [[2%R]].
Definition data0 : GMNnet.Data := ([0; 1], [1], [(0, 1)], [], Some [3], Some []).
Definition gdata0 : GGNN.Data := ([0; 1], [(0, 1)], Some [3]).

(** A pair of graphs of which the first has no node. *)
Definition data_empty : GMNnet.Data := ([], [1], [], [], None, None).

(** ** Notions of the further properties *)

(** Edge weights, when given, are a tensor whose rows have its width. *)
Definition wf_weight (edge_weight : option Tensor) : bool :=
  match edge_weight with
  | None => true
  | Some w => wfT w
  end.

(** The width of the edge weights [message] works with. *)
Definition weight_cols (d : nat) (ew : option Tensor) : nat :=
  match ew with
  | None => d
  | Some w => ncols w
  end.

(** Lines 33-39 of [GMNlayer.__init__] for any list [argspec] of the
    parameter names of [match]: the special names with their positions,
    and the other names. *)
Definition special_of (argspec : list string) : list (nat * string) :=
  List.filter (fun p => str_in p.2 special_args) (imap pair argspec).
Definition plain_of (argspec : list string) : list string :=
  List.filter (fun arg => negb (str_in arg special_args)) argspec.

(** The value that the second loop of [propagate_match] (lines 81-85)
    inserts for the special name [arg]: [kwargs[arg[:-2]][ij[arg[-2:]]]]
    or [kwargs[arg]]. *)
Definition special_value (L : GMNlayer.t) (kwargs : gmap string PyVal)
    (arg : string) : Res PyVal :=
  if str_in (last2 arg) ["_i"; "_j"]%string
  then c ← py_lookup kwargs (drop_last2 arg); py_getitem c (GMNlayer.ij L (last2 arg))
  else py_lookup kwargs arg.

(** The inserts of the second loop, each name standing for the value
    [val] gives it: [match_args.insert(idx, val(arg))]. *)
Definition insert_specials {A : Type} (val : string -> A)
    (specials : list (nat * string)) (margs : list A) : list A :=
  fold_left (fun acc p => py_insert p.1 (val p.2) acc) specials margs.

(** The values of [kwargs] after lines 78-79 for one edge and two nodes,
    and the values of the parameters of [match] they lead to. *)
Definition kwargs0 : gmap string PyVal :=
  <["size"%string := VList [VInt 2; VInt 2]]>
    (<["edge_index"%string := VEdges [(0, 1)]]> ∅).
Definition val0 (arg : string) : PyVal :=
  if String.eqb arg "edge_index_i" then VLong [1]
  else if String.eqb arg "size_i" then VInt 2
  else VTensor X1.

(** * Properties *)

(** ** The result monad *)

Lemma bind_Ok {A B : Type} (a : A) (k : A -> Res B) : (Ok a ≫= k) = k a.
Proof. reflexivity. Qed.

Lemma bind_inv {A B : Type} (m : Res A) (k : A -> Res B) (b : B) :
  (m ≫= k) = Ok b -> exists a, m = Ok a /\ k a = Ok b.
Proof. destruct m as [a|e]; simpl; [eauto | discriminate]. Qed.

(** ** Shapes *)

Lemma wfT_Forall (a : Tensor) :
  wfT a = true <-> Forall (fun r => length r = ncols a) (rows a).
Proof.
  unfold wfT. rewrite forallb_forall, List.Forall_forall.
  split; intros H r Hr; specialize (H r Hr).
  - by apply Nat.eqb_eq.
  - by apply Nat.eqb_eq.
Qed.

Lemma wfT_row (a : Tensor) (i : nat) :
  wfT a = true -> i < size0 a -> length (row i a) = ncols a.
Proof.
  intros Hwf Hi. apply wfT_Forall in Hwf.
  rewrite List.Forall_forall in Hwf. apply Hwf. apply nth_In. exact Hi.
Qed.

Lemma forallb_lt_Forall (n : nat) (l : list nat) :
  forallb (fun i => i <? n) l = true <-> Forall (fun i => i < n) l.
Proof.
  rewrite forallb_forall, List.Forall_forall.
  split; intros H i Hi; specialize (H i Hi); by apply Nat.ltb_lt.
Qed.

Lemma length_vadd (u v : list R) : length (vadd u v) = min (length u) (length v).
Proof. unfold vadd. apply length_zip_with. Qed.

Lemma size0_t (a : Tensor) : size0 (torch.t a) = ncols a.
Proof. unfold size0, torch.t. simpl. by rewrite length_map, length_seq. Qed.

Lemma ncols_t (a : Tensor) : ncols (torch.t a) = size0 a.
Proof. reflexivity. Qed.

Lemma wfT_t (a : Tensor) : wfT (torch.t a) = true.
Proof.
  apply wfT_Forall. simpl. apply List.Forall_forall. intros r Hr.
  apply in_map_iff in Hr as (j & <- & _). unfold col. by rewrite length_map.
Qed.

Lemma mm_Ok (a b : Tensor) :
  ncols a = size0 b ->
  exists c, torch.mm a b = Ok c /\ size0 c = size0 a /\ ncols c = ncols b
            /\ wfT c = true
            /\ forall i, i < size0 a ->
                 row i c = map (fun j => dot (row i a) (col j b)) (seq 0 (ncols b)).
Proof.
  intros H. unfold torch.mm. rewrite (proj2 (Nat.eqb_eq _ _) H).
  eexists; split; [reflexivity|]. unfold size0, row; simpl. repeat split.
  - by rewrite length_map.
  - apply wfT_Forall. simpl. apply List.Forall_forall. intros r Hr.
    apply in_map_iff in Hr as (j & <- & _). by rewrite length_map, length_seq.
  - intros i Hi.
    rewrite (nth_indep _ [] (map (fun j => dot [] (col j b)) (seq 0 (ncols b))))
      by (by rewrite length_map).
    by rewrite (map_nth (fun r => map (fun j => dot r (col j b)) (seq 0 (ncols b)))).
Qed.

(** ** Sums and rows *)

Lemma nth_zip_with {A B C : Type} (f : A -> B -> C) (l : list A) (k : list B)
    (i : nat) (da : A) (db : B) (dc : C) :
  i < length l -> i < length k ->
  nth i (zip_with f l k) dc = f (nth i l da) (nth i k db).
Proof.
  revert k i. induction l as [|a l IH]; intros [|b k] [|i]; simpl; try lia; auto.
  intros H1 H2. apply IH; lia.
Qed.

Lemma nth_map_seq {A : Type} (f : nat -> A) (n i : nat) (d : A) :
  i < n -> nth i (map f (seq 0 n)) d = f i.
Proof.
  intros Hi. rewrite (nth_indep _ d (f 0)) by (by rewrite length_map, length_seq).
  rewrite (map_nth f). by rewrite seq_nth.
Qed.

Lemma nth_map_lt {A B : Type} (f : A -> B) (l : list A) (i : nat) (da : A) (db : B) :
  i < length l -> nth i (map f l) db = f (nth i l da).
Proof.
  intros Hi. rewrite (nth_indep _ db (f da)) by (by rewrite length_map).
  apply map_nth.
Qed.

(** A row of the softmax has the length of its argument. *)
Lemma softmax_row_length (v : list R) : length (torch.softmax_row v) = length v.
Proof. unfold torch.softmax_row. by rewrite length_map. Qed.

Lemma dot_sum (u v : list R) (n : nat) :
  length u = n -> length v = n ->
  dot u v = Rsum (map (fun k => (nth k u 0 * nth k v 0)%R) (seq 0 n)).
Proof.
  unfold dot. revert v n. induction u as [|a u IH]; intros [|b v] n Hu Hv;
    simpl in *; subst; try discriminate; [reflexivity|].
  injection Hv as Hv. simpl. f_equal.
  rewrite (IH v (length u)) by done. rewrite <- seq_shift, map_map. reflexivity.
Qed.

Lemma col_nth (a : Tensor) (j k : nat) : nth k (col j a) 0%R = entry k j a.
Proof.
  unfold col, entry, row.
  destruct (Nat.lt_ge_cases k (length (rows a))) as [Hk|Hk].
  - by rewrite (nth_map_lt _ _ _ []).
  - rewrite (nth_overflow (map _ _)) by (rewrite length_map; lia).
    rewrite (nth_overflow (rows a)) by lia. by destruct j.
Qed.

Lemma col_length (a : Tensor) (j : nat) : length (col j a) = size0 a.
Proof. unfold col, size0. by rewrite length_map. Qed.

(** The columns of the transpose are the rows. *)
Lemma col_t (a : Tensor) (i : nat) :
  wfT a = true -> i < size0 a -> col i (torch.t a) = row i a.
Proof.
  intros Hwf Hi. pose proof (wfT_row a i Hwf Hi) as Hlen.
  unfold col, torch.t; simpl. rewrite map_map.
  apply nth_ext with (d := 0%R) (d' := 0%R).
  - by rewrite length_map, length_seq.
  - intros n Hn. rewrite length_map, length_seq in Hn.
    rewrite nth_map_seq by done. rewrite col_nth. reflexivity.
Qed.

Lemma row_t (a : Tensor) (j : nat) :
  j < ncols a -> row j (torch.t a) = col j a.
Proof. intros Hj. unfold row, torch.t; simpl. by rewrite nth_map_seq. Qed.

Lemma wfT_intro (a : Tensor) :
  (forall i, i < size0 a -> length (row i a) = ncols a) -> wfT a = true.
Proof.
  intros H. apply wfT_Forall, List.Forall_forall. intros r Hr.
  destruct (In_nth _ _ [] Hr) as (i & Hi & <-). by apply H.
Qed.

Lemma entry_row (a : Tensor) (i j : nat) : nth j (row i a) 0%R = entry i j a.
Proof. reflexivity. Qed.

Lemma mm_entry (a b c : Tensor) (i j : nat) :
  torch.mm a b = Ok c -> i < size0 a -> j < ncols b ->
  entry i j c = dot (row i a) (col j b).
Proof.
  unfold torch.mm. destruct (ncols a =? size0 b); [|discriminate].
  intros [= <-] Hi Hj. unfold entry, row at 1. simpl.
  rewrite (nth_map_lt _ _ _ []) by done. by rewrite nth_map_seq.
Qed.

Lemma sub_Ok (a b : Tensor) :
  size0 a = size0 b -> ncols a = ncols b -> wfT a = true -> wfT b = true ->
  exists c, torch.sub a b = Ok c /\ size0 c = size0 a /\ ncols c = ncols a
            /\ wfT c = true
            /\ (forall i, i < size0 a -> row i c = vsub (row i a) (row i b))
            /\ (forall i j, i < size0 a -> j < ncols a ->
                  entry i j c = (entry i j a - entry i j b)%R).
Proof.
  intros H0 H1 Ha Hb. unfold torch.sub.
  rewrite (proj2 (Nat.eqb_eq _ _) H0), (proj2 (Nat.eqb_eq _ _) H1). simpl.
  eexists; split; [reflexivity|].
  assert (Hlen : length (zip_with vsub (rows a) (rows b)) = size0 a).
  { rewrite length_zip_with. unfold size0 in *. lia. }
  assert (Hrow : forall i, i < size0 a ->
            nth i (zip_with vsub (rows a) (rows b)) [] = vsub (row i a) (row i b)).
  { intros i Hi. apply nth_zip_with; unfold size0 in *; lia. }
  unfold size0 at 1, row at 1, entry at 1, row at 1. simpl.
  repeat split; try done.
  - apply wfT_intro. unfold size0, row. simpl. intros i Hi. rewrite Hlen in Hi.
    rewrite Hrow by done. unfold vsub. rewrite length_zip_with.
    rewrite (wfT_row a i), (wfT_row b i) by (done || lia). lia.
  - intros i j Hi Hj. unfold entry at 1, row at 1. simpl.
    rewrite Hrow by done. unfold vsub, entry.
    rewrite (nth_zip_with _ _ _ _ 0%R 0%R); [reflexivity| |].
    + by rewrite (wfT_row a i).
    + rewrite (wfT_row b i) by (done || lia). lia.
Qed.

(** [F.softmax(s, dim=1)] works row by row. *)
Lemma softmax_dim1 (s : Tensor) :
  torch.softmax s 1 = Ok (mkTensor (ncols s) (map torch.softmax_row (rows s))).
Proof. reflexivity. Qed.

(** [F.softmax(s, dim=0).t()] is the row-wise softmax of the transpose. *)
Lemma softmax_dim0_t (s : Tensor) :
  wfT s = true ->
  exists s0, torch.softmax s 0 = Ok s0
    /\ torch.t s0 = mkTensor (size0 s) (map torch.softmax_row (rows (torch.t s))).
Proof.
  intros Hwf. eexists; split; [reflexivity|].
  unfold torch.t at 1. unfold size0 at 1. simpl. rewrite length_map. f_equal.
  rewrite map_map. apply map_ext_in. intros j Hj. apply in_seq in Hj.
  unfold col at 1. simpl. rewrite map_map. unfold torch.softmax_row, col.
  rewrite map_map. apply map_ext_in. intros r Hr.
  apply wfT_Forall in Hwf. rewrite List.Forall_forall in Hwf.
  rewrite (nth_zip_with _ _ _ _ 0%R 0%R).
  - rewrite nth_map_seq by lia. by rewrite map_map.
  - rewrite (Hwf r Hr). lia.
  - rewrite length_map, length_seq. lia.
Qed.

Lemma softmax_row_nth (v : list R) (k : nat) :
  k < length v ->
  nth k (torch.softmax_row v) 0%R = (exp (nth k v 0) / Rsum (map exp v))%R.
Proof. intros Hk. unfold torch.softmax_row. by rewrite (nth_map_lt _ _ _ 0%R). Qed.

Lemma softmax_tensor_shape (l : list (list R)) (n : nat) :
  Forall (fun r => length r = n) l ->
  let a := mkTensor n (map torch.softmax_row l) in
  size0 a = length l /\ ncols a = n /\ wfT a = true
  /\ forall i, i < length l -> row i a = torch.softmax_row (nth i l []).
Proof.
  intros H a. unfold size0, row. simpl. rewrite length_map. repeat split.
  - apply wfT_Forall. simpl. apply List.Forall_forall. intros r Hr.
    apply in_map_iff in Hr as (v & <- & Hv). rewrite softmax_row_length.
    rewrite List.Forall_forall in H. by apply H.
  - intros i Hi. by rewrite (nth_map_lt _ _ _ []).
Qed.

Lemma rows_length_Forall (a : Tensor) :
  wfT a = true -> Forall (fun r => length r = ncols a) (rows a).
Proof. apply wfT_Forall. Qed.

Lemma col_as_map (a : Tensor) (j : nat) :
  col j a = map (fun i => entry i j a) (seq 0 (size0 a)).
Proof.
  apply nth_ext with (d := 0%R) (d' := 0%R).
  - by rewrite col_length, length_map, length_seq.
  - intros n Hn. rewrite col_length in Hn. rewrite col_nth.
    by rewrite nth_map_seq.
Qed.

(** The score matrix [x1 @ x2^T] holds the inner products of the rows. *)
Lemma scores_spec (x1 x2 : Tensor) :
  wfT x1 = true -> wfT x2 = true -> ncols x1 = ncols x2 ->
  exists s, torch.mm x1 (torch.t x2) = Ok s
    /\ size0 s = size0 x1 /\ ncols s = size0 x2 /\ wfT s = true
    /\ forall i k, i < size0 x1 -> k < size0 x2 ->
         entry i k s = dot (row i x1) (row k x2).
Proof.
  intros H1 H2 Hd.
  destruct (mm_Ok x1 (torch.t x2)) as (s & Hs & Hs0 & Hs1 & Hswf & _).
  { by rewrite size0_t. }
  exists s. rewrite ncols_t in Hs1. repeat split; try done.
  intros i k Hi Hk. rewrite (mm_entry _ _ _ _ _ Hs) by (done || by rewrite ncols_t).
  by rewrite col_t.
Qed.

Lemma row_as_map (a : Tensor) (i : nat) :
  wfT a = true -> i < size0 a ->
  row i a = map (fun j => entry i j a) (seq 0 (ncols a)).
Proof.
  intros Hwf Hi. apply nth_ext with (d := 0%R) (d' := 0%R).
  - by rewrite (wfT_row a i), length_map, length_seq.
  - intros n Hn. rewrite (wfT_row a i) in Hn by done. by rewrite nth_map_seq.
Qed.

(** An entry of a matrix product is a sum over the inner dimension. *)
Lemma mm_entry_sum (a b c : Tensor) (i j : nat) :
  torch.mm a b = Ok c -> wfT a = true -> ncols a = size0 b ->
  i < size0 a -> j < ncols b ->
  entry i j c = sum_to (size0 b) (fun k => (entry i k a * entry k j b)%R).
Proof.
  intros Hc Hwf Hn Hi Hj. rewrite (mm_entry _ _ _ _ _ Hc) by done.
  rewrite (dot_sum _ _ (size0 b)).
  - unfold sum_to. apply (f_equal Rsum). apply map_ext. intros k.
    by rewrite col_nth.
  - rewrite (wfT_row a i) by done. exact Hn.
  - apply col_length.
Qed.

Lemma sum_to_ext (n : nat) (f g : nat -> R) :
  (forall k, k < n -> f k = g k) -> sum_to n f = sum_to n g.
Proof.
  intros H. unfold sum_to. apply (f_equal Rsum). apply map_ext_in.
  intros k Hk. apply in_seq in Hk. apply H. lia.
Qed.

(** Lines 108-114 of [GMNlayer.forward]. *)
Lemma forward_attention_spec (x1 x2 : Tensor) :
  wfT x1 = true -> wfT x2 = true -> ncols x1 = ncols x2 ->
  exists attn_1 attn_2 u1 u2,
    GMNlayer.forward_attention x1 x2 = Ok (attn_1, attn_2, u1, u2)
    /\ (size0 attn_1 = size0 x1 /\ ncols attn_1 = size0 x2 /\ wfT attn_1 = true)
    /\ (size0 attn_2 = size0 x2 /\ ncols attn_2 = size0 x1 /\ wfT attn_2 = true)
    /\ (forall i k, i < size0 x1 -> k < size0 x2 ->
          entry i k attn_1
          = (exp (dot (row i x1) (row k x2))
             / sum_to (size0 x2) (fun k' => exp (dot (row i x1) (row k' x2))))%R)
    /\ (forall k i, k < size0 x2 -> i < size0 x1 ->
          entry k i attn_2
          = (exp (dot (row i x1) (row k x2))
             / sum_to (size0 x1) (fun i' => exp (dot (row i' x1) (row k x2))))%R)
    /\ (size0 u1 = size0 x1 /\ ncols u1 = ncols x1 /\ wfT u1 = true)
    /\ (size0 u2 = size0 x2 /\ ncols u2 = ncols x2 /\ wfT u2 = true)
    /\ (forall i c, i < size0 x1 -> c < ncols x1 ->
          entry i c u1
          = (entry i c x1
             - sum_to (size0 x2) (fun k => entry i k attn_1 * entry k c x2))%R)
    /\ (forall k c, k < size0 x2 -> c < ncols x2 ->
          entry k c u2
          = (entry k c x2
             - sum_to (size0 x1) (fun i => entry k i attn_2 * entry i c x1))%R).
Proof.
  intros H1 H2 Hd.
  destruct (scores_spec x1 x2 H1 H2 Hd) as (s & Hs & Hs0 & Hs1 & Hswf & Hse).
  destruct (softmax_dim0_t s Hswf) as (s0 & Hsm0 & Ht).
  destruct (softmax_tensor_shape (rows s) (ncols s) (rows_length_Forall s Hswf))
    as (Ha0 & Ha1 & Hawf & Harow).
  destruct (softmax_tensor_shape (rows (torch.t s)) (size0 s)
              (rows_length_Forall (torch.t s) (wfT_t s)))
    as (Hb0 & Hb1 & Hbwf & Hbrow).
  set (a1 := mkTensor (ncols s) (map torch.softmax_row (rows s))) in *.
  set (a2 := mkTensor (size0 s) (map torch.softmax_row (rows (torch.t s)))) in *.
  fold (size0 s) in Ha0, Harow. fold (size0 (torch.t s)) in Hb0, Hbrow.
  rewrite size0_t in Hb0, Hbrow.
  destruct (mm_Ok a1 x2) as (as1 & Has1 & Has1_0 & Has1_1 & Has1wf & _);
    [lia|].
  destruct (mm_Ok a2 x1) as (as2 & Has2 & Has2_0 & Has2_1 & Has2wf & _);
    [lia|].
  destruct (sub_Ok x1 as1) as (u1 & Hu1 & Hu1_0 & Hu1_1 & Hu1wf & _ & Hu1e);
    [lia | lia | done | done |].
  destruct (sub_Ok x2 as2) as (u2 & Hu2 & Hu2_0 & Hu2_1 & Hu2wf & _ & Hu2e);
    [lia | lia | done | done |].
  exists a1, a2, u1, u2.
  split.
  { unfold GMNlayer.forward_attention. rewrite Hs, bind_Ok, softmax_dim1, bind_Ok.
    rewrite Hsm0, !bind_Ok, Ht. fold a1 a2.
    by rewrite Has1, bind_Ok, Has2, bind_Ok, Hu1, bind_Ok, Hu2, bind_Ok. }
  split; [repeat split; (done || lia)|].
  split; [repeat split; (done || lia)|].
  assert (He1 : forall i k, i < size0 x1 -> k < size0 x2 ->
            entry i k a1
            = (exp (dot (row i x1) (row k x2))
               / sum_to (size0 x2) (fun k' => exp (dot (row i x1) (row k' x2))))%R).
  { intros i k Hi Hk. unfold entry at 1. rewrite Harow by lia.
    fold (row i s). rewrite softmax_row_nth by (rewrite (wfT_row s i); (done || lia)).
    rewrite entry_row, Hse by done. f_equal.
    rewrite (row_as_map s i) by (done || lia). rewrite map_map, Hs1.
    apply sum_to_ext. intros k' Hk'. by rewrite Hse. }
  assert (He2 : forall k i, k < size0 x2 -> i < size0 x1 ->
            entry k i a2
            = (exp (dot (row i x1) (row k x2))
               / sum_to (size0 x1) (fun i' => exp (dot (row i' x1) (row k x2))))%R).
  { intros k i Hk Hi. unfold entry at 1. rewrite Hbrow by lia.
    fold (row k (torch.t s)). rewrite row_t by lia.
    rewrite softmax_row_nth by (rewrite col_length; lia).
    rewrite col_nth, Hse by done. f_equal.
    rewrite col_as_map, map_map, Hs0.
    apply sum_to_ext. intros i' Hi'. by rewrite Hse. }
  split; [exact He1|]. split; [exact He2|].
  split; [done|]. split; [done|].
  split.
  - intros i c Hi Hc. rewrite Hu1e by done. f_equal.
    apply (mm_entry_sum a1 x2 as1); (done || lia).
  - intros k c Hk Hc. rewrite Hu2e by done. f_equal.
    apply (mm_entry_sum a2 x1 as2); (done || lia).
Qed.

(** ** Gathering and scattering along the edges *)

Lemma index_select_Ok (a : Tensor) (idx : list nat) :
  Forall (fun i => i < size0 a) idx ->
  torch.index_select a idx = Ok (mkTensor (ncols a) (map (fun i => row i a) idx)).
Proof.
  intros H. unfold torch.index_select.
  by rewrite (proj2 (forallb_lt_Forall _ _) H).
Qed.

Lemma nth_insert_vadd (acc : list (list R)) (v : nat) (r : list R) :
  nth v (<[v := vadd (nth v acc []) r]> acc) [] = vadd (nth v acc []) r.
Proof.
  destruct (Nat.lt_ge_cases v (length acc)) as [Hv|Hv].
  - rewrite (nth_lookup (<[v := _]> acc)). by rewrite list_lookup_insert_eq.
  - rewrite list_insert_ge by done. by rewrite (nth_overflow acc) by done.
Qed.

Lemma nth_insert_ne {A : Type} (acc : list A) (i v : nat) (y d : A) :
  i <> v -> nth v (<[i := y]> acc) d = nth v acc d.
Proof. intros Hne. rewrite !nth_lookup. by rewrite list_lookup_insert_ne. Qed.

(** After the scatter loop, row [v] holds what it held before plus the
    rows sent to [v], added in the order of the edges. *)
Lemma scatter_fold_row (ps : list (nat * list R)) (acc : list (list R)) (v : nat) :
  nth v (fold_left torch.scatter_step ps acc) []
  = fold_left vadd (map snd (List.filter (fun p => p.1 =? v) ps)) (nth v acc []).
Proof.
  revert acc. induction ps as [|[i r] ps IH]; intros acc; simpl; [reflexivity|].
  rewrite IH. unfold torch.scatter_step. simpl.
  destruct (i =? v) eqn:E; simpl.
  - apply Nat.eqb_eq in E. subst i. by rewrite nth_insert_vadd.
  - apply Nat.eqb_neq in E. by rewrite nth_insert_ne.
Qed.

Lemma scatter_fold_length (ps : list (nat * list R)) (acc : list (list R)) :
  length (fold_left torch.scatter_step ps acc) = length acc.
Proof.
  revert acc. induction ps as [|p ps IH]; intros acc; simpl; [reflexivity|].
  rewrite IH. unfold torch.scatter_step. apply length_insert.
Qed.

Lemma nth_replicate_lt {A : Type} (n i : nat) (x d : A) :
  i < n -> nth i (replicate n x) d = x.
Proof.
  revert i. induction n as [|n IH]; intros [|i] Hi; simpl; try lia; auto.
  apply IH. lia.
Qed.

Lemma length_fold_vadd (l : list (list R)) (r : list R) (d : nat) :
  length r = d -> Forall (fun m => length m = d) l ->
  length (fold_left vadd l r) = d.
Proof.
  revert r. induction l as [|m l IH]; intros r Hr Hl; simpl; [done|].
  inversion Hl; subst. apply IH; [|done]. rewrite length_vadd. lia.
Qed.

Lemma scatter_add_Ok (src : Tensor) (idx : list nat) (n : nat) :
  length idx = size0 src -> Forall (fun i => i < n) idx ->
  exists out, torch.scatter_add src idx n = Ok out
    /\ size0 out = n /\ ncols out = ncols src
    /\ forall v, v < n ->
         row v out
         = fold_left vadd
             (map snd (List.filter (fun p => p.1 =? v) (combine idx (rows src))))
             (vzero (ncols src)).
Proof.
  intros Hlen Hidx. unfold torch.scatter_add.
  rewrite (proj2 (Nat.eqb_eq _ _) Hlen). simpl.
  rewrite (proj2 (forallb_lt_Forall _ _) Hidx).
  eexists; split; [reflexivity|]. unfold size0, row. simpl.
  rewrite scatter_fold_length, length_replicate. repeat split.
  intros v Hv. rewrite scatter_fold_row. by rewrite nth_replicate_lt.
Qed.

(** ** Message passing, edge by edge and node by node *)

Lemma valid_edges_Forall (n : nat) (ei : EdgeIndex) :
  valid_edges n ei = true ->
  Forall (fun i => i < n) (edge_row 0 ei) /\ Forall (fun i => i < n) (edge_row 1 ei).
Proof.
  unfold valid_edges. rewrite forallb_forall. intros H.
  split; apply List.Forall_forall; intros i Hi; simpl in Hi;
    apply in_map_iff in Hi as (e & <- & He); specialize (H e He);
    apply andb_true_iff in H as [H1 H2];
    [by apply Nat.ltb_lt in H1 | by apply Nat.ltb_lt in H2].
Qed.

Lemma gather_messages (g : list R -> list R) (rx : nat -> list R) (v : nat)
    (ei : EdgeIndex) (W : list (list R)) :
  length W = length ei ->
  map snd
    (List.filter (fun p => p.1 =? v)
       (combine (map snd ei)
          (map g (zip_with app (map rx (map snd ei))
                    (zip_with app (map rx (map fst ei)) W)))))
  = map (fun p => g (rx p.1.2 ++ rx p.1.1 ++ p.2))
        (List.filter (fun p => p.1.2 =? v) (combine ei W)).
Proof.
  revert W. induction ei as [|[j i] ei IH]; intros [|w W] Hlen;
    simpl in *; try discriminate; [reflexivity|].
  injection Hlen as Hlen. destruct (i =? v); simpl; by rewrite IH.
Qed.

Lemma affine_length (L : nn.Linear) (r : list R) :
  nn.Linear_wf L = true -> length (nn.affine L r) = nn.out_features L.
Proof.
  unfold nn.Linear_wf. rewrite !andb_true_iff, !Nat.eqb_eq. intros [[Hw _] Hb].
  unfold nn.affine. rewrite length_vadd, length_map. lia.
Qed.

Lemma edge_weight_rows_length (E d : nat) (ew : option Tensor) :
  valid_weight E d ew = true -> length (edge_weight_rows E d ew) = E.
Proof.
  destruct ew as [w|]; simpl.
  - rewrite !andb_true_iff, !Nat.eqb_eq. by intros [[_ H] _].
  - intros _. apply length_replicate.
Qed.

(** [GMNlayer.message] on rows gathered along [E] edges. *)
Lemma message_Ok (L : GMNlayer.t) (x_i x_j : Tensor) (ei : EdgeIndex)
    (size : option nat * option nat) (ew : option Tensor) :
  size0 x_i = size0 x_j -> ncols x_j = ncols x_i ->
  valid_weight (size0 x_i) (ncols x_i) ew = true ->
  nn.in_features (GMNlayer.fmessage L) = 3 * ncols x_i ->
  GMNlayer.message L x_i x_j ei size ew
  = Ok (mkTensor (nn.out_features (GMNlayer.fmessage L))
          (map (fun r => map (Rmax 0) (nn.affine (GMNlayer.fmessage L) r))
               (zip_with app (rows x_i)
                  (zip_with app (rows x_j)
                     (edge_weight_rows (size0 x_i) (ncols x_i) ew))))).
Proof.
  intros H0 Hc Hw Hin.
  assert (Hcat : forall w, size0 w = size0 x_i -> ncols w = ncols x_i ->
            (torch.cat1 [x_i; x_j; w] ≫= fun c =>
               nn.Linear_forward (GMNlayer.fmessage L) c ≫= fun m =>
                 Ok (torch.relu m))
            = Ok (mkTensor (nn.out_features (GMNlayer.fmessage L))
                    (map (fun r => map (Rmax 0) (nn.affine (GMNlayer.fmessage L) r))
                         (zip_with app (rows x_i)
                            (zip_with app (rows x_j) (rows w)))))).
  { intros w Hw0 Hw1. simpl.
    rewrite (proj2 (Nat.eqb_eq (size0 x_j) (size0 w))) by lia. simpl.
    assert (Hs : size0 x_i
                 = size0 (mkTensor (ncols x_j + ncols w)
                            (zip_with app (rows x_j) (rows w)))).
    { unfold size0 in *. simpl. rewrite length_zip_with. lia. }
    rewrite (proj2 (Nat.eqb_eq _ _) Hs). simpl.
    unfold nn.Linear_forward. simpl.
    rewrite (proj2 (Nat.eqb_eq _ _)) by lia. simpl.
    unfold torch.relu. simpl. by rewrite map_map. }
  unfold GMNlayer.message. destruct ew as [w|].
  - simpl in Hw. rewrite !andb_true_iff, !Nat.eqb_eq in Hw.
    destruct Hw as [[_ Hw0] Hw1]. by apply Hcat.
  - unfold size1. rewrite Hcat; [reflexivity| |reflexivity].
    unfold size0, torch.ones. simpl. apply length_replicate.
Qed.

Lemma edge_message_length (L : GMNlayer.t) (x : Tensor) (ji : nat * nat) (w : list R) :
  nn.Linear_wf (GMNlayer.fmessage L) = true ->
  length (edge_message L x ji w) = nn.out_features (GMNlayer.fmessage L).
Proof.
  intros H. unfold edge_message. rewrite length_map. by apply affine_length.
Qed.

Lemma aggregate_length (L : GMNlayer.t) (x : Tensor) (ei : EdgeIndex)
    (ew : option Tensor) (v : nat) :
  nn.Linear_wf (GMNlayer.fmessage L) = true ->
  length (aggregate L x ei ew v) = nn.out_features (GMNlayer.fmessage L).
Proof.
  intros H. unfold aggregate. apply length_fold_vadd.
  - apply length_replicate.
  - apply List.Forall_forall. intros m Hm.
    apply in_map_iff in Hm as (p & <- & _). by apply edge_message_length.
Qed.

(** One call of [propagate]: every node receives the sum of the messages
    of its incoming edges. *)
Lemma propagate_spec (L : GMNlayer.t) (x : Tensor) (ei : EdgeIndex)
    (ew : option Tensor) :
  valid_edges (size0 x) ei = true ->
  valid_weight (length ei) (ncols x) ew = true ->
  nn.Linear_wf (GMNlayer.fmessage L) = true ->
  nn.in_features (GMNlayer.fmessage L) = 3 * ncols x ->
  exists m, GMNlayer.propagate L ei (Some (size0 x, size0 x)) x ew = Ok m
    /\ size0 m = size0 x
    /\ ncols m = nn.out_features (GMNlayer.fmessage L)
    /\ wfT m = true
    /\ forall v, v < size0 x -> row v m = aggregate L x ei ew v.
Proof.
  intros Hei Hew Hwf Hin.
  destruct (valid_edges_Forall _ _ Hei) as [Hsrc Htgt]. simpl in Hsrc, Htgt.
  set (x_i := mkTensor (ncols x) (map (fun i => row i x) (map snd ei))).
  set (x_j := mkTensor (ncols x) (map (fun i => row i x) (map fst ei))).
  assert (Hxi : size0 x_i = length ei).
  { unfold size0, x_i. simpl. by rewrite !length_map. }
  assert (Hxj : size0 x_j = length ei).
  { unfold size0, x_j. simpl. by rewrite !length_map. }
  pose proof (message_Ok L x_i x_j ei (Some (size0 x), Some (size0 x)) ew) as Hmsg.
  rewrite Hxi in Hmsg. specialize (Hmsg (eq_sym Hxj) eq_refl Hew Hin).
  set (msg := mkTensor (nn.out_features (GMNlayer.fmessage L))
                (map (fun r => map (Rmax 0) (nn.affine (GMNlayer.fmessage L) r))
                   (zip_with app (rows x_i)
                      (zip_with app (rows x_j)
                         (edge_weight_rows (length ei) (ncols x_i) ew))))) in *.
  pose proof (edge_weight_rows_length _ _ _ Hew) as HW.
  assert (Hmsg0 : length (map snd ei) = size0 msg).
  { unfold size0, msg. simpl. rewrite !length_map, !length_zip_with, !length_map.
    change (ncols x_i) with (ncols x). lia. }
  destruct (scatter_add_Ok msg (map snd ei) (size0 x) Hmsg0 Htgt)
    as (out & Hout & Hout0 & Hout1 & Hrow).
  assert (Hagg : forall v, v < size0 x -> row v out = aggregate L x ei ew v).
  { intros v Hv. rewrite Hrow by done. unfold aggregate, incoming, edge_message.
    f_equal. simpl.
    by rewrite (gather_messages
                  (fun r => map (Rmax 0) (nn.affine (GMNlayer.fmessage L) r))
                  (fun i => row i x) v ei _ HW). }
  exists out. split.
  { unfold GMNlayer.propagate, torch_geometric.propagate,
      torch_geometric.set_size, torch_geometric.lift. simpl.
    rewrite Nat.eqb_refl, bind_Ok, (index_select_Ok x _ Htgt), !bind_Ok.
    simpl. rewrite Nat.eqb_refl, bind_Ok, (index_select_Ok x _ Hsrc), bind_Ok.
    fold x_i x_j. rewrite Hmsg, bind_Ok. simpl. rewrite Hout.
    reflexivity. }
  repeat split; try done.
  apply wfT_intro. intros v Hv. rewrite Hout0 in Hv.
  rewrite Hagg by done. rewrite Hout1. by apply aggregate_length.
Qed.

(** ** The node update *)

Lemma cat1_two (a b : Tensor) :
  size0 a = size0 b ->
  torch.cat1 [a; b]
  = Ok (mkTensor (ncols a + ncols b) (zip_with app (rows a) (rows b))).
Proof. intros H. simpl. by rewrite (proj2 (Nat.eqb_eq _ _) H). Qed.

Lemma GRUCell_wf_inv (G : nn.GRUCell) :
  nn.GRUCell_wf G = true ->
  Forall (fun L => nn.Linear_wf L = true)
         [nn.W_ir G; nn.W_iz G; nn.W_in G; nn.W_hr G; nn.W_hz G; nn.W_hn G]
  /\ Forall (fun L => nn.out_features L = nn.hidden_size G)
            [nn.W_ir G; nn.W_iz G; nn.W_in G; nn.W_hr G; nn.W_hz G; nn.W_hn G].
Proof.
  unfold nn.GRUCell_wf. simpl. rewrite !andb_true_iff, !Nat.eqb_eq.
  intros H. split; repeat constructor; tauto.
Qed.

Lemma GRU_row_length (G : nn.GRUCell) (x h : list R) :
  nn.GRUCell_wf G = true -> length h = nn.hidden_size G ->
  length (nn.GRU_row G x h) = nn.hidden_size G.
Proof.
  intros Hwf Hh. destruct (GRUCell_wf_inv G Hwf) as [Hl Ho].
  repeat match goal with
         | H : Forall _ (_ :: _) |- _ => inversion H; clear H; subst
         end.
  unfold nn.GRU_row, vmul.
  repeat (rewrite ?length_vadd, ?length_zip_with, ?length_map, ?affine_length by done).
  lia.
Qed.

Lemma GRUCell_forward_Ok (G : nn.GRUCell) (x h : Tensor) :
  nn.GRUCell_wf G = true -> wfT h = true ->
  ncols x = nn.input_size G -> ncols h = nn.hidden_size G -> size0 x = size0 h ->
  exists y, nn.GRUCell_forward G x h = Ok y
    /\ size0 y = size0 h /\ ncols y = nn.hidden_size G /\ wfT y = true
    /\ forall i, i < size0 h -> row i y = nn.GRU_row G (row i x) (row i h).
Proof.
  intros Hwf Hh Hx Hc H0. unfold nn.GRUCell_forward.
  rewrite (proj2 (Nat.eqb_eq _ _) Hx), (proj2 (Nat.eqb_eq _ _) Hc),
    (proj2 (Nat.eqb_eq _ _) H0). simpl.
  eexists; split; [reflexivity|].
  assert (Hlen : length (zip_with (nn.GRU_row G) (rows x) (rows h)) = size0 h).
  { rewrite length_zip_with. unfold size0 in *. lia. }
  assert (Hrow : forall i, i < size0 h ->
            nth i (zip_with (nn.GRU_row G) (rows x) (rows h)) []
            = nn.GRU_row G (row i x) (row i h)).
  { intros i Hi. apply nth_zip_with; unfold size0 in *; lia. }
  unfold size0 at 1, row at 1. simpl. repeat split; try done.
  apply wfT_intro. unfold size0, row. simpl. intros i Hi. rewrite Hlen in Hi.
  rewrite Hrow by done. apply GRU_row_length; [done|].
  rewrite <- Hc. by apply wfT_row.
Qed.

Lemma init_ok_inv (d_in d_out : nat) (L : GMNlayer.t) :
  GMNlayer.init_ok d_in d_out L = true ->
  nn.Linear_wf (GMNlayer.fmessage L) = true
  /\ nn.in_features (GMNlayer.fmessage L) = 3 * d_in
  /\ nn.out_features (GMNlayer.fmessage L) = d_out
  /\ nn.GRUCell_wf (GMNlayer.fnode L) = true
  /\ nn.input_size (GMNlayer.fnode L) = 2 * d_out
  /\ nn.hidden_size (GMNlayer.fnode L) = d_out.
Proof.
  unfold GMNlayer.init_ok. rewrite !andb_true_iff, !Nat.eqb_eq. tauto.
Qed.

Lemma row_zip_app (a b : Tensor) (i : nat) :
  i < size0 a -> i < size0 b ->
  nth i (zip_with app (rows a) (rows b)) [] = row i a ++ row i b.
Proof. intros Ha Hb. by apply nth_zip_with. Qed.

(** What one call of [GMNlayer.forward] computes for one of the graphs,
    given the difference tensor [u] of that graph. *)
Lemma node_update_spec (L : GMNlayer.t) (d : nat) (x u : Tensor)
    (ei : EdgeIndex) (ew : option Tensor) :
  GMNlayer.init_ok d d L = true ->
  wfT x = true -> ncols x = d ->
  size0 u = size0 x -> ncols u = d ->
  valid_edges (size0 x) ei = true ->
  valid_weight (length ei) d ew = true ->
  exists m c h,
    GMNlayer.propagate L ei (Some (size0 x, size0 x)) x ew = Ok m
    /\ torch.cat1 [m; u] = Ok c
    /\ nn.GRUCell_forward (GMNlayer.fnode L) c x = Ok h
    /\ size0 m = size0 x /\ ncols m = d
    /\ (forall v, v < size0 x -> row v m = aggregate L x ei ew v)
    /\ size0 h = size0 x /\ ncols h = d /\ wfT h = true
    /\ forall v, v < size0 x ->
         row v h = nn.GRU_row (GMNlayer.fnode L)
                     (aggregate L x ei ew v ++ row v u) (row v x).
Proof.
  intros Hinit Hx Hd Hu0 Hu1 Hei Hew.
  destruct (init_ok_inv _ _ _ Hinit) as (Hlw & Hin & Hout & Hgw & Hgi & Hgh).
  subst d.
  destruct (propagate_spec L x ei ew Hei Hew Hlw Hin)
    as (m & Hm & Hm0 & Hm1 & Hmwf & Hmrow).
  pose proof (cat1_two m u ltac:(lia)) as Hc.
  set (c := mkTensor (ncols m + ncols u) (zip_with app (rows m) (rows u))) in *.
  destruct (GRUCell_forward_Ok (GMNlayer.fnode L) c x Hgw Hx)
    as (h & Hh & Hh0 & Hh1 & Hhwf & Hhrow).
  { unfold c. simpl. lia. }
  { lia. }
  { unfold c, size0. simpl. rewrite length_zip_with. unfold size0 in *. lia. }
  exists m, c, h. repeat split; try done; try lia.
  intros v Hv. rewrite Hhrow by done. f_equal.
  unfold row at 1, c. simpl. rewrite row_zip_app by lia. by rewrite Hmrow.
Qed.

(** ** One call of [GMNlayer.forward] *)

Lemma valid_graph_inv (d : nat) (x : Tensor) (ei : EdgeIndex) (ew : option Tensor) :
  valid_graph d x ei ew = true ->
  wfT x = true /\ ncols x = d /\ valid_edges (size0 x) ei = true
  /\ valid_weight (length ei) d ew = true.
Proof. unfold valid_graph. rewrite !andb_true_iff, !Nat.eqb_eq. tauto. Qed.

Lemma valid_graph_intro (d : nat) (x : Tensor) (ei : EdgeIndex) (ew : option Tensor) :
  wfT x = true -> ncols x = d -> valid_edges (size0 x) ei = true ->
  valid_weight (length ei) d ew = true -> valid_graph d x ei ew = true.
Proof. unfold valid_graph. rewrite !andb_true_iff, !Nat.eqb_eq. tauto. Qed.

(** [forward] is the two calls of [propagate], the attention block and
    the two node updates. *)
Lemma forward_as_blocks (L : GMNlayer.t) (x1 x2 : Tensor) (ei1 ei2 : EdgeIndex)
    (ew1 ew2 : option Tensor) :
  GMNlayer.forward L x1 x2 ei1 ei2 ew1 ew2
  = (m1 ← GMNlayer.propagate L ei1 (Some (size0 x1, size0 x1)) x1 ew1;
     m2 ← GMNlayer.propagate L ei2 (Some (size0 x2, size0 x2)) x2 ew2;
     '(_, _, u1, u2) ← GMNlayer.forward_attention x1 x2;
     m1 ← torch.cat1 [m1; u1];
     h1 ← nn.GRUCell_forward (GMNlayer.fnode L) m1 x1;
     m2 ← torch.cat1 [m2; u2];
     h2 ← nn.GRUCell_forward (GMNlayer.fnode L) m2 x2;
     Ok (h1, h2)).
Proof.
  unfold GMNlayer.forward, GMNlayer.forward_attention.
  destruct (GMNlayer.propagate L ei1 _ x1 ew1) as [m1|e]; [|reflexivity].
  destruct (GMNlayer.propagate L ei2 _ x2 ew2) as [m2|e]; [|reflexivity].
  rewrite !bind_Ok.
  destruct (torch.mm x1 (torch.t x2)) as [scores|e]; [|reflexivity].
  rewrite !bind_Ok.
  destruct (torch.softmax scores 1) as [a1|e]; [|reflexivity].
  rewrite !bind_Ok.
  destruct (torch.softmax scores 0) as [s0|e]; [|reflexivity].
  rewrite !bind_Ok.
  destruct (torch.mm a1 x2) as [as1|e]; [|reflexivity].
  rewrite !bind_Ok.
  destruct (torch.mm (torch.t s0) x1) as [as2|e]; [|reflexivity].
  rewrite !bind_Ok.
  destruct (torch.sub x1 as1) as [u1|e]; [|reflexivity].
  rewrite !bind_Ok.
  destruct (torch.sub x2 as2) as [u2|e]; reflexivity.
Qed.

Lemma forward_spec (L : GMNlayer.t) (d : nat) (x1 x2 : Tensor)
    (ei1 ei2 : EdgeIndex) (ew1 ew2 : option Tensor) :
  GMNlayer.init_ok d d L = true ->
  valid_graph d x1 ei1 ew1 = true ->
  valid_graph d x2 ei2 ew2 = true ->
  exists m1 m2 attn_1 attn_2 u1 u2 c1 c2 h1 h2,
    GMNlayer.propagate L ei1 (Some (size0 x1, size0 x1)) x1 ew1 = Ok m1
    /\ GMNlayer.propagate L ei2 (Some (size0 x2, size0 x2)) x2 ew2 = Ok m2
    /\ GMNlayer.forward_attention x1 x2 = Ok (attn_1, attn_2, u1, u2)
    /\ torch.cat1 [m1; u1] = Ok c1
    /\ nn.GRUCell_forward (GMNlayer.fnode L) c1 x1 = Ok h1
    /\ torch.cat1 [m2; u2] = Ok c2
    /\ nn.GRUCell_forward (GMNlayer.fnode L) c2 x2 = Ok h2
    /\ GMNlayer.forward L x1 x2 ei1 ei2 ew1 ew2 = Ok (h1, h2)
    /\ (size0 h1 = size0 x1 /\ ncols h1 = d /\ wfT h1 = true)
    /\ (size0 h2 = size0 x2 /\ ncols h2 = d /\ wfT h2 = true)
    /\ (forall v, v < size0 x1 -> row v m1 = aggregate L x1 ei1 ew1 v)
    /\ (forall v, v < size0 x2 -> row v m2 = aggregate L x2 ei2 ew2 v)
    /\ (forall v, v < size0 x1 ->
          row v h1 = nn.GRU_row (GMNlayer.fnode L)
                       (aggregate L x1 ei1 ew1 v ++ row v u1) (row v x1))
    /\ (forall v, v < size0 x2 ->
          row v h2 = nn.GRU_row (GMNlayer.fnode L)
                       (aggregate L x2 ei2 ew2 v ++ row v u2) (row v x2)).
Proof.
  intros Hinit Hg1 Hg2.
  destruct (valid_graph_inv _ _ _ _ Hg1) as (Hx1 & Hd1 & Hei1 & Hew1).
  destruct (valid_graph_inv _ _ _ _ Hg2) as (Hx2 & Hd2 & Hei2 & Hew2).
  destruct (forward_attention_spec x1 x2 Hx1 Hx2 ltac:(lia))
    as (a1 & a2 & u1 & u2 & Hatt & _ & _ & _ & _
        & (Hu1_0 & Hu1_1 & _) & (Hu2_0 & Hu2_1 & _) & _).
  destruct (node_update_spec L d x1 u1 ei1 ew1 Hinit Hx1 Hd1 Hu1_0 ltac:(lia) Hei1 Hew1)
    as (m1 & c1 & h1 & Hm1 & Hc1 & Hh1 & _ & _ & Hm1row & Hh1_0 & Hh1_1 & Hh1wf & Hh1row).
  destruct (node_update_spec L d x2 u2 ei2 ew2 Hinit Hx2 Hd2 Hu2_0 ltac:(lia) Hei2 Hew2)
    as (m2 & c2 & h2 & Hm2 & Hc2 & Hh2 & _ & _ & Hm2row & Hh2_0 & Hh2_1 & Hh2wf & Hh2row).
  exists m1, m2, a1, a2, u1, u2, c1, c2, h1, h2.
  repeat split; try done.
  rewrite forward_as_blocks.
  by rewrite Hm1, bind_Ok, Hm2, bind_Ok, Hatt, bind_Ok, Hc1, bind_Ok, Hh1, bind_Ok,
    Hc2, bind_Ok, Hh2, bind_Ok.
Qed.

(** The steps inside the attention block, read back from its result. *)
Lemma forward_attention_inv (x1 x2 attn_1 attn_2 u1 u2 : Tensor) :
  GMNlayer.forward_attention x1 x2 = Ok (attn_1, attn_2, u1, u2) ->
  exists scores s0 attnsum_1 attnsum_2,
    torch.mm x1 (torch.t x2) = Ok scores
    /\ torch.softmax scores 1 = Ok attn_1
    /\ torch.softmax scores 0 = Ok s0 /\ attn_2 = torch.t s0
    /\ torch.mm attn_1 x2 = Ok attnsum_1
    /\ torch.mm attn_2 x1 = Ok attnsum_2
    /\ torch.sub x1 attnsum_1 = Ok u1
    /\ torch.sub x2 attnsum_2 = Ok u2.
Proof.
  unfold GMNlayer.forward_attention. intros H.
  apply bind_inv in H as (scores & Hs & H).
  apply bind_inv in H as (a1 & Ha1 & H).
  apply bind_inv in H as (a2 & Ha2 & H).
  apply bind_inv in Ha2 as (s0 & Hs0 & Ha2).
  apply bind_inv in H as (as1 & Has1 & H).
  apply bind_inv in H as (as2 & Has2 & H).
  apply bind_inv in H as (u1' & Hu1 & H).
  apply bind_inv in H as (u2' & Hu2 & H).
  injection H as -> -> -> ->. injection Ha2 as <-.
  exists scores, s0, as1, as2. repeat split; done.
Qed.

(** ** Loops *)

(** A loop whose body keeps an invariant runs to its end, through one
    state per turn. *)
Lemma for_each_trace {I A : Type} (P : A -> Prop) (body : I -> A -> Res A)
    (l : list I) (a dflt : A) (di : I) :
  P a ->
  (forall i s, In i l -> P s -> exists s', body i s = Ok s' /\ P s') ->
  exists trace,
    length trace = S (length l)
    /\ nth 0 trace dflt = a
    /\ (forall k, k < length l ->
          body (nth k l di) (nth k trace dflt) = Ok (nth (S k) trace dflt))
    /\ for_each body l a = Ok (nth (length l) trace dflt)
    /\ Forall P trace.
Proof.
  intros Ha Hbody. revert a Ha.
  induction l as [|i l IH]; intros a Ha.
  - exists [a]. simpl. repeat split; try done; [lia | by repeat constructor].
  - destruct (Hbody i a (or_introl eq_refl) Ha) as (s' & Hs' & HP').
    destruct (IH (fun j s Hj => Hbody j s (or_intror Hj)) s' HP')
      as (tr & Hlen & H0 & Hstep & Hrun & Hall).
    exists (a :: tr). simpl. repeat split.
    + by rewrite Hlen.
    + intros [|k] Hk.
      * by rewrite H0.
      * apply Hstep. lia.
    + by rewrite Hs', bind_Ok.
    + by constructor.
Qed.

(** A loop that goes through the states [st m], [st (m + 1)], ... *)
Lemma for_each_steps {A : Type} (body : nat -> A -> Res A) (st : nat -> A) (m n : nat) :
  (forall k, m <= k < m + n -> body k (st k) = Ok (st (S k))) ->
  for_each body (seq m n) (st m) = Ok (st (m + n)).
Proof.
  revert m. induction n as [|n IH]; intros m H; simpl.
  - by rewrite Nat.add_0_r.
  - rewrite H by lia. rewrite bind_Ok, IH.
    + f_equal. f_equal. lia.
    + intros k Hk. apply H. lia.
Qed.

(** ** Embedding lookups *)

Lemma embed_squeeze_Ok (E : nn.Embedding) (idx : list nat) :
  nn.Embedding_wf E = true ->
  Forall (fun i => i < nn.num_embeddings E) idx ->
  exists x, (nn.Embedding_forward E idx ≫= nn.squeeze1) = Ok x
    /\ size0 x = length idx /\ ncols x = nn.embedding_dim E /\ wfT x = true
    /\ forall i, i < length idx -> row i x = nth (nth i idx 0) (nn.table E) [].
Proof.
  intros Hwf Hidx. unfold nn.Embedding_forward.
  rewrite (proj2 (forallb_lt_Forall _ _) Hidx), bind_Ok.
  unfold nn.squeeze1. simpl. rewrite map_map. simpl.
  eexists; split; [reflexivity|]. unfold size0, row. simpl. rewrite length_map.
  repeat split.
  - apply wfT_Forall. simpl. apply List.Forall_forall. intros r Hr.
    apply in_map_iff in Hr as (i & <- & Hi).
    rewrite List.Forall_forall in Hidx. specialize (Hidx i Hi).
    unfold nn.Embedding_wf in Hwf. apply andb_true_iff in Hwf as [Hn Hrows].
    apply Nat.eqb_eq in Hn. rewrite forallb_forall in Hrows.
    apply Nat.eqb_eq. apply Hrows. apply nth_In. lia.
  - intros i Hi. by rewrite (nth_map_lt _ _ _ 0).
Qed.

(** ** Pooling *)

Lemma list_max_replicate_0 (n : nat) : list_max (replicate n 0) = 0.
Proof. induction n as [|n IH]; simpl; [reflexivity | by rewrite IH]. Qed.

Lemma softmax_group_length (src : list R) (index : list nat) :
  length src = length index ->
  length (torch_geometric.softmax src index) = length index.
Proof.
  intros H. unfold torch_geometric.softmax. rewrite !length_zip_with. lia.
Qed.

(** Pooling with all nodes in graph 0: no row for a graph without nodes,
    one row otherwise. *)
Lemma pool_zeros_Ok (gate : nn.Linear) (x : Tensor) :
  nn.Linear_wf gate = true -> nn.in_features gate = ncols x ->
  nn.out_features gate = 1 ->
  exists hg,
    torch_geometric.GlobalAttention_forward
      (nn.Sequential_Linear_Sigmoid gate) x (replicate (size0 x) 0) = Ok hg
    /\ size0 hg = (if size0 x =? 0 then 0 else 1)
    /\ ncols hg = ncols x.
Proof.
  intros Hwf Hin Hout. unfold torch_geometric.GlobalAttention_forward.
  unfold nn.Sequential_Linear_Sigmoid, nn.Linear_forward.
  rewrite (proj2 (Nat.eqb_eq _ _) (eq_sym Hin)), !bind_Ok.
  set (g := mkTensor _ (map (map torch.sigmoid) _)).
  assert (Hg1 : ncols g = 1) by (unfold g; simpl; done).
  assert (Hg0 : size0 g = size0 x).
  { unfold g, size0. simpl. by rewrite !length_map. }
  rewrite Hg1, Hg0, length_replicate, !Nat.eqb_refl. simpl.
  set (w := torch_geometric.softmax (col 0 g) (replicate (size0 x) 0)).
  assert (Hw : length w = size0 x).
  { unfold w. rewrite softmax_group_length; rewrite ?col_length, length_replicate; done. }
  set (n := match replicate (size0 x) 0 with
            | [] => 0
            | _ :: _ => S (list_max (replicate (size0 x) 0))
            end).
  assert (Hn : n = if size0 x =? 0 then 0 else 1).
  { unfold n. destruct (size0 x) as [|k] eqn:E; simpl; [reflexivity|].
    by rewrite list_max_replicate_0. }
  destruct (scatter_add_Ok (mkTensor (ncols x) (zip_with vscale w (rows x)))
              (replicate (size0 x) 0) n) as (hg & Hhg & Hhg0 & Hhg1 & _).
  - unfold size0 at 2. simpl. rewrite length_replicate, length_zip_with.
    unfold size0 in *. lia.
  - rewrite Hn. destruct (size0 x) as [|k]; simpl; [constructor|].
    constructor; [lia | apply Forall_replicate; lia].
  - exists hg. rewrite Hhg. repeat split; try done. by rewrite Hhg0.
Qed.

Lemma scatter_add_wf (src : Tensor) (idx : list nat) (n : nat) (out : Tensor) :
  torch.scatter_add src idx n = Ok out -> wfT src = true -> wfT out = true.
Proof.
  intros Hout Hwf.
  assert (Hlen : length idx = size0 src).
  { unfold torch.scatter_add in Hout.
    destruct (length idx =? size0 src) eqn:E; [by apply Nat.eqb_eq in E | done]. }
  assert (Hidx : Forall (fun i => i < n) idx).
  { unfold torch.scatter_add in Hout. rewrite (proj2 (Nat.eqb_eq _ _) Hlen) in Hout.
    simpl in Hout. destruct (forallb _ idx) eqn:E; [|done].
    by apply forallb_lt_Forall. }
  destruct (scatter_add_Ok src idx n Hlen Hidx) as (out' & Hout' & H0 & H1 & Hrow).
  rewrite Hout in Hout'. injection Hout' as <-.
  apply wfT_intro. intros v Hv. rewrite H0 in Hv. rewrite Hrow by done.
  rewrite H1. apply length_fold_vadd; [apply length_replicate|].
  apply List.Forall_forall. intros r Hr.
  apply in_map_iff in Hr as ([i r'] & <- & Hp). simpl.
  apply filter_In in Hp as [Hp _]. apply in_combine_r in Hp.
  apply wfT_Forall in Hwf. rewrite List.Forall_forall in Hwf. by apply Hwf.
Qed.

Lemma pool_zeros_wf (gate : nn.Linear) (x hg : Tensor) :
  torch_geometric.GlobalAttention_forward
    (nn.Sequential_Linear_Sigmoid gate) x (replicate (size0 x) 0) = Ok hg ->
  wfT x = true -> wfT hg = true.
Proof.
  unfold torch_geometric.GlobalAttention_forward. intros H Hwf.
  apply bind_inv in H as (g & _ & H).
  destruct (negb _); [done|].
  apply scatter_add_wf in H; [done|].
  apply wfT_Forall. simpl. apply List.Forall_forall. intros r Hr.
  destruct (In_nth _ _ [] Hr) as (i & Hi & <-).
  rewrite length_zip_with in Hi.
  rewrite (nth_zip_with _ _ _ _ 0%R []) by lia.
  unfold vscale. rewrite length_map. apply (wfT_row x i Hwf). unfold size0. lia.
Qed.

(** ** [GMNnet.forward] *)

Lemma GMNnet_init_ok_inv (V d n : nat) (N : GMNnet.t) :
  GMNnet.init_ok V d n N = true ->
  GMNnet.num_layers N = n
  /\ nn.Embedding_wf (GMNnet.embed N) = true
  /\ nn.num_embeddings (GMNnet.embed N) = V
  /\ nn.embedding_dim (GMNnet.embed N) = d
  /\ nn.Embedding_wf (GMNnet.edge_embed N) = true
  /\ nn.num_embeddings (GMNnet.edge_embed N) = 20
  /\ nn.embedding_dim (GMNnet.edge_embed N) = d
  /\ GMNlayer.init_ok d d (GMNnet.gmnlayer N) = true
  /\ nn.Linear_wf (GMNnet.mlp_gate N) = true
  /\ nn.in_features (GMNnet.mlp_gate N) = d
  /\ nn.out_features (GMNnet.mlp_gate N) = 1.
Proof.
  unfold GMNnet.init_ok. rewrite !andb_true_iff, !Nat.eqb_eq. tauto.
Qed.

Lemma embed_steps (E : nn.Embedding) (idx : list nat) (x : Tensor) {B : Type}
    (k : Tensor -> Res B) :
  (nn.Embedding_forward E idx ≫= nn.squeeze1) = Ok x ->
  (nn.Embedding_forward E idx ≫= fun a => nn.squeeze1 a ≫= k) = k x.
Proof.
  intros H. apply bind_inv in H as (a & Ha & Hx). by rewrite Ha, bind_Ok, Hx, bind_Ok.
Qed.

Lemma edge_weights_Ok (V d n : nat) (N : GMNnet.t) (E1 E2 : nat)
    (ea1 ea2 : option (list nat)) :
  GMNnet.init_ok V d n N = true ->
  valid_attrs E1 E2 ea1 ea2 = true ->
  exists ew1 ew2, GMNnet.edge_weights N ea1 ea2 = Ok (ew1, ew2)
    /\ valid_weight E1 d ew1 = true /\ valid_weight E2 d ew2 = true.
Proof.
  intros Hinit Hv.
  destruct (GMNnet_init_ok_inv _ _ _ _ Hinit)
    as (_ & _ & _ & _ & Hewf & He20 & Hed & _).
  unfold GMNnet.edge_weights. destruct ea1 as [a1|]; [|by exists None, None].
  simpl in Hv. destruct ea2 as [a2|]; [|by rewrite andb_false_r in Hv].
  rewrite !andb_true_iff, !Nat.eqb_eq in Hv. destruct Hv as [[Ha1 Hl1] [Ha2 Hl2]].
  apply forallb_lt_Forall in Ha1, Ha2. rewrite <- He20 in Ha1, Ha2.
  destruct (embed_squeeze_Ok _ a1 Hewf Ha1) as (w1 & Hw1 & Hw1_0 & Hw1_1 & Hw1wf & _).
  destruct (embed_squeeze_Ok _ a2 Hewf Ha2) as (w2 & Hw2 & Hw2_0 & Hw2_1 & Hw2wf & _).
  exists (Some w1), (Some w2).
  rewrite (embed_steps _ _ _ _ Hw1), (embed_steps _ _ _ _ Hw2).
  split; [reflexivity|]. simpl.
  rewrite Hw1wf, Hw2wf, Hw1_0, Hw2_0, Hw1_1, Hw2_1, Hed, Hl1, Hl2, !Nat.eqb_refl.
  done.
Qed.

Lemma GMNnet_forward_spec (V d n : nat) (N : GMNnet.t)
    (x1 x2 : list nat) (ei1 ei2 : EdgeIndex) (ea1 ea2 : option (list nat)) :
  GMNnet.init_ok V d n N = true ->
  valid_data V (x1, x2, ei1, ei2, ea1, ea2) = true ->
  exists (e1 e2 : Tensor) (ew1 ew2 : option Tensor)
         (st : nat -> Tensor * Tensor) (hg1 hg2 : Tensor),
    (nn.Embedding_forward (GMNnet.embed N) x1 ≫= nn.squeeze1) = Ok e1
    /\ (nn.Embedding_forward (GMNnet.embed N) x2 ≫= nn.squeeze1) = Ok e2
    /\ GMNnet.edge_weights N ea1 ea2 = Ok (ew1, ew2)
    /\ st 0 = (e1, e2)
    /\ (forall k, k < n ->
          GMNlayer.forward (GMNnet.gmnlayer N) (st k).1 (st k).2 ei1 ei2 ew1 ew2
          = Ok (st (S k)))
    /\ (forall k, k <= n ->
          valid_graph d (st k).1 ei1 ew1 = true
          /\ valid_graph d (st k).2 ei2 ew2 = true
          /\ size0 (st k).1 = length x1 /\ size0 (st k).2 = length x2)
    /\ GMNnet.pool N (st n).1 (replicate (size0 (st n).1) 0) = Ok hg1
    /\ GMNnet.pool N (st n).2 (replicate (size0 (st n).2) 0) = Ok hg2
    /\ GMNnet.forward N (x1, x2, ei1, ei2, ea1, ea2) = Ok (hg1, hg2)
    /\ (size0 hg1 = (if length x1 =? 0 then 0 else 1) /\ ncols hg1 = d
        /\ wfT hg1 = true)
    /\ (size0 hg2 = (if length x2 =? 0 then 0 else 1) /\ ncols hg2 = d
        /\ wfT hg2 = true).
Proof.
  intros Hinit Hv.
  destruct (GMNnet_init_ok_inv _ _ _ _ Hinit)
    as (Hn & Hewf & HeV & Hed & _ & _ & _ & Hlayer & Hgwf & Hgin & Hgout).
  unfold valid_data in Hv. rewrite !andb_true_iff in Hv.
  destruct Hv as [[[[Hx1 Hx2] Hei1] Hei2] Hattr].
  apply forallb_lt_Forall in Hx1, Hx2. rewrite <- HeV in Hx1, Hx2.
  destruct (embed_squeeze_Ok _ x1 Hewf Hx1) as (e1 & He1 & He1_0 & He1_1 & He1wf & _).
  destruct (embed_squeeze_Ok _ x2 Hewf Hx2) as (e2 & He2 & He2_0 & He2_1 & He2wf & _).
  destruct (edge_weights_Ok _ _ _ _ _ _ _ _ Hinit Hattr) as (ew1 & ew2 & Hew & Hw1 & Hw2).
  set (P := fun s : Tensor * Tensor =>
              valid_graph d s.1 ei1 ew1 = true /\ valid_graph d s.2 ei2 ew2 = true
              /\ size0 s.1 = length x1 /\ size0 s.2 = length x2).
  set (body := fun (_ : nat) '(x1, x2) =>
                 GMNlayer.forward (GMNnet.gmnlayer N) x1 x2 ei1 ei2 ew1 ew2).
  assert (HP0 : P (e1, e2)).
  { unfold P. simpl. repeat split; try done;
      apply valid_graph_intro; try done; try lia;
      by rewrite ?He1_0, ?He2_0. }
  assert (Hbody : forall (i : nat) s, In i (seq 0 n) -> P s ->
            exists s', body i s = Ok s' /\ P s').
  { intros i [y1 y2] _ (Hg1 & Hg2 & Hs1 & Hs2). simpl in *.
    destruct (forward_spec _ d y1 y2 ei1 ei2 ew1 ew2 Hlayer Hg1 Hg2)
      as (m1 & m2 & a1 & a2 & u1 & u2 & c1 & c2 & h1 & h2 & _ & _ & _ & _ & _ & _ & _
          & Hfw & (Hh1_0 & Hh1_1 & Hh1wf) & (Hh2_0 & Hh2_1 & Hh2wf) & _).
    exists (h1, h2). split; [exact Hfw|].
    destruct (valid_graph_inv _ _ _ _ Hg1) as (_ & _ & Hei1' & Hw1').
    destruct (valid_graph_inv _ _ _ _ Hg2) as (_ & _ & Hei2' & Hw2').
    unfold P. simpl. repeat split; try lia;
      apply valid_graph_intro; try done; by rewrite ?Hh1_0, ?Hh2_0. }
  destruct (for_each_trace P body (seq 0 n) (e1, e2) (e1, e2) 0 HP0 Hbody)
    as (tr & Hlen & H0 & Hstep & Hrun & Hall).
  rewrite length_seq in Hlen, Hstep, Hrun.
  set (st := fun k => nth k tr (e1, e2)).
  assert (HPst : forall k, k <= n -> P (st k)).
  { intros k Hk. rewrite List.Forall_forall in Hall. apply Hall.
    apply nth_In. lia. }
  destruct (HPst n (le_n n)) as (HgA & HgB & HsA & HsB).
  destruct (valid_graph_inv _ _ _ _ HgA) as (HAwf & HAd & _).
  destruct (valid_graph_inv _ _ _ _ HgB) as (HBwf & HBd & _).
  destruct (pool_zeros_Ok (GMNnet.mlp_gate N) (st n).1 Hgwf ltac:(lia) Hgout)
    as (hg1 & Hhg1 & Hhg1_0 & Hhg1_1).
  destruct (pool_zeros_Ok (GMNnet.mlp_gate N) (st n).2 Hgwf ltac:(lia) Hgout)
    as (hg2 & Hhg2 & Hhg2_0 & Hhg2_1).
  exists e1, e2, ew1, ew2, st, hg1, hg2.
  split; [done|]. split; [done|]. split; [done|]. split; [exact H0|].
  split.
  { intros k Hk. specialize (Hstep k Hk). unfold st.
    destruct (nth k tr (e1, e2)) as [y1 y2]. exact Hstep. }
  split; [exact HPst|]. split; [exact Hhg1|]. split; [exact Hhg2|].
  split.
  { unfold GMNnet.forward.
    rewrite (embed_steps _ _ _ _ He1), (embed_steps _ _ _ _ He2), Hew, bind_Ok.
    unfold for_range. rewrite Hn. fold body. rewrite Hrun, bind_Ok.
    fold (st n). destruct (st n) as [y1 y2] eqn:Est. simpl in *.
    unfold GMNnet.pool in Hhg1, Hhg2 |- *.
    by rewrite Hhg1, bind_Ok, Hhg2, bind_Ok. }
  split.
  - rewrite Hhg1_0, HsA. repeat split; [lia|].
    by apply (pool_zeros_wf _ _ _ Hhg1).
  - rewrite Hhg2_0, HsB. repeat split; [lia|].
    by apply (pool_zeros_wf _ _ _ Hhg2).
Qed.

(** ** [GatedGraphConv] and [GGNN.forward] *)

Lemma GatedGraphConv_wf_inv (G : torch_geometric.GatedGraphConv) :
  torch_geometric.GatedGraphConv_wf G = true ->
  length (torch_geometric.weight G) = torch_geometric.num_layers G
  /\ Forall (fun w => wfT w = true /\ size0 w = torch_geometric.out_channels G
                      /\ ncols w = torch_geometric.out_channels G)
            (torch_geometric.weight G)
  /\ nn.GRUCell_wf (torch_geometric.rnn G) = true
  /\ nn.input_size (torch_geometric.rnn G) = torch_geometric.out_channels G
  /\ nn.hidden_size (torch_geometric.rnn G) = torch_geometric.out_channels G.
Proof.
  unfold torch_geometric.GatedGraphConv_wf.
  rewrite !andb_true_iff, !Nat.eqb_eq. intros [[[[Hl Hw] Hg] Hi] Hh].
  repeat split; try done.
  apply List.Forall_forall. intros w Hin. rewrite forallb_forall in Hw.
  specialize (Hw w Hin). rewrite !andb_true_iff, !Nat.eqb_eq in Hw. tauto.
Qed.

Lemma index_select_wf (a : Tensor) (idx : list nat) :
  wfT a = true -> Forall (fun i => i < size0 a) idx ->
  wfT (mkTensor (ncols a) (map (fun i => row i a) idx)) = true.
Proof.
  intros Hwf Hidx. apply wfT_Forall. simpl. apply List.Forall_forall.
  intros r Hr. apply in_map_iff in Hr as (i & <- & Hi).
  rewrite List.Forall_forall in Hidx. apply wfT_row; [done | by apply Hidx].
Qed.

(** One propagation step of the gated graph convolution keeps the shape. *)
Lemma GatedGraphConv_step_Ok (G : torch_geometric.GatedGraphConv)
    (ei : EdgeIndex) (i : nat) (x : Tensor) :
  torch_geometric.GatedGraphConv_wf G = true ->
  i < torch_geometric.num_layers G ->
  wfT x = true -> ncols x = torch_geometric.out_channels G ->
  valid_edges (size0 x) ei = true ->
  exists y, torch_geometric.GatedGraphConv_step G ei i x = Ok y
    /\ wfT y = true /\ ncols y = torch_geometric.out_channels G
    /\ size0 y = size0 x.
Proof.
  intros Hwf Hi Hx Hd Hei.
  destruct (GatedGraphConv_wf_inv G Hwf) as (Hlen & Hws & Hgw & Hgi & Hgh).
  destruct (valid_edges_Forall _ _ Hei) as [Hsrc Htgt]. simpl in Hsrc, Htgt.
  unfold torch_geometric.GatedGraphConv_step.
  destruct (torch_geometric.weight G !! i) as [w|] eqn:Ew.
  2: { apply lookup_ge_None in Ew. lia. }
  assert (Hw : wfT w = true /\ size0 w = torch_geometric.out_channels G
               /\ ncols w = torch_geometric.out_channels G).
  { rewrite List.Forall_forall in Hws. apply Hws.
    apply list_elem_of_In. by eapply list_elem_of_lookup_2. }
  destruct Hw as (Hww & Hw0 & Hw1).
  destruct (mm_Ok x w ltac:(lia)) as (m & Hm & Hm0 & Hm1 & Hmwf & _).
  rewrite Hm, bind_Ok.
  unfold torch_geometric.propagate, torch_geometric.set_size, torch_geometric.lift.
  simpl.
  rewrite <- Hm0 in Hsrc, Htgt.
  rewrite (index_select_Ok m _ Hsrc), !bind_Ok.
  set (x_j := mkTensor (ncols m) (map (fun i => row i m) (map fst ei))).
  assert (Hj0 : length (map snd ei) = size0 x_j).
  { unfold x_j, size0. simpl. by rewrite !length_map. }
  destruct (scatter_add_Ok x_j (map snd ei) (size0 m) Hj0 Htgt)
    as (out & Hout & Hout0 & Hout1 & _).
  rewrite Hout, !bind_Ok.
  pose proof (scatter_add_wf _ _ _ _ Hout (index_select_wf m _ Hmwf Hsrc)) as Howf.
  destruct (GRUCell_forward_Ok (torch_geometric.rnn G) out x Hgw Hx)
    as (y & Hy & Hy0 & Hy1 & Hywf & _).
  { rewrite Hout1. unfold x_j. simpl. lia. }
  { lia. }
  { lia. }
  exists y. rewrite Hy. repeat split; try done. lia.
Qed.

Lemma GatedGraphConv_forward_Ok (G : torch_geometric.GatedGraphConv)
    (x : Tensor) (ei : EdgeIndex) :
  torch_geometric.GatedGraphConv_wf G = true ->
  wfT x = true -> ncols x = torch_geometric.out_channels G ->
  valid_edges (size0 x) ei = true ->
  exists st : nat -> Tensor,
    st 0 = x
    /\ (forall k, k < torch_geometric.num_layers G ->
          torch_geometric.GatedGraphConv_step G ei k (st k) = Ok (st (S k)))
    /\ torch_geometric.GatedGraphConv_forward G x ei
       = Ok (st (torch_geometric.num_layers G))
    /\ (forall k, k <= torch_geometric.num_layers G ->
          wfT (st k) = true /\ ncols (st k) = torch_geometric.out_channels G
          /\ size0 (st k) = size0 x).
Proof.
  intros Hwf Hx Hd Hei.
  set (n := torch_geometric.num_layers G).
  set (P := fun y : Tensor =>
              wfT y = true /\ ncols y = torch_geometric.out_channels G
              /\ size0 y = size0 x).
  assert (HP0 : P x) by done.
  assert (Hbody : forall i s, In i (seq 0 n) -> P s ->
            exists s', torch_geometric.GatedGraphConv_step G ei i s = Ok s' /\ P s').
  { intros i s Hi (Hs & Hsd & Hs0). apply in_seq in Hi.
    destruct (GatedGraphConv_step_Ok G ei i s Hwf ltac:(lia) Hs Hsd)
      as (y & Hy & Hywf & Hy1 & Hy0).
    { by rewrite Hs0. }
    exists y. split; [done|]. unfold P. repeat split; try done. lia. }
  destruct (for_each_trace P _ (seq 0 n) x x 0 HP0 Hbody)
    as (tr & Hlen & H0 & Hstep & Hrun & Hall).
  rewrite length_seq in Hlen, Hstep, Hrun.
  exists (fun k => nth k tr x). split; [exact H0|]. split.
  { intros k Hk. specialize (Hstep k Hk). by rewrite seq_nth in Hstep. }
  split.
  { unfold torch_geometric.GatedGraphConv_forward, size1. rewrite Hd.
    rewrite Nat.ltb_irrefl. rewrite bind_Ok. exact Hrun. }
  intros k Hk. rewrite List.Forall_forall in Hall. apply Hall.
  apply nth_In. lia.
Qed.

Lemma GGNN_init_ok_inv (V d n : nat) (G : GGNN.t) :
  GGNN.init_ok V d n G = true ->
  nn.Embedding_wf (GGNN.embed G) = true
  /\ nn.num_embeddings (GGNN.embed G) = V
  /\ nn.embedding_dim (GGNN.embed G) = d
  /\ nn.num_embeddings (GGNN.edge_embed G) = 20
  /\ torch_geometric.GatedGraphConv_wf (GGNN.ggnnlayer G) = true
  /\ torch_geometric.out_channels (GGNN.ggnnlayer G) = d
  /\ torch_geometric.num_layers (GGNN.ggnnlayer G) = n
  /\ nn.Linear_wf (GGNN.mlp_gate G) = true
  /\ nn.in_features (GGNN.mlp_gate G) = d
  /\ nn.out_features (GGNN.mlp_gate G) = 1.
Proof.
  unfold GGNN.init_ok. rewrite !andb_true_iff, !Nat.eqb_eq. tauto.
Qed.

(** With valid edge attributes, [GGNN.forward] does what it does without
    any: the edge weights it computes are dropped. *)
Lemma GGNN_forward_drops_edge_attr (G : GGNN.t) (x : list nat) (ei : EdgeIndex)
    (ea : option (list nat)) :
  nn.num_embeddings (GGNN.edge_embed G) = 20 ->
  valid_edge_attr ea = true ->
  GGNN.forward G (x, ei, ea) = GGNN.forward G (x, ei, None).
Proof.
  intros H20 Hea. unfold GGNN.forward.
  destruct (nn.Embedding_forward (GGNN.embed G) x) as [a|e]; [|reflexivity].
  rewrite !bind_Ok. destruct (nn.squeeze1 a) as [y|e]; [|reflexivity].
  rewrite !bind_Ok. destruct ea as [w|]; [|reflexivity].
  simpl in Hea. unfold nn.Embedding_forward. rewrite H20, Hea. reflexivity.
Qed.

Lemma GGNN_forward_spec (V d n : nat) (G : GGNN.t)
    (x : list nat) (ei : EdgeIndex) (ea : option (list nat)) :
  GGNN.init_ok V d n G = true ->
  GGNN_valid_data V (x, ei, ea) = true ->
  exists (e : Tensor) (st : nat -> Tensor) (hg : Tensor),
    (nn.Embedding_forward (GGNN.embed G) x ≫= nn.squeeze1) = Ok e
    /\ (forall i, i < length x -> row i e = nth (nth i x 0) (nn.table (GGNN.embed G)) [])
    /\ st 0 = e
    /\ (forall k, k < n ->
          torch_geometric.GatedGraphConv_step (GGNN.ggnnlayer G) ei k (st k)
          = Ok (st (S k)))
    /\ torch_geometric.GatedGraphConv_forward (GGNN.ggnnlayer G) e ei = Ok (st n)
    /\ GGNN.pool G (st n) (replicate (size0 (st n)) 0) = Ok hg
    /\ GGNN.forward G (x, ei, ea) = Ok hg
    /\ size0 (st n) = length x
    /\ size0 hg = (if length x =? 0 then 0 else 1)
    /\ ncols hg = d /\ wfT hg = true.
Proof.
  intros Hinit Hv.
  destruct (GGNN_init_ok_inv _ _ _ _ Hinit)
    as (Hewf & HeV & Hed & H20 & Hcwf & Hcd & Hcn & Hgwf & Hgin & Hgout).
  unfold GGNN_valid_data in Hv. rewrite !andb_true_iff in Hv.
  destruct Hv as [[Hx Hei] Hea].
  apply forallb_lt_Forall in Hx. rewrite <- HeV in Hx.
  destruct (embed_squeeze_Ok _ x Hewf Hx) as (e & He & He0 & He1 & Hewf' & Herow).
  destruct (GatedGraphConv_forward_Ok (GGNN.ggnnlayer G) e ei Hcwf Hewf'
              ltac:(lia) ltac:(by rewrite He0))
    as (st & Hst0 & Hstep & Hrun & Hshape).
  rewrite Hcn in Hstep, Hrun, Hshape.
  destruct (Hshape n (le_n n)) as (Hywf & Hy1 & Hy0).
  destruct (pool_zeros_Ok (GGNN.mlp_gate G) (st n) Hgwf ltac:(lia) Hgout)
    as (hg & Hhg & Hhg0 & Hhg1).
  exists e, st, hg. repeat split; try done.
  - rewrite (GGNN_forward_drops_edge_attr G x ei ea H20 Hea).
    unfold GGNN.forward. rewrite (embed_steps _ _ _ _ He), bind_Ok, Hrun, bind_Ok.
    unfold GGNN.pool in Hhg |- *. by rewrite Hhg.
  - lia.
  - rewrite Hhg0, Hy0, He0. reflexivity.
  - lia.
  - by apply (pool_zeros_wf _ _ _ Hhg).
Qed.

(** ** [GMNlayer.message] without edge weights *)

Lemma index_select_shape (a b : Tensor) (idx : list nat) :
  torch.index_select a idx = Ok b -> size0 b = length idx /\ ncols b = ncols a.
Proof.
  unfold torch.index_select. destruct (forallb _ idx); [|done].
  intros [= <-]. unfold size0. simpl. by rewrite length_map.
Qed.

(** [propagate] without edge weights is [propagate] with ones. *)
Lemma propagate_None_ones (L : GMNlayer.t) (ei : EdgeIndex)
    (size : option (nat * nat)) (x : Tensor) :
  GMNlayer.propagate L ei size x None
  = GMNlayer.propagate L ei size x (Some (torch.ones (length ei) (ncols x))).
Proof.
  unfold GMNlayer.propagate, torch_geometric.propagate.
  destruct (torch_geometric.set_size _ 1 x) as [sz|e]; [|reflexivity].
  rewrite !bind_Ok. unfold torch_geometric.lift.
  destruct (torch.index_select x (edge_row 1 ei)) as [x_i|e] eqn:Ei; [|reflexivity].
  rewrite !bind_Ok. simpl.
  destruct (torch_geometric.set_size sz 0 x) as [sz'|e]; [|reflexivity].
  rewrite !bind_Ok.
  destruct (torch.index_select x (map fst ei)) as [x_j|e]; [|reflexivity].
  rewrite !bind_Ok.
  apply index_select_shape in Ei as [E0 E1]. simpl in E0. rewrite length_map in E0.
  unfold size1. rewrite E0, E1. reflexivity.
Qed.

(** ** [GMNlayer.propagate_match] *)

Lemma scatter_None (name : string) (index : list nat) (dim_size : option nat) :
  scatter name VNone index dim_size = Raise TypeError.
Proof. reflexivity. Qed.

Lemma match_returns_None (L : GMNlayer.t) (args : list PyVal) (r : PyVal) :
  GMNlayer.match_ L args = Ok r -> r = VNone.
Proof.
  unfold GMNlayer.match_. destruct (length args =? 4); [|done]. by intros [= <-].
Qed.

Lemma propagate_match_raises (L : GMNlayer.t) (ei : EdgeIndex)
    (size : option (list (option nat))) (kwargs : gmap string PyVal) :
  exists e, GMNlayer.propagate_match L ei size kwargs = Raise e.
Proof.
  unfold GMNlayer.propagate_match.
  destruct (match size with
            | None => Ok (None, None)
            | Some [] => Raise AssertionError
            | Some [a] => Raise AssertionError
            | Some [a; b] => Ok (a, b)
            | Some (a :: b :: _ :: _) => Raise AssertionError
            end) as [sz|e]; [|by exists e].
  rewrite bind_Ok.
  destruct (for_each _ GMNlayer.match_args (sz, [])) as [[sz' margs]|e];
    [|by exists e].
  rewrite bind_Ok.
  destruct (for_each _ GMNlayer.special_match_args margs) as [margs'|e];
    [|by exists e].
  rewrite bind_Ok.
  destruct (mapM _ (GMNlayer.update_args L)) as [uargs|e]; [|by exists e].
  rewrite bind_Ok.
  destruct (GMNlayer.match_ L margs') as [r|e] eqn:Em; [|by exists e].
  apply match_returns_None in Em. subst r.
  rewrite bind_Ok, scatter_None. by exists TypeError.
Qed.

Example layer0_init : GMNlayer.init_ok 1 1 layer0 = true.
Proof. reflexivity. Qed.

Example net0_init : GMNnet.init_ok 2 1 2 net0 = true.
Proof. reflexivity. Qed.

Example ggnn0_init : GGNN.init_ok 2 1 2 ggnn0 = true.
Proof. reflexivity. Qed.

Example data0_valid : valid_data 2 data0 = true.
Proof. reflexivity. Qed.

Example special_match_args_value :
  GMNlayer.special_match_args = [(0, "edge_index_i"); (3, "size_i")]%string.
Proof. reflexivity. Qed.

Example match_args_value : GMNlayer.match_args = ["x_i"; "x_j"]%string.
Proof. reflexivity. Qed.

Example mm_example :
  torch.mm (mkTensor 2 [[1%R; 2%R]]) (mkTensor 1 [[3%R]; [4%R]])
  = Ok (mkTensor 1 [[(1 * 3 + (2 * 4 + 0))%R]]).
Proof. reflexivity. Qed.

(** A tensor without rows keeps its width through a transposition. *)
Example t_example :
  torch.t (mkTensor 2 []) = mkTensor 0 [[]; []]
  /\ torch.t (mkTensor 0 [[]; []]) = mkTensor 2 [].
Proof. split; reflexivity. Qed.

(** Scattering three rows to two nodes. *)
Example scatter_add_example :
  torch.scatter_add (mkTensor 1 [[1%R]; [2%R]; [3%R]]) [1; 0; 1] 2
  = Ok (mkTensor 1 [[(0 + 2)%R]; [(0 + 1 + 3)%R]]).
Proof. reflexivity. Qed.

(** With node features for the argument [x], [propagate_match] gets as
    far as the call of [match], and the scatter that follows raises. *)
Example propagate_match_example :
  GMNlayer.propagate_match layer0 [(0, 1)] None (<["x" := VTensor X1]> ∅)
  = Raise TypeError.
Proof. reflexivity. Qed.

Example propagate_match_example_args :
  for_each (GMNlayer.collect_match_arg layer0 [(0, 1)] (<["x" := VTensor X1]> ∅))
           GMNlayer.match_args ((None, None), [])
  = Ok ((Some 2, Some 2),
        [VTensor (mkTensor 1 [[2%R]]); VTensor (mkTensor 1 [[1%R]])]).
Proof. reflexivity. Qed.

(** ** Rows of the attention and of the pooled tensor *)

Lemma softmax_dim1_row (s a : Tensor) (i : nat) :
  torch.softmax s 1 = Ok a -> row i a = torch.softmax_row (row i s).
Proof.
  intros [= <-]. unfold row. simpl.
  exact (map_nth torch.softmax_row (rows s) [] i).
Qed.

Lemma softmax_dim0_t_row (s s0 : Tensor) (k : nat) :
  torch.softmax s 0 = Ok s0 -> wfT s = true -> k < ncols s ->
  row k (torch.t s0) = torch.softmax_row (col k s).
Proof.
  intros Hs0 Hwf Hk. destruct (softmax_dim0_t s Hwf) as (s0' & Hs0' & Ht).
  rewrite Hs0 in Hs0'. injection Hs0' as <-. rewrite Ht. unfold row at 1. simpl.
  transitivity (torch.softmax_row (row k (torch.t s))).
  - exact (map_nth torch.softmax_row (rows (torch.t s)) [] k).
  - by rewrite row_t.
Qed.

Lemma combine_replicate_0 {A : Type} (l : list A) :
  map snd (List.filter (fun p : nat * A => p.1 =? 0) (combine (replicate (length l) 0) l))
  = l.
Proof. induction l as [|a l IH]; simpl; [reflexivity | by rewrite IH]. Qed.

(** Pooling with all nodes in graph 0 and at least one node: the one row
    of the result is the sum, from zeros and in the order of the nodes,
    of the node rows scaled by the softmax of their gates. *)
Lemma pool_zeros_row (gate : nn.Linear) (x hg : Tensor) :
  torch_geometric.GlobalAttention_forward
    (nn.Sequential_Linear_Sigmoid gate) x (replicate (size0 x) 0) = Ok hg ->
  0 < size0 x ->
  exists g,
    nn.Sequential_Linear_Sigmoid gate x = Ok g
    /\ size0 g = size0 x /\ ncols g = 1
    /\ ncols hg = ncols x
    /\ row 0 hg
       = fold_left vadd
           (zip_with vscale
              (torch_geometric.softmax (col 0 g) (replicate (size0 x) 0)) (rows x))
           (vzero (ncols x)).
Proof.
  intros H Hpos. unfold torch_geometric.GlobalAttention_forward in H.
  apply bind_inv in H as (g & Hg & H). exists g. split; [done|].
  destruct (negb _) eqn:E; [done|]. apply negb_false_iff in E.
  rewrite !andb_true_iff, !Nat.eqb_eq in E. destruct E as [[Hg1 Hg0] _].
  split; [done|]. split; [done|].
  set (w := torch_geometric.softmax (col 0 g) (replicate (size0 x) 0)) in *.
  assert (Hw : length w = size0 x).
  { unfold w. rewrite softmax_group_length; rewrite ?col_length, length_replicate; done. }
  assert (Hl : length (zip_with vscale w (rows x)) = size0 x).
  { rewrite length_zip_with. unfold size0 in *. lia. }
  destruct (scatter_add_Ok (mkTensor (ncols x) (zip_with vscale w (rows x)))
              (replicate (size0 x) 0) 1) as (out & Hout & _ & Hc & Hrow).
  - rewrite length_replicate. unfold size0 at 2. simpl. by rewrite Hl.
  - apply Forall_replicate. lia.
  - assert (Hn : match replicate (size0 x) 0 with
                 | [] => 0
                 | _ :: _ => S (list_max (replicate (size0 x) 0))
                 end = 1).
    { destruct (size0 x) as [|k]; [lia|]. simpl. by rewrite list_max_replicate_0. }
    rewrite Hn, Hout in H. injection H as <-. split; [exact Hc|].
    rewrite (Hrow 0) by lia. simpl. rewrite <- Hl at 1.
    by rewrite combine_replicate_0.
Qed.

(** * The claims *)

(** C1: for node features [x1] of shape [N1, d] and [x2] of shape
    [N2, d], edges between the nodes of each graph and edge weights that
    are absent or of shape [E, d], [GMNlayer.forward] runs one round of
    message passing on each graph by itself: [propagate] over
    [edge_index1] on [x1] gives [m1], whose row [v] is the sum of the
    messages [relu(fmessage(cat(x_i, x_j, w)))] of the edges of graph 1
    that arrive at [v], made from the rows of [x1] alone, and [propagate]
    over [edge_index2] on [x2] gives [m2] likewise from graph 2 alone.
    It computes the attention from the score matrix [x1 @ x2^T], and
    returns the pair [(h1, h2)] with
    [h1 = fnode(cat(m1, x1 - attn_1 @ x2), x1)] and
    [h2 = fnode(cat(m2, x2 - attn_2 @ x1), x2)]: row [v] of [h1] is the
    GRU cell on row [v] of [m1] next to row [v] of [x1 - attn_1 @ x2],
    with hidden state row [v] of [x1]; the updated node states have the
    shapes of [x1] and [x2]. *)
Theorem GMNlayer_forward_one_round (L : GMNlayer.t) (d : nat) (x1 x2 : Tensor)
    (edge_index1 edge_index2 : EdgeIndex) (edge_weight1 edge_weight2 : option Tensor) :
  GMNlayer.init_ok d d L = true ->
  valid_graph d x1 edge_index1 edge_weight1 = true ->
  valid_graph d x2 edge_index2 edge_weight2 = true ->
  exists m1 m2 scores s0 attn_1 attn_2 attnsum_1 attnsum_2 u1 u2 c1 c2 h1 h2,
    GMNlayer.propagate L edge_index1 (Some (size0 x1, size0 x1)) x1 edge_weight1 = Ok m1
    /\ GMNlayer.propagate L edge_index2 (Some (size0 x2, size0 x2)) x2 edge_weight2 = Ok m2
    /\ torch.mm x1 (torch.t x2) = Ok scores
    /\ torch.softmax scores 1 = Ok attn_1
    /\ torch.softmax scores 0 = Ok s0 /\ attn_2 = torch.t s0
    /\ torch.mm attn_1 x2 = Ok attnsum_1
    /\ torch.mm attn_2 x1 = Ok attnsum_2
    /\ torch.sub x1 attnsum_1 = Ok u1
    /\ torch.sub x2 attnsum_2 = Ok u2
    /\ torch.cat1 [m1; u1] = Ok c1
    /\ nn.GRUCell_forward (GMNlayer.fnode L) c1 x1 = Ok h1
    /\ torch.cat1 [m2; u2] = Ok c2
    /\ nn.GRUCell_forward (GMNlayer.fnode L) c2 x2 = Ok h2
    /\ GMNlayer.forward L x1 x2 edge_index1 edge_index2 edge_weight1 edge_weight2
       = Ok (h1, h2)
    /\ (size0 h1 = size0 x1 /\ ncols h1 = d /\ wfT h1 = true)
    /\ (size0 h2 = size0 x2 /\ ncols h2 = d /\ wfT h2 = true)
    /\ (size0 m1 = size0 x1 /\ ncols m1 = d)
    /\ (size0 m2 = size0 x2 /\ ncols m2 = d)
    /\ (forall v, v < size0 x1 ->
          row v m1
          = fold_left vadd
              (map (fun p => edge_message L x1 p.1 p.2)
                 (incoming v edge_index1
                    (edge_weight_rows (length edge_index1) d edge_weight1)))
              (vzero d))
    /\ (forall v, v < size0 x2 ->
          row v m2
          = fold_left vadd
              (map (fun p => edge_message L x2 p.1 p.2)
                 (incoming v edge_index2
                    (edge_weight_rows (length edge_index2) d edge_weight2)))
              (vzero d))
    /\ (forall v, v < size0 x1 -> row v c1 = row v m1 ++ row v u1)
    /\ (forall v, v < size0 x2 -> row v c2 = row v m2 ++ row v u2)
    /\ (forall v, v < size0 x1 ->
          row v h1 = nn.GRU_row (GMNlayer.fnode L) (row v m1 ++ row v u1) (row v x1))
    /\ (forall v, v < size0 x2 ->
          row v h2 = nn.GRU_row (GMNlayer.fnode L) (row v m2 ++ row v u2) (row v x2)).
Proof.
  intros Hinit Hg1 Hg2.
  destruct (forward_spec L d x1 x2 _ _ _ _ Hinit Hg1 Hg2)
    as (m1 & m2 & a1 & a2 & u1 & u2 & c1 & c2 & h1 & h2 & Hm1 & Hm2 & Hatt & Hc1
        & Hh1 & Hc2 & Hh2 & Hfw & Hs1 & Hs2 & Hr1 & Hr2 & Hhr1 & Hhr2).
  destruct (forward_attention_inv _ _ _ _ _ _ Hatt)
    as (scores & s0 & as1 & as2 & Hsc & Ha1 & Hs0 & Ha2 & Has1 & Has2 & Hu1 & Hu2).
  destruct (init_ok_inv _ _ _ Hinit) as (Hlw & Hin & Hout & _).
  destruct (valid_graph_inv _ _ _ _ Hg1) as (Hw1 & Hd1 & Hei1 & Hew1).
  destruct (valid_graph_inv _ _ _ _ Hg2) as (Hw2 & Hd2 & Hei2 & Hew2).
  destruct (forward_attention_spec x1 x2 Hw1 Hw2 ltac:(lia))
    as (b1 & b2 & v1 & v2 & Hatt' & _ & _ & _ & _
        & (Hu1_0 & _) & (Hu2_0 & _) & _).
  rewrite Hatt in Hatt'. injection Hatt' as <- <- <- <-.
  rewrite <- Hd1 in Hew1, Hin. rewrite <- Hd2 in Hew2.
  destruct (propagate_spec L x1 edge_index1 edge_weight1 Hei1 Hew1 Hlw Hin)
    as (m1' & Hm1' & Hm1_0 & Hm1_1 & _).
  destruct (propagate_spec L x2 edge_index2 edge_weight2 Hei2 Hew2 Hlw
              ltac:(rewrite Hd2, <- Hd1; exact Hin))
    as (m2' & Hm2' & Hm2_0 & Hm2_1 & _).
  rewrite Hm1 in Hm1'. injection Hm1' as <-.
  rewrite Hm2 in Hm2'. injection Hm2' as <-.
  assert (Hcat : forall m u c v, torch.cat1 [m; u] = Ok c -> size0 m = size0 u ->
            v < size0 m -> row v c = row v m ++ row v u).
  { intros m u c v Hc Hmu Hv. rewrite (cat1_two m u Hmu) in Hc. injection Hc as <-.
    unfold row at 1. simpl. apply row_zip_app; lia. }
  exists m1, m2, scores, s0, a1, a2, as1, as2, u1, u2, c1, c2, h1, h2.
  repeat split; try done; try solve [apply Hs1 | apply Hs2 | lia].
  - intros v Hv. rewrite Hr1 by done. unfold aggregate. by rewrite Hout, Hd1.
  - intros v Hv. rewrite Hr2 by done. unfold aggregate. by rewrite Hout, Hd2.
  - intros v Hv. apply (Hcat m1 u1); [done | lia | lia].
  - intros v Hv. apply (Hcat m2 u2); [done | lia | lia].
  - intros v Hv. rewrite Hhr1 by done. by rewrite Hr1.
  - intros v Hv. rewrite Hhr2 by done. by rewrite Hr2.
Qed.

Lemma GMNlayer_forward_one_round_witness :
  GMNlayer.init_ok 1 1 layer0 = true
  /\ valid_graph 1 X1 [(0, 1)] None = true
  /\ valid_graph 1 X2 [] None = true
  /\ exists m1 h1 h2,
       GMNlayer.propagate layer0 [(0, 1)] (Some (2, 2)) X1 None = Ok m1
       /\ GMNlayer.forward layer0 X1 X2 [(0, 1)] [] None None = Ok (h1, h2)
       /\ size0 h1 = 2 /\ size0 h2 = 1
       /\ row 0 m1 = vzero 1
       /\ row 1 m1 = vadd (vzero 1) (edge_message layer0 X1 (0, 1) [1%R]).
Proof.
  split; [reflexivity|]. split; [reflexivity|]. split; [reflexivity|].
  destruct (GMNlayer_forward_one_round layer0 1 X1 X2 [(0, 1)] [] None None
              eq_refl eq_refl eq_refl)
    as (m1 & m2 & scores & s0 & a1 & a2 & as1 & as2 & u1 & u2 & c1 & c2 & h1 & h2
        & Hm1 & _ & _ & _ & _ & _ & _ & _ & _ & _ & _ & _ & _ & _ & Hfw
        & (Hh1 & _) & (Hh2 & _) & _ & _ & Hr1 & _).
  exists m1, h1, h2. split; [exact Hm1|]. split; [exact Hfw|].
  split; [exact Hh1|]. split; [exact Hh2|].
  split; [apply (Hr1 0) | apply (Hr1 1)]; unfold size0, X1; simpl; lia.
Defined.

(** C2, as amended: for a pair of graphs with valid vocabulary indices,
    [GMNnet.forward] maps the node indices of both graphs through the one
    table [embed], applies the one layer [gmnlayer] exactly [num_layers]
    times (the count given to the constructor), each time to the node
    states the previous turn returned, which keep one row per node, pools
    the final node states of each graph with the gated attention pooling,
    all nodes being in graph 0, and returns the pair [(hg1, hg2)].  For a
    graph with at least one node the pooled tensor is a single vector, of
    shape [1, embedding_dim]: the sum over the nodes of the final node
    rows, each scaled by the softmax over the nodes of its gate
    [sigmoid(mlp_gate(row))].  For a graph without nodes the pooled tensor
    has the shape [0, embedding_dim]: it holds no vector. *)
Theorem GMNnet_forward_pipeline (vocablen embedding_dim num_layers : nat)
    (N : GMNnet.t) (x1 x2 : list nat) (edge_index1 edge_index2 : EdgeIndex)
    (edge_attr1 edge_attr2 : option (list nat)) :
  GMNnet.init_ok vocablen embedding_dim num_layers N = true ->
  valid_data vocablen (x1, x2, edge_index1, edge_index2, edge_attr1, edge_attr2) = true ->
  exists (e1 e2 : Tensor) (edge_weight1 edge_weight2 : option Tensor)
         (st : nat -> Tensor * Tensor) (hg1 hg2 : Tensor),
    (nn.Embedding_forward (GMNnet.embed N) x1 ≫= nn.squeeze1) = Ok e1
    /\ (nn.Embedding_forward (GMNnet.embed N) x2 ≫= nn.squeeze1) = Ok e2
    /\ (forall i, i < length x1 ->
          row i e1 = nth (nth i x1 0) (nn.table (GMNnet.embed N)) [])
    /\ (forall i, i < length x2 ->
          row i e2 = nth (nth i x2 0) (nn.table (GMNnet.embed N)) [])
    /\ GMNnet.edge_weights N edge_attr1 edge_attr2 = Ok (edge_weight1, edge_weight2)
    /\ st 0 = (e1, e2)
    /\ (forall k, k < num_layers ->
          GMNlayer.forward (GMNnet.gmnlayer N) (st k).1 (st k).2
            edge_index1 edge_index2 edge_weight1 edge_weight2
          = Ok (st (S k)))
    /\ (forall k, k <= num_layers ->
          size0 (st k).1 = length x1 /\ size0 (st k).2 = length x2)
    /\ GMNnet.num_layers N = num_layers
    /\ GMNnet.pool N (st num_layers).1 (replicate (size0 (st num_layers).1) 0) = Ok hg1
    /\ GMNnet.pool N (st num_layers).2 (replicate (size0 (st num_layers).2) 0) = Ok hg2
    /\ GMNnet.forward N (x1, x2, edge_index1, edge_index2, edge_attr1, edge_attr2)
       = Ok (hg1, hg2)
    /\ (ncols hg1 = embedding_dim /\ wfT hg1 = true)
    /\ (ncols hg2 = embedding_dim /\ wfT hg2 = true)
    /\ (0 < length x1 ->
          size0 hg1 = 1
          /\ exists gate1,
               nn.Sequential_Linear_Sigmoid (GMNnet.mlp_gate N) (st num_layers).1
               = Ok gate1
               /\ row 0 hg1
                  = fold_left vadd
                      (zip_with vscale
                         (torch_geometric.softmax (col 0 gate1)
                            (replicate (length x1) 0))
                         (rows (st num_layers).1))
                      (vzero embedding_dim))
    /\ (0 < length x2 ->
          size0 hg2 = 1
          /\ exists gate2,
               nn.Sequential_Linear_Sigmoid (GMNnet.mlp_gate N) (st num_layers).2
               = Ok gate2
               /\ row 0 hg2
                  = fold_left vadd
                      (zip_with vscale
                         (torch_geometric.softmax (col 0 gate2)
                            (replicate (length x2) 0))
                         (rows (st num_layers).2))
                      (vzero embedding_dim))
    /\ (length x1 = 0 -> size0 hg1 = 0)
    /\ (length x2 = 0 -> size0 hg2 = 0).
Proof.
  intros Hinit Hv.
  destruct (GMNnet_forward_spec _ _ _ _ _ _ _ _ _ _ Hinit Hv)
    as (e1 & e2 & ew1 & ew2 & st & hg1 & hg2 & He1 & He2 & Hew & H0 & Hstep & Hshape
        & Hp1 & Hp2 & Hfw & (Hh1_0 & Hh1_1 & Hh1wf) & (Hh2_0 & Hh2_1 & Hh2wf)).
  destruct (GMNnet_init_ok_inv _ _ _ _ Hinit) as (Hn & Hewf & HeV & _).
  destruct (Hshape num_layers (le_n _)) as (_ & _ & Hy1 & Hy2).
  unfold valid_data in Hv. rewrite !andb_true_iff in Hv.
  destruct Hv as [[[[Hx1 Hx2] _] _] _].
  apply forallb_lt_Forall in Hx1, Hx2. rewrite <- HeV in Hx1, Hx2.
  destruct (embed_squeeze_Ok _ x1 Hewf Hx1) as (e1' & He1' & _ & _ & _ & Hr1).
  destruct (embed_squeeze_Ok _ x2 Hewf Hx2) as (e2' & He2' & _ & _ & _ & Hr2).
  rewrite He1 in He1'. injection He1' as <-.
  rewrite He2 in He2'. injection He2' as <-.
  assert (Hpool : forall (y hg : Tensor) (n : nat),
            GMNnet.pool N y (replicate (size0 y) 0) = Ok hg ->
            size0 y = n -> ncols hg = embedding_dim ->
            size0 hg = (if n =? 0 then 0 else 1) -> 0 < n ->
            size0 hg = 1
            /\ exists g,
                 nn.Sequential_Linear_Sigmoid (GMNnet.mlp_gate N) y = Ok g
                 /\ row 0 hg
                    = fold_left vadd
                        (zip_with vscale
                           (torch_geometric.softmax (col 0 g) (replicate n 0)) (rows y))
                        (vzero embedding_dim)).
  { intros y hg n Hp Hy Hc Hs Hpos. split.
    - rewrite Hs. destruct n; [lia | reflexivity].
    - destruct (pool_zeros_row _ y hg Hp ltac:(lia)) as (g & Hg & _ & _ & Hcy & Hrow).
      exists g. split; [exact Hg|]. by rewrite Hrow, Hy, <- Hcy, Hc. }
  exists e1, e2, ew1, ew2, st, hg1, hg2.
  split; [done|]. split; [done|]. split; [done|]. split; [done|].
  split; [done|]. split; [done|]. split; [done|].
  split; [intros k Hk; destruct (Hshape k Hk) as (_ & _ & Hk1 & Hk2); done|].
  split; [done|]. split; [done|]. split; [done|]. split; [done|].
  split; [done|]. split; [done|].
  split; [by apply Hpool|]. split; [by apply Hpool|].
  split; intros Hz.
  - by rewrite Hh1_0, Hz.
  - by rewrite Hh2_0, Hz.
Qed.

Lemma GMNnet_forward_pipeline_witness :
  GMNnet.init_ok 2 1 2 net0 = true
  /\ valid_data 2 data0 = true
  /\ exists hg1 hg2,
       GMNnet.forward net0 data0 = Ok (hg1, hg2)
       /\ (size0 hg1 = 1 /\ ncols hg1 = 1)
       /\ (size0 hg2 = 1 /\ ncols hg2 = 1).
Proof.
  split; [reflexivity|]. split; [reflexivity|].
  destruct (GMNnet_forward_pipeline 2 1 2 net0 [0; 1] [1] [(0, 1)] [] (Some [3])
              (Some []) eq_refl eq_refl)
    as (e1 & e2 & ew1 & ew2 & st & hg1 & hg2 & _ & _ & _ & _ & _ & _ & _ & _ & _
        & _ & _ & Hfw & (Hc1 & _) & (Hc2 & _) & Hs1 & Hs2 & _).
  exists hg1, hg2. unfold data0. split; [exact Hfw|].
  split; (split; [|assumption]).
  - apply Hs1. simpl. lia.
  - apply Hs2. simpl. lia.
Defined.

(** C2, the claim as it was stated, at a graph 2 without nodes: the
    input is valid and [forward] returns, graph 1 is pooled to one
    vector, and the tensor pooled from graph 2 has no row, so that no
    vector stands for graph 2. *)
Lemma GMNnet_forward_second_graph_empty :
  GMNnet.init_ok 2 1 2 net0 = true
  /\ valid_data 2 ([1], [], [], [], None, None) = true
  /\ exists hg1 hg2,
       GMNnet.forward net0 ([1], [], [], [], None, None) = Ok (hg1, hg2)
       /\ size0 hg1 = 1 /\ size0 hg2 = 0 /\ rows hg2 = [] /\ size0 hg2 <> 1.
Proof.
  split; [reflexivity|]. split; [reflexivity|].
  destruct (GMNnet_forward_spec 2 1 2 net0 [1] [] [] [] None None eq_refl eq_refl)
    as (e1 & e2 & ew1 & ew2 & st & hg1 & hg2 & _ & _ & _ & _ & _ & _ & _ & _
        & Hfw & (H1 & _) & (H2 & _)).
  exists hg1, hg2. simpl in H1, H2. split; [exact Hfw|].
  split; [exact H1|]. split; [exact H2|].
  split; [|by rewrite H2].
  unfold size0 in H2. by destruct (rows hg2).
Qed.

(** C3: whatever its arguments, a call of [GMNlayer.propagate_match]
    raises: [match] returns [None] whenever it returns, the scatter that
    follows raises on [None], and so no call returns a tensor. *)
Theorem GMNlayer_propagate_match_never_returns :
  (forall (L : GMNlayer.t) (args : list PyVal) (r : PyVal),
      GMNlayer.match_ L args = Ok r -> r = VNone)
  /\ (forall (name : string) (index : list nat) (dim_size : option nat),
        scatter name VNone index dim_size = Raise TypeError)
  /\ (forall (L : GMNlayer.t) (edge_index : EdgeIndex)
             (size : option (list (option nat))) (kwargs : gmap string PyVal),
        is_Ok (GMNlayer.propagate_match L edge_index size kwargs) = false).
Proof.
  split; [exact match_returns_None|]. split; [exact scatter_None|].
  intros L ei size kwargs.
  destruct (propagate_match_raises L ei size kwargs) as (e & He). by rewrite He.
Qed.

(** C4, as amended: in [GMNlayer.forward], with
    [scores = x1 @ x2^T], the entry [scores[i][k]] is the inner product
    of node [i] of graph 1 and node [k] of graph 2;
    [attn_1 = softmax(scores, dim=1)] has shape [N1, N2] and its row [i]
    is the softmax of row [i] of the scores, taken over the nodes of
    graph 2: [attn_1[i][k]] is the exponential of [scores[i][k]] divided
    by the sum of the exponentials of that row;
    [attn_2 = softmax(scores, dim=0)^T] has shape [N2, N1] and its row
    [k] is the softmax of column [k] of the scores, taken over the nodes
    of graph 1; a row over a graph without nodes is empty; every node's
    update term is its feature minus the attention-weighted sum of the
    other graph's node features, [u1 = x1 - attn_1 @ x2] and
    [u2 = x2 - attn_2 @ x1]; and these [u1] and [u2] are the tensors that
    [forward] puts next to the propagated messages and gives to the GRU
    cell.  Nothing is stated on the sign of an entry or on the value of a
    row sum: the softmax divides a row by its own sum, which makes the sum
    1 in exact arithmetic only. *)
Theorem GMNlayer_attention_soft_correspondence (x1 x2 : Tensor) :
  wfT x1 = true -> wfT x2 = true -> ncols x1 = ncols x2 ->
  exists scores s0 attn_1 attn_2 attnsum_1 attnsum_2 u1 u2,
    torch.mm x1 (torch.t x2) = Ok scores
    /\ torch.softmax scores 1 = Ok attn_1
    /\ torch.softmax scores 0 = Ok s0 /\ attn_2 = torch.t s0
    /\ torch.mm attn_1 x2 = Ok attnsum_1 /\ torch.sub x1 attnsum_1 = Ok u1
    /\ torch.mm attn_2 x1 = Ok attnsum_2 /\ torch.sub x2 attnsum_2 = Ok u2
    /\ (size0 scores = size0 x1 /\ ncols scores = size0 x2)
    /\ (forall i k, i < size0 x1 -> k < size0 x2 ->
          entry i k scores = dot (row i x1) (row k x2))
    /\ (size0 attn_1 = size0 x1 /\ ncols attn_1 = size0 x2 /\ wfT attn_1 = true)
    /\ (size0 attn_2 = size0 x2 /\ ncols attn_2 = size0 x1 /\ wfT attn_2 = true)
    /\ (forall i, i < size0 x1 -> row i attn_1 = torch.softmax_row (row i scores))
    /\ (forall k, k < size0 x2 -> row k attn_2 = torch.softmax_row (col k scores))
    /\ (forall i k, i < size0 x1 -> k < size0 x2 ->
          entry i k attn_1
          = (exp (dot (row i x1) (row k x2))
             / sum_to (size0 x2) (fun k' => exp (dot (row i x1) (row k' x2))))%R)
    /\ (forall k i, k < size0 x2 -> i < size0 x1 ->
          entry k i attn_2
          = (exp (dot (row i x1) (row k x2))
             / sum_to (size0 x1) (fun i' => exp (dot (row i' x1) (row k x2))))%R)
    /\ (size0 x2 = 0 -> Forall (fun r => r = []) (rows attn_1))
    /\ (size0 x1 = 0 -> Forall (fun r => r = []) (rows attn_2))
    /\ (size0 u1 = size0 x1 /\ ncols u1 = ncols x1 /\ wfT u1 = true)
    /\ (size0 u2 = size0 x2 /\ ncols u2 = ncols x2 /\ wfT u2 = true)
    /\ (forall i c, i < size0 x1 -> c < ncols x1 ->
          entry i c u1
          = (entry i c x1
             - sum_to (size0 x2) (fun k => entry i k attn_1 * entry k c x2))%R)
    /\ (forall k c, k < size0 x2 -> c < ncols x2 ->
          entry k c u2
          = (entry k c x2
             - sum_to (size0 x1) (fun i => entry k i attn_2 * entry i c x1))%R)
    /\ (forall (L : GMNlayer.t) (edge_index1 edge_index2 : EdgeIndex)
               (edge_weight1 edge_weight2 : option Tensor),
          GMNlayer.forward L x1 x2 edge_index1 edge_index2 edge_weight1 edge_weight2
          = (m1 ← GMNlayer.propagate L edge_index1 (Some (size0 x1, size0 x1)) x1
                    edge_weight1;
             m2 ← GMNlayer.propagate L edge_index2 (Some (size0 x2, size0 x2)) x2
                    edge_weight2;
             c1 ← torch.cat1 [m1; u1];
             h1 ← nn.GRUCell_forward (GMNlayer.fnode L) c1 x1;
             c2 ← torch.cat1 [m2; u2];
             h2 ← nn.GRUCell_forward (GMNlayer.fnode L) c2 x2;
             Ok (h1, h2))).
Proof.
  intros H1 H2 Hd.
  destruct (forward_attention_spec x1 x2 H1 H2 Hd)
    as (a1 & a2 & u1 & u2 & Hatt & Hs1 & Hs2 & He1 & He2
        & Hus1 & Hus2 & Hd1 & Hd2).
  destruct (forward_attention_inv _ _ _ _ _ _ Hatt)
    as (scores & s0 & as1 & as2 & Hsc & Ha1 & Hs0 & Ha2 & Has1 & Has2 & Hsub1 & Hsub2).
  destruct (scores_spec x1 x2 H1 H2 Hd) as (s' & Hsc' & Hsc0 & Hsc1 & Hscwf & Hsce).
  rewrite Hsc in Hsc'. injection Hsc' as <-.
  assert (Hempty : forall a : Tensor, wfT a = true -> ncols a = 0 ->
            Forall (fun r => r = []) (rows a)).
  { intros a Hwf Hc. eapply Forall_impl; [apply (rows_length_Forall a Hwf)|].
    simpl. intros r Hr. rewrite Hc in Hr. by destruct r. }
  exists scores, s0, a1, a2, as1, as2, u1, u2.
  destruct Hs1 as (Hs1a & Hs1b & Hs1c). destruct Hs2 as (Hs2a & Hs2b & Hs2c).
  split; [done|]. split; [done|]. split; [done|]. split; [done|].
  split; [done|]. split; [done|]. split; [done|]. split; [done|].
  split; [done|]. split; [exact Hsce|].
  split; [done|]. split; [done|].
  split; [intros i _; exact (softmax_dim1_row _ _ i Ha1)|].
  split.
  { intros k Hk. rewrite Ha2. apply softmax_dim0_t_row; [done | done | lia]. }
  split; [exact He1|]. split; [exact He2|].
  split; [intros Hz; apply Hempty; (done || lia)|].
  split; [intros Hz; apply Hempty; (done || lia)|].
  split; [done|]. split; [done|]. split; [exact Hd1|]. split; [exact Hd2|].
  intros L ei1 ei2 ew1 ew2. rewrite forward_as_blocks.
  destruct (GMNlayer.propagate L ei1 _ x1 ew1) as [m1|e]; [|reflexivity].
  destruct (GMNlayer.propagate L ei2 _ x2 ew2) as [m2|e]; [|reflexivity].
  rewrite !bind_Ok, Hatt. reflexivity.
Qed.

Lemma GMNlayer_attention_soft_correspondence_witness :
  wfT X1 = true /\ wfT X2 = true /\ ncols X1 = ncols X2
  /\ exists scores attn_1 attn_2 u1 u2,
       torch.mm X1 (torch.t X2) = Ok scores
       /\ torch.softmax scores 1 = Ok attn_1
       /\ (size0 attn_1 = 2 /\ ncols attn_1 = 1)
       /\ (size0 attn_2 = 1 /\ ncols attn_2 = 2)
       /\ row 0 attn_1 = torch.softmax_row (row 0 scores)
       /\ (size0 u1 = 2 /\ size0 u2 = 1).
Proof.
  split; [reflexivity|]. split; [reflexivity|]. split; [reflexivity|].
  destruct (GMNlayer_attention_soft_correspondence X1 X2 eq_refl eq_refl eq_refl)
    as (scores & s0 & a1 & a2 & as1 & as2 & u1 & u2 & Hsc & Ha1 & _ & _ & _ & _ & _
        & _ & _ & _ & (Hs1 & Hc1 & _) & (Hs2 & Hc2 & _) & Hr1 & _ & _ & _ & _ & _
        & (Hu1 & _) & (Hu2 & _) & _).
  exists scores, a1, a2, u1, u2. repeat split; try assumption.
  apply Hr1. unfold size0, X1. simpl. lia.
Defined.

(** C4, the claim as it was stated, at a graph 2 without nodes: the
    score matrix has the shape [1, 0], the one row of [attn_1] is empty
    and sums to 0, not to 1. *)
Lemma attention_rows_empty_graph :
  exists attn_2 u1 u2,
    torch.mm X2 (torch.t (mkTensor 1 [])) = Ok (mkTensor 0 [[]])
    /\ torch.softmax (mkTensor 0 [[]]) 1 = Ok (mkTensor 0 [[]])
    /\ GMNlayer.forward_attention X2 (mkTensor 1 [])
       = Ok (mkTensor 0 [[]], attn_2, u1, u2)
    /\ Rsum (row 0 (mkTensor 0 [[]])) = 0%R
    /\ ~ unit_rows (mkTensor 0 [[]]).
Proof.
  do 3 eexists. split; [reflexivity|]. split; [reflexivity|].
  split; [reflexivity|]. split; [reflexivity|].
  unfold unit_rows. simpl. intros H. inversion H as [|r l Hr Hl]; subst.
  simpl in Hr. lra.
Qed.

(** C5: message passing in [GMNlayer] is computed edge by edge and summed
    node by node: for every edge from [j] to [i] the message is
    [relu(fmessage(cat(x_i, x_j, edge_weight)))], made from the features
    of the two ends of that edge and its weight row (ones when there are
    no weights); [propagate] returns, at every node, the sum of the
    messages of the edges that arrive there; and [forward] gives that sum,
    next to the attention term of the node, to the GRU cell [fnode],
    which returns the new state of the node. *)
Theorem GMNlayer_message_passing (L : GMNlayer.t) (d : nat) (x1 x2 : Tensor)
    (edge_index1 edge_index2 : EdgeIndex) (edge_weight1 edge_weight2 : option Tensor) :
  GMNlayer.init_ok d d L = true ->
  valid_graph d x1 edge_index1 edge_weight1 = true ->
  valid_graph d x2 edge_index2 edge_weight2 = true ->
  exists m1 m2 attn_1 attn_2 u1 u2 h1 h2,
    GMNlayer.aggr L = "add"%string
    /\ GMNlayer.propagate L edge_index1 (Some (size0 x1, size0 x1)) x1 edge_weight1 = Ok m1
    /\ GMNlayer.propagate L edge_index2 (Some (size0 x2, size0 x2)) x2 edge_weight2 = Ok m2
    /\ GMNlayer.forward_attention x1 x2 = Ok (attn_1, attn_2, u1, u2)
    /\ GMNlayer.forward L x1 x2 edge_index1 edge_index2 edge_weight1 edge_weight2
       = Ok (h1, h2)
    /\ (size0 m1 = size0 x1 /\ size0 m2 = size0 x2)
    /\ (forall v, v < size0 x1 ->
          row v m1
          = fold_left vadd
              (map (fun p => edge_message L x1 p.1 p.2)
                 (incoming v edge_index1
                    (edge_weight_rows (length edge_index1) d edge_weight1)))
              (vzero d))
    /\ (forall v, v < size0 x2 ->
          row v m2
          = fold_left vadd
              (map (fun p => edge_message L x2 p.1 p.2)
                 (incoming v edge_index2
                    (edge_weight_rows (length edge_index2) d edge_weight2)))
              (vzero d))
    /\ (forall v, v < size0 x1 ->
          row v h1 = nn.GRU_row (GMNlayer.fnode L) (row v m1 ++ row v u1) (row v x1))
    /\ (forall v, v < size0 x2 ->
          row v h2 = nn.GRU_row (GMNlayer.fnode L) (row v m2 ++ row v u2) (row v x2)).
Proof.
  intros Hinit Hg1 Hg2.
  destruct (forward_spec L d x1 x2 _ _ _ _ Hinit Hg1 Hg2)
    as (m1 & m2 & a1 & a2 & u1 & u2 & c1 & c2 & h1 & h2 & Hm1 & Hm2 & Hatt & _
        & _ & _ & _ & Hfw & _ & _ & Hr1 & Hr2 & Hh1 & Hh2).
  destruct (init_ok_inv _ _ _ Hinit) as (Hlw & Hin & Hout & _).
  destruct (valid_graph_inv _ _ _ _ Hg1) as (_ & Hd1 & Hei1 & Hew1).
  destruct (valid_graph_inv _ _ _ _ Hg2) as (_ & Hd2 & Hei2 & Hew2).
  rewrite <- Hd1 in Hew1, Hin. rewrite <- Hd2 in Hew2.
  destruct (propagate_spec L x1 edge_index1 edge_weight1 Hei1 Hew1 Hlw Hin)
    as (m1' & Hm1' & Hm1_0 & _).
  destruct (propagate_spec L x2 edge_index2 edge_weight2 Hei2 Hew2 Hlw
              ltac:(rewrite Hd2, <- Hd1; exact Hin))
    as (m2' & Hm2' & Hm2_0 & _).
  rewrite Hm1 in Hm1'. injection Hm1' as <-.
  rewrite Hm2 in Hm2'. injection Hm2' as <-.
  assert (Haggr : GMNlayer.aggr L = "add"%string).
  { unfold GMNlayer.init_ok in Hinit. rewrite !andb_true_iff in Hinit.
    destruct Hinit as [[_ Ha] _]. by apply String.eqb_eq in Ha. }
  exists m1, m2, a1, a2, u1, u2, h1, h2.
  repeat split; try done.
  - intros v Hv. rewrite Hr1 by done. unfold aggregate. by rewrite Hout, Hd1.
  - intros v Hv. rewrite Hr2 by done. unfold aggregate. by rewrite Hout, Hd2.
  - intros v Hv. rewrite Hh1 by done. by rewrite Hr1.
  - intros v Hv. rewrite Hh2 by done. by rewrite Hr2.
Qed.

Lemma GMNlayer_message_passing_witness :
  GMNlayer.init_ok 1 1 layer0 = true
  /\ valid_graph 1 X1 [(0, 1)] None = true
  /\ valid_graph 1 X2 [] None = true
  /\ exists m1,
       GMNlayer.propagate layer0 [(0, 1)] (Some (2, 2)) X1 None = Ok m1
       /\ row 0 m1 = vzero 1
       /\ row 1 m1 = vadd (vzero 1) (edge_message layer0 X1 (0, 1) [1%R]).
Proof.
  split; [reflexivity|]. split; [reflexivity|]. split; [reflexivity|].
  destruct (GMNlayer_message_passing layer0 1 X1 X2 [(0, 1)] [] None None
              eq_refl eq_refl eq_refl)
    as (m1 & m2 & a1 & a2 & u1 & u2 & h1 & h2 & _ & Hm1 & _ & _ & _ & _ & Hr1 & _).
  exists m1. split; [exact Hm1|].
  split; [apply (Hr1 0) | apply (Hr1 1)]; unfold size0, X1; simpl; lia.
Defined.

(** C6, as amended: for one graph with valid vocabulary indices,
    [GGNN.forward] maps the node indices through the table [embed],
    applies the gated graph convolution to the embedded nodes, which runs
    the [num_layers] propagation steps it was built with, pools the node
    states it returns with the gated attention pooling, all nodes being
    in graph 0, and returns the pooled tensor alone.  For a graph with at
    least one node the pooled tensor is a single graph-level vector, of
    shape [1, embedding_dim]: the sum over the nodes of the final node
    rows, each scaled by the softmax over the nodes of its gate
    [sigmoid(mlp_gate(row))].  For a graph without nodes the pooled tensor
    has the shape [0, embedding_dim]: it holds no vector. *)
Theorem GGNN_forward_pipeline (vocablen embedding_dim num_layers : nat)
    (G : GGNN.t) (x : list nat) (edge_index : EdgeIndex)
    (edge_attr : option (list nat)) :
  GGNN.init_ok vocablen embedding_dim num_layers G = true ->
  GGNN_valid_data vocablen (x, edge_index, edge_attr) = true ->
  exists (e : Tensor) (st : nat -> Tensor) (hg : Tensor),
    (nn.Embedding_forward (GGNN.embed G) x ≫= nn.squeeze1) = Ok e
    /\ (forall i, i < length x ->
          row i e = nth (nth i x 0) (nn.table (GGNN.embed G)) [])
    /\ torch_geometric.num_layers (GGNN.ggnnlayer G) = num_layers
    /\ st 0 = e
    /\ (forall k, k < num_layers ->
          torch_geometric.GatedGraphConv_step (GGNN.ggnnlayer G) edge_index k (st k)
          = Ok (st (S k)))
    /\ torch_geometric.GatedGraphConv_forward (GGNN.ggnnlayer G) e edge_index
       = Ok (st num_layers)
    /\ size0 (st num_layers) = length x
    /\ GGNN.pool G (st num_layers) (replicate (size0 (st num_layers)) 0) = Ok hg
    /\ GGNN.forward G (x, edge_index, edge_attr) = Ok hg
    /\ (ncols hg = embedding_dim /\ wfT hg = true)
    /\ (0 < length x ->
          size0 hg = 1
          /\ exists gate,
               nn.Sequential_Linear_Sigmoid (GGNN.mlp_gate G) (st num_layers) = Ok gate
               /\ row 0 hg
                  = fold_left vadd
                      (zip_with vscale
                         (torch_geometric.softmax (col 0 gate) (replicate (length x) 0))
                         (rows (st num_layers)))
                      (vzero embedding_dim))
    /\ (length x = 0 -> size0 hg = 0).
Proof.
  intros Hinit Hv.
  destruct (GGNN_forward_spec _ _ _ _ _ _ _ Hinit Hv)
    as (e & st & hg & He & Hrow & H0 & Hstep & Hrun & Hpool & Hfw & Hy0 & Hh0 & Hh1
        & Hhwf).
  destruct (GGNN_init_ok_inv _ _ _ _ Hinit) as (_ & _ & _ & _ & _ & _ & Hn & _).
  exists e, st, hg.
  split; [done|]. split; [done|]. split; [done|]. split; [done|].
  split; [done|]. split; [done|]. split; [done|]. split; [done|].
  split; [done|]. split; [done|].
  split.
  - intros Hpos. split.
    + rewrite Hh0. destruct (length x); [lia | reflexivity].
    + destruct (pool_zeros_row _ _ hg Hpool ltac:(lia))
        as (g & Hg & _ & _ & Hcy & Hr).
      exists g. split; [exact Hg|]. by rewrite Hr, Hy0, <- Hcy, Hh1.
  - intros Hz. by rewrite Hh0, Hz.
Qed.

Lemma GGNN_forward_pipeline_witness :
  GGNN.init_ok 2 1 2 ggnn0 = true
  /\ GGNN_valid_data 2 gdata0 = true
  /\ exists hg, GGNN.forward ggnn0 gdata0 = Ok hg /\ size0 hg = 1 /\ ncols hg = 1.
Proof.
  split; [reflexivity|]. split; [reflexivity|].
  destruct (GGNN_forward_pipeline 2 1 2 ggnn0 [0; 1] [(0, 1)] (Some [3])
              eq_refl eq_refl)
    as (e & st & hg & _ & _ & _ & _ & _ & _ & _ & _ & Hfw & (Hc & _) & Hs & _).
  exists hg. unfold gdata0. split; [exact Hfw|]. split; [|exact Hc].
  apply Hs. simpl. lia.
Defined.

(** C6, the claim as it was stated, at a graph without nodes: the input
    is valid and [forward] returns a tensor with no row, which holds no
    graph-level vector. *)
Lemma GGNN_forward_empty_graph :
  GGNN.init_ok 2 1 2 ggnn0 = true
  /\ GGNN_valid_data 2 ([], [], None) = true
  /\ exists hg,
       GGNN.forward ggnn0 ([], [], None) = Ok hg
       /\ size0 hg = 0 /\ rows hg = [] /\ size0 hg <> 1.
Proof.
  split; [reflexivity|]. split; [reflexivity|].
  destruct (GGNN_forward_spec 2 1 2 ggnn0 [] [] None eq_refl eq_refl)
    as (e & st & hg & _ & _ & _ & _ & _ & _ & Hfw & _ & H0 & _).
  exists hg. simpl in H0. split; [exact Hfw|]. split; [exact H0|].
  split; [|by rewrite H0].
  unfold size0 in H0. by destruct (rows hg).
Qed.

(** C7: the result of [GGNN.forward] does not depend on the edge
    attributes: two inputs that differ only there, each being [None] or
    holding indices below 20 only, give the same result, the edge weights
    computed from them being passed neither to the gated graph
    convolution nor to the pooling. *)
Theorem GGNN_forward_ignores_edge_attr (vocablen embedding_dim num_layers : nat)
    (G : GGNN.t) (x : list nat) (edge_index : EdgeIndex)
    (edge_attr edge_attr' : option (list nat)) :
  GGNN.init_ok vocablen embedding_dim num_layers G = true ->
  valid_edge_attr edge_attr = true ->
  valid_edge_attr edge_attr' = true ->
  GGNN.forward G (x, edge_index, edge_attr)
  = GGNN.forward G (x, edge_index, edge_attr').
Proof.
  intros Hinit Ha Ha'.
  destruct (GGNN_init_ok_inv _ _ _ _ Hinit) as (_ & _ & _ & H20 & _).
  rewrite (GGNN_forward_drops_edge_attr G x edge_index edge_attr H20 Ha).
  by rewrite (GGNN_forward_drops_edge_attr G x edge_index edge_attr' H20 Ha').
Qed.

Lemma GGNN_forward_ignores_edge_attr_witness :
  GGNN.init_ok 2 1 2 ggnn0 = true
  /\ valid_edge_attr (Some [3]) = true
  /\ valid_edge_attr None = true
  /\ GGNN.forward ggnn0 ([0; 1], [(0, 1)], Some [3])
     = GGNN.forward ggnn0 ([0; 1], [(0, 1)], None).
Proof.
  split; [reflexivity|]. split; [reflexivity|]. split; [reflexivity|].
  exact (GGNN_forward_ignores_edge_attr 2 1 2 ggnn0 [0; 1] [(0, 1)] (Some [3]) None
           eq_refl eq_refl eq_refl).
Defined.

(** An index outside the edge table makes [GGNN.forward] raise, although
    the weights looked up are never used. *)
Example GGNN_forward_bad_edge_attr :
  GGNN.forward ggnn0 ([0; 1], [(0, 1)], Some [20]) = Raise IndexError.
Proof. reflexivity. Qed.

(** C8, as amended: for a pair of graphs that both have at least one
    node, [GMNnet.forward] goes from the index tensors to the embedding
    lookup, then to the [num_layers] rounds of message passing and
    update, then to the pooling, whose batch vector puts every node in the
    single graph 0, and the results [hg1] and [hg2] have the shape
    [1, embedding_dim] whatever the numbers of nodes [N1 >= 1] and
    [N2 >= 1]; for a graph without nodes the pooled tensor has no row. *)
Theorem GMNnet_forward_fixed_size (vocablen embedding_dim num_layers : nat)
    (N : GMNnet.t) (x1 x2 : list nat) (edge_index1 edge_index2 : EdgeIndex)
    (edge_attr1 edge_attr2 : option (list nat)) :
  GMNnet.init_ok vocablen embedding_dim num_layers N = true ->
  valid_data vocablen (x1, x2, edge_index1, edge_index2, edge_attr1, edge_attr2) = true ->
  exists (e1 e2 : Tensor) (edge_weight1 edge_weight2 : option Tensor)
         (y1 y2 hg1 hg2 : Tensor),
    (nn.Embedding_forward (GMNnet.embed N) x1 ≫= nn.squeeze1) = Ok e1
    /\ (nn.Embedding_forward (GMNnet.embed N) x2 ≫= nn.squeeze1) = Ok e2
    /\ GMNnet.edge_weights N edge_attr1 edge_attr2 = Ok (edge_weight1, edge_weight2)
    /\ for_range num_layers
         (fun _ '(x1, x2) =>
            GMNlayer.forward (GMNnet.gmnlayer N) x1 x2 edge_index1 edge_index2
                             edge_weight1 edge_weight2)
         (e1, e2)
       = Ok (y1, y2)
    /\ (size0 y1 = length x1 /\ size0 y2 = length x2)
    /\ GMNnet.pool N y1 (replicate (size0 y1) 0) = Ok hg1
    /\ GMNnet.pool N y2 (replicate (size0 y2) 0) = Ok hg2
    /\ GMNnet.forward N (x1, x2, edge_index1, edge_index2, edge_attr1, edge_attr2)
       = Ok (hg1, hg2)
    /\ (ncols hg1 = embedding_dim /\ wfT hg1 = true)
    /\ (ncols hg2 = embedding_dim /\ wfT hg2 = true)
    /\ (0 < length x1 -> size0 hg1 = 1)
    /\ (0 < length x2 -> size0 hg2 = 1)
    /\ (length x1 = 0 -> size0 hg1 = 0)
    /\ (length x2 = 0 -> size0 hg2 = 0).
Proof.
  intros Hinit Hv.
  destruct (GMNnet_forward_spec _ _ _ _ _ _ _ _ _ _ Hinit Hv)
    as (e1 & e2 & ew1 & ew2 & st & hg1 & hg2 & He1 & He2 & Hew & H0 & Hstep & Hshape
        & Hp1 & Hp2 & Hfw & (Hh1_0 & Hh1_1 & Hh1wf) & (Hh2_0 & Hh2_1 & Hh2wf)).
  destruct (Hshape num_layers (le_n _)) as (_ & _ & Hy1 & Hy2).
  exists e1, e2, ew1, ew2, (st num_layers).1, (st num_layers).2, hg1, hg2.
  split; [done|]. split; [done|]. split; [done|].
  split.
  { unfold for_range. rewrite <- H0.
    rewrite (for_each_steps _ st 0 num_layers).
    - simpl. by destruct (st num_layers).
    - intros k Hk. specialize (Hstep k ltac:(lia)).
      by destruct (st k). }
  repeat split; try done.
  - intros Hpos. rewrite Hh1_0. destruct (length x1); [lia | reflexivity].
  - intros Hpos. rewrite Hh2_0. destruct (length x2); [lia | reflexivity].
  - intros Hz. by rewrite Hh1_0, Hz.
  - intros Hz. by rewrite Hh2_0, Hz.
Qed.

Lemma GMNnet_forward_fixed_size_witness :
  GMNnet.init_ok 2 1 2 net0 = true
  /\ valid_data 2 data0 = true
  /\ exists hg1 hg2,
       GMNnet.forward net0 data0 = Ok (hg1, hg2)
       /\ (size0 hg1 = 1 /\ ncols hg1 = 1 /\ wfT hg1 = true)
       /\ (size0 hg2 = 1 /\ ncols hg2 = 1 /\ wfT hg2 = true).
Proof.
  split; [reflexivity|]. split; [reflexivity|].
  destruct (GMNnet_forward_fixed_size 2 1 2 net0 [0; 1] [1] [(0, 1)] [] (Some [3])
              (Some []) eq_refl eq_refl)
    as (e1 & e2 & ew1 & ew2 & y1 & y2 & hg1 & hg2 & _ & _ & _ & _ & _ & _ & _
        & Hfw & (Hc1 & Hw1) & (Hc2 & Hw2) & Hs1 & Hs2 & _).
  exists hg1, hg2. split; [exact Hfw|].
  split; (split; [|split; assumption]).
  - apply Hs1. simpl. lia.
  - apply Hs2. simpl. lia.
Defined.

(** C8, the claim as it was stated, at a graph 1 without nodes: the
    pooled tensor [hg1] has the shape [0, 1], not [1, 1]. *)
Lemma GMNnet_forward_empty_graph :
  exists hg1 hg2,
    GMNnet.forward net0 data_empty = Ok (hg1, hg2)
    /\ size0 hg1 = 0 /\ ncols hg1 = 1 /\ size0 hg1 <> 1.
Proof.
  destruct (GMNnet_forward_spec 2 1 2 net0 [] [1] [] [] None None eq_refl eq_refl)
    as (e1 & e2 & ew1 & ew2 & st & hg1 & hg2 & _ & _ & _ & _ & _ & _ & _ & _
        & Hfw & (H0 & H1 & _) & _).
  exists hg1, hg2. simpl in H0. rewrite H0. repeat split; done.
Qed.

(** C9: [GMNlayer.message] called with [edge_weight = None] returns what
    it returns for the all-ones tensor of shape [E, in_channels], the
    shape of [x_i]; both branches of its test evaluate the same
    expression, on the ones in one and on the given weights in the other;
    and so [GMNlayer.forward] without edge weights returns what it
    returns with all-ones edge weights, one row per edge and as wide as
    the node features. *)
Theorem GMNlayer_message_None_is_ones :
  (forall (L : GMNlayer.t) (x_i x_j : Tensor) (edge_index : EdgeIndex)
          (size : option nat * option nat),
      GMNlayer.message L x_i x_j edge_index size None
      = GMNlayer.message L x_i x_j edge_index size
          (Some (torch.ones (size0 x_i) (size1 x_i))))
  /\ (forall (L : GMNlayer.t) (x_i x_j : Tensor) (edge_index : EdgeIndex)
             (size : option nat * option nat),
        GMNlayer.message L x_i x_j edge_index size None
        = message_body L x_i x_j (torch.ones (size0 x_i) (size1 x_i)))
  /\ (forall (L : GMNlayer.t) (x_i x_j : Tensor) (edge_index : EdgeIndex)
             (size : option nat * option nat) (edge_weight : Tensor),
        GMNlayer.message L x_i x_j edge_index size (Some edge_weight)
        = message_body L x_i x_j edge_weight)
  /\ (forall (L : GMNlayer.t) (x1 x2 : Tensor) (edge_index1 edge_index2 : EdgeIndex),
        GMNlayer.forward L x1 x2 edge_index1 edge_index2 None None
        = GMNlayer.forward L x1 x2 edge_index1 edge_index2
            (Some (torch.ones (length edge_index1) (ncols x1)))
            (Some (torch.ones (length edge_index2) (ncols x2)))).
Proof.
  split; [reflexivity|]. split; [reflexivity|]. split; [reflexivity|].
  intros L x1 x2 ei1 ei2. unfold GMNlayer.forward.
  by rewrite (propagate_None_ones L ei1 _ x1), (propagate_None_ones L ei2 _ x2).
Qed.

(** * Further properties of the code *)

(** ** Equality of tensors *)

(** Two tensors of one shape with the same rows are the same tensor. *)
Lemma tensor_eq (a b : Tensor) :
  size0 a = size0 b -> ncols a = ncols b ->
  (forall i, i < size0 a -> row i a = row i b) -> a = b.
Proof.
  destruct a as [ca ra], b as [cb rb]. unfold size0, row. simpl.
  intros H0 -> Hrow. f_equal. by apply nth_ext with (d := []) (d' := []).
Qed.

(** ** Messages are non-negative, and only arrive along edges *)

Lemma vadd_nonneg (u v : list R) :
  Forall (fun y => (0 <= y)%R) u -> Forall (fun y => (0 <= y)%R) v ->
  Forall (fun y => (0 <= y)%R) (vadd u v).
Proof.
  unfold vadd. intros Hu. revert v. induction Hu as [|a u Ha Hu IH]; intros v Hv;
    simpl; [constructor|].
  destruct Hv as [|b v Hb Hv]; simpl; constructor; [lra | by apply IH].
Qed.

Lemma fold_vadd_nonneg (l : list (list R)) (z : list R) :
  Forall (fun y => (0 <= y)%R) z ->
  Forall (fun r => Forall (fun y => (0 <= y)%R) r) l ->
  Forall (fun y => (0 <= y)%R) (fold_left vadd l z).
Proof.
  revert z. induction l as [|r l IH]; intros z Hz Hl; simpl; [done|].
  inversion Hl; subst. apply IH; [by apply vadd_nonneg | done].
Qed.

Lemma edge_message_nonneg (L : GMNlayer.t) (x : Tensor) (ji : nat * nat) (w : list R) :
  Forall (fun y => (0 <= y)%R) (edge_message L x ji w).
Proof.
  unfold edge_message. apply List.Forall_forall. intros y Hy.
  apply in_map_iff in Hy as (z & <- & _). apply Rmax_l.
Qed.

Lemma aggregate_nonneg (L : GMNlayer.t) (x : Tensor) (ei : EdgeIndex)
    (ew : option Tensor) (v : nat) :
  Forall (fun y => (0 <= y)%R) (aggregate L x ei ew v).
Proof.
  unfold aggregate. apply fold_vadd_nonneg.
  - unfold vzero. apply Forall_replicate. lra.
  - apply List.Forall_forall. intros r Hr.
    apply in_map_iff in Hr as (p & <- & _). apply edge_message_nonneg.
Qed.

(** X2: what [propagate] hands to the node update is non-negative in
    every entry: every message is the output of a [relu], and the
    messages are added up from zero. *)
Theorem GMNlayer_propagate_nonneg (L : GMNlayer.t) (d : nat) (x : Tensor)
    (edge_index : EdgeIndex) (edge_weight : option Tensor) :
  GMNlayer.init_ok d d L = true ->
  valid_graph d x edge_index edge_weight = true ->
  exists m,
    GMNlayer.propagate L edge_index (Some (size0 x, size0 x)) x edge_weight = Ok m
    /\ nonneg_rows m.
Proof.
  intros Hinit Hg.
  destruct (init_ok_inv _ _ _ Hinit) as (Hlw & Hin & _).
  destruct (valid_graph_inv _ _ _ _ Hg) as (_ & Hd & Hei & Hew).
  rewrite <- Hd in Hin, Hew.
  destruct (propagate_spec L x edge_index edge_weight Hei Hew Hlw Hin)
    as (m & Hm & H0 & _ & _ & Hrow).
  exists m. split; [exact Hm|].
  unfold nonneg_rows. apply List.Forall_forall. intros r Hr.
  destruct (In_nth _ _ [] Hr) as (v & Hv & <-).
  fold (row v m). rewrite Hrow by (unfold size0 in *; lia).
  apply aggregate_nonneg.
Qed.

Lemma GMNlayer_propagate_nonneg_witness :
  exists m,
    GMNlayer.propagate layer0 [(0, 1)] (Some (2, 2)) X1 None = Ok m
    /\ nonneg_rows m.
Proof.
  exact (GMNlayer_propagate_nonneg layer0 1 X1 [(0, 1)] None eq_refl eq_refl).
Defined.

Lemma filter_none {A : Type} (f : A -> bool) (l : list A) :
  (forall a, In a l -> f a = false) -> List.filter f l = [].
Proof.
  induction l as [|a l IH]; intros H; simpl; [reflexivity|].
  rewrite (H a) by (by left). apply IH. intros b Hb. apply H. by right.
Qed.

(** X3: a node at which no edge arrives receives the zero message; in a
    graph without edges every node does, so that [propagate] returns the
    zero tensor of shape [N, d]. *)
Theorem GMNlayer_propagate_no_incoming_edge (L : GMNlayer.t) (d : nat) (x : Tensor)
    (edge_index : EdgeIndex) (edge_weight : option Tensor) :
  GMNlayer.init_ok d d L = true ->
  valid_graph d x edge_index edge_weight = true ->
  exists m,
    GMNlayer.propagate L edge_index (Some (size0 x, size0 x)) x edge_weight = Ok m
    /\ (forall v, v < size0 x ->
          (forall e, In e edge_index -> e.2 <> v) -> row v m = vzero d)
    /\ (edge_index = [] -> m = torch.zeros (size0 x) d).
Proof.
  intros Hinit Hg.
  destruct (init_ok_inv _ _ _ Hinit) as (Hlw & Hin & Hout & _).
  destruct (valid_graph_inv _ _ _ _ Hg) as (_ & Hd & Hei & Hew).
  rewrite <- Hd in Hin, Hew.
  destruct (propagate_spec L x edge_index edge_weight Hei Hew Hlw Hin)
    as (m & Hm & H0 & H1 & _ & Hrow).
  assert (Hzero : forall v, v < size0 x ->
            (forall e, In e edge_index -> e.2 <> v) -> row v m = vzero d).
  { intros v Hv Hno. rewrite Hrow by done. unfold aggregate, incoming.
    rewrite Hout.
    rewrite filter_none; [reflexivity|].
    intros [e w] Hp. apply in_combine_l in Hp. simpl.
    apply Nat.eqb_neq. by apply Hno. }
  exists m. split; [exact Hm|]. split; [exact Hzero|].
  intros ->. apply tensor_eq.
  - unfold torch.zeros, size0 at 2. simpl. by rewrite length_replicate.
  - simpl. lia.
  - intros v Hv. rewrite Hzero; [| lia | by intros e []].
    unfold row, torch.zeros. simpl. rewrite nth_replicate_lt by lia. reflexivity.
Qed.

Lemma GMNlayer_propagate_no_incoming_edge_witness :
  exists m,
    GMNlayer.propagate layer0 [(0, 1)] (Some (2, 2)) X1 None = Ok m
    /\ row 0 m = vzero 1.
Proof.
  destruct (GMNlayer_propagate_no_incoming_edge layer0 1 X1 [(0, 1)] None
              eq_refl eq_refl) as (m & Hm & Hzero & _).
  exists m. split; [exact Hm|]. apply Hzero.
  - unfold size0, X1. simpl. lia.
  - intros e [<-|[]]. simpl. lia.
Defined.

(** ** The inputs on which [GMNlayer.forward] returns *)

Lemma valid_edges_split (n : nat) (ei : EdgeIndex) :
  valid_edges n ei
  = forallb (fun i => i <? n) (map snd ei) && forallb (fun i => i <? n) (map fst ei).
Proof.
  unfold valid_edges. induction ei as [|[j i] ei IH]; simpl; [reflexivity|].
  rewrite IH. destruct (j <? n), (i <? n); simpl; rewrite ?andb_false_r; reflexivity.
Qed.

Lemma index_select_inv (a b : Tensor) (idx : list nat) :
  torch.index_select a idx = Ok b ->
  forallb (fun i => i <? size0 a) idx = true
  /\ b = mkTensor (ncols a) (map (fun i => row i a) idx).
Proof.
  unfold torch.index_select. destruct (forallb _ idx); [|done].
  by intros [= <-].
Qed.

Lemma mm_inv (a b c : Tensor) :
  torch.mm a b = Ok c -> ncols a = size0 b.
Proof.
  unfold torch.mm. destruct (ncols a =? size0 b) eqn:E; [|done].
  intros _. by apply Nat.eqb_eq.
Qed.

Lemma Linear_forward_inv (L : nn.Linear) (x y : Tensor) :
  nn.Linear_forward L x = Ok y ->
  ncols x = nn.in_features L /\ ncols y = nn.out_features L /\ size0 y = size0 x.
Proof.
  unfold nn.Linear_forward. destruct (ncols x =? nn.in_features L) eqn:E; [|done].
  intros [= <-]. apply Nat.eqb_eq in E. unfold size0. simpl.
  by rewrite length_map.
Qed.

Lemma GRUCell_forward_inv (G : nn.GRUCell) (x h y : Tensor) :
  nn.GRUCell_forward G x h = Ok y ->
  ncols x = nn.input_size G /\ ncols h = nn.hidden_size G /\ size0 x = size0 h.
Proof.
  unfold nn.GRUCell_forward.
  destruct ((ncols x =? nn.input_size G) && (ncols h =? nn.hidden_size G)
            && (size0 x =? size0 h)) eqn:E; [|done].
  intros _. rewrite !andb_true_iff, !Nat.eqb_eq in E. tauto.
Qed.

Lemma cat1_two_inv (a b c : Tensor) :
  torch.cat1 [a; b] = Ok c ->
  size0 a = size0 b /\ ncols c = ncols a + ncols b /\ size0 c = size0 a.
Proof.
  simpl. destruct (size0 a =? size0 b) eqn:E; [|done].
  intros [= <-]. apply Nat.eqb_eq in E. unfold size0 in *. simpl.
  rewrite length_zip_with. lia.
Qed.

Lemma cat1_three_inv (a b c r : Tensor) :
  torch.cat1 [a; b; c] = Ok r ->
  size0 b = size0 c /\ size0 a = size0 b
  /\ ncols r = ncols a + (ncols b + ncols c).
Proof.
  intros H. change (torch.cat1 [a; b; c])
    with (torch.cat1 [b; c] ≫= fun r =>
            if size0 a =? size0 r
            then Ok (mkTensor (ncols a + ncols r) (zip_with app (rows a) (rows r)))
            else Raise RuntimeError) in H.
  apply bind_inv in H as (bc & Hbc & H).
  apply cat1_two_inv in Hbc as (Hb & Hc & Hs).
  destruct (size0 a =? size0 bc) eqn:E; [|done].
  injection H as <-. apply Nat.eqb_eq in E. simpl. lia.
Qed.

Lemma message_inv (L : GMNlayer.t) (x_i x_j m : Tensor) (ei : EdgeIndex)
    (size : option nat * option nat) (ew : option Tensor) :
  GMNlayer.message L x_i x_j ei size ew = Ok m ->
  match ew with
  | None => True
  | Some w => size0 w = size0 x_j
  end
  /\ ncols x_i + (ncols x_j + weight_cols (ncols x_i) ew)
     = nn.in_features (GMNlayer.fmessage L)
  /\ ncols m = nn.out_features (GMNlayer.fmessage L)
  /\ size0 m = size0 x_i.
Proof.
  assert (Hbody : forall w, message_body L x_i x_j w = Ok m ->
            size0 w = size0 x_j
            /\ ncols x_i + (ncols x_j + ncols w) = nn.in_features (GMNlayer.fmessage L)
            /\ ncols m = nn.out_features (GMNlayer.fmessage L)
            /\ size0 m = size0 x_i).
  { intros w H. unfold message_body in H.
    apply bind_inv in H as (c & Hc & H). apply bind_inv in H as (y & Hy & H).
    injection H as <-.
    assert (Hc0 : size0 c = size0 x_i).
    { change (torch.cat1 [x_i; x_j; w])
        with (torch.cat1 [x_j; w] ≫= fun r =>
                if size0 x_i =? size0 r
                then Ok (mkTensor (ncols x_i + ncols r)
                           (zip_with app (rows x_i) (rows r)))
                else Raise RuntimeError) in Hc.
      apply bind_inv in Hc as (bc & Hbc & Hc).
      destruct (size0 x_i =? size0 bc) eqn:E; [|done].
      injection Hc as <-. apply Nat.eqb_eq in E. unfold size0 in *. simpl.
      rewrite length_zip_with. lia. }
    apply cat1_three_inv in Hc as (Hb & Ha & Hcols).
    apply Linear_forward_inv in Hy as (Hin & Hout & Hy0).
    unfold torch.relu, size0 in *. simpl. rewrite length_map. lia. }
  intros H. destruct ew as [w|].
  - apply (Hbody w) in H. simpl. tauto.
  - apply (Hbody (torch.ones (size0 x_i) (size1 x_i))) in H. simpl in *. tauto.
Qed.

(** [propagate] as [forward] calls it, step by step. *)
Lemma propagate_unfold (L : GMNlayer.t) (ei : EdgeIndex) (x : Tensor)
    (ew : option Tensor) :
  GMNlayer.propagate L ei (Some (size0 x, size0 x)) x ew
  = (x_i ← torch.index_select x (map snd ei);
     x_j ← torch.index_select x (map fst ei);
     out ← GMNlayer.message L x_i x_j ei (Some (size0 x), Some (size0 x)) ew;
     torch.scatter_add out (map snd ei) (size0 x)).
Proof.
  unfold GMNlayer.propagate, torch_geometric.propagate,
    torch_geometric.set_size, torch_geometric.lift. simpl.
  rewrite Nat.eqb_refl, bind_Ok.
  destruct (torch.index_select x (map snd ei)) as [x_i|e]; [|reflexivity].
  rewrite !bind_Ok. simpl. rewrite Nat.eqb_refl, bind_Ok.
  destruct (torch.index_select x (map fst ei)) as [x_j|e]; [|reflexivity].
  rewrite !bind_Ok.
  destruct (GMNlayer.message L x_i x_j ei _ ew) as [out|e]; [|reflexivity].
  rewrite !bind_Ok. simpl.
  destruct (torch.scatter_add out (map snd ei) (size0 x)); reflexivity.
Qed.

Lemma scatter_add_inv (src out : Tensor) (idx : list nat) (n : nat) :
  torch.scatter_add src idx n = Ok out -> size0 out = n /\ ncols out = ncols src.
Proof.
  unfold torch.scatter_add. destruct (negb _); [done|].
  destruct (forallb _ idx); [|done]. intros [= <-]. unfold size0. simpl.
  by rewrite scatter_fold_length, length_replicate.
Qed.

Lemma propagate_inv (L : GMNlayer.t) (ei : EdgeIndex) (x m : Tensor)
    (ew : option Tensor) :
  GMNlayer.propagate L ei (Some (size0 x, size0 x)) x ew = Ok m ->
  valid_edges (size0 x) ei = true
  /\ match ew with
     | None => True
     | Some w => size0 w = length ei
     end
  /\ ncols x + (ncols x + weight_cols (ncols x) ew)
     = nn.in_features (GMNlayer.fmessage L)
  /\ ncols m = nn.out_features (GMNlayer.fmessage L)
  /\ size0 m = size0 x.
Proof.
  rewrite propagate_unfold. intros H.
  apply bind_inv in H as (x_i & Hi & H). apply bind_inv in H as (x_j & Hj & H).
  apply bind_inv in H as (out & Hmsg & H).
  apply index_select_inv in Hi as (Hi & ->).
  apply index_select_inv in Hj as (Hj & ->).
  apply message_inv in Hmsg as (Hw & Hin & Hout & _).
  apply scatter_add_inv in H as (H0 & H1).
  simpl in Hin.
  rewrite valid_edges_split, Hi, Hj. repeat split; try done.
  - destruct ew as [w|]; [|done]. rewrite Hw. unfold size0. simpl.
    by rewrite !length_map.
  - lia.
Qed.

(** The first call of [propagate] raises [IndexError] on an edge that
    leaves the graph. *)
Lemma propagate_bad_edge (L : GMNlayer.t) (ei : EdgeIndex) (x : Tensor)
    (ew : option Tensor) :
  valid_edges (size0 x) ei = false ->
  GMNlayer.propagate L ei (Some (size0 x, size0 x)) x ew = Raise IndexError.
Proof.
  rewrite propagate_unfold, valid_edges_split. intros H.
  unfold torch.index_select.
  destruct (forallb (fun i => i <? size0 x) (map snd ei)) eqn:Et; [|reflexivity].
  simpl in H. by rewrite bind_Ok, H.
Qed.

(** What the shapes must be for [forward] to return. *)
Lemma forward_Ok_inv (L : GMNlayer.t) (d : nat) (x1 x2 h1 h2 : Tensor)
    (ei1 ei2 : EdgeIndex) (ew1 ew2 : option Tensor) :
  GMNlayer.init_ok d d L = true ->
  GMNlayer.forward L x1 x2 ei1 ei2 ew1 ew2 = Ok (h1, h2) ->
  (ncols x1 = d /\ valid_edges (size0 x1) ei1 = true
   /\ match ew1 with
      | None => True
      | Some w => size0 w = length ei1 /\ ncols w = d
      end)
  /\ (ncols x2 = d /\ valid_edges (size0 x2) ei2 = true
      /\ match ew2 with
         | None => True
         | Some w => size0 w = length ei2 /\ ncols w = d
         end).
Proof.
  intros Hinit H.
  destruct (init_ok_inv _ _ _ Hinit) as (_ & Hin & Hout & _ & Hgi & Hgh).
  rewrite forward_as_blocks in H.
  apply bind_inv in H as (m1 & Hm1 & H). apply bind_inv in H as (m2 & Hm2 & H).
  apply bind_inv in H as ([[[a1 a2] u1] u2] & Hatt & H).
  apply bind_inv in H as (c1 & Hc1 & H). apply bind_inv in H as (g1 & Hg1 & H).
  apply bind_inv in H as (c2 & Hc2 & H). apply bind_inv in H as (g2 & Hg2 & H).
  apply propagate_inv in Hm1 as (Hei1 & Hw1 & Hin1 & _).
  apply propagate_inv in Hm2 as (Hei2 & Hw2 & Hin2 & _).
  apply GRUCell_forward_inv in Hg1 as (_ & Hx1 & _).
  apply GRUCell_forward_inv in Hg2 as (_ & Hx2 & _).
  split; (split; [lia|]); (split; [done|]).
  - destruct ew1 as [w|]; [|done]. simpl in Hin1. split; [done | lia].
  - destruct ew2 as [w|]; [|done]. simpl in Hin2. split; [done | lia].
Qed.

(** X4: for a layer built with [in_channels = out_channels = d], and
    tensors whose rows have their width, [GMNlayer.forward] returns
    exactly when both graphs have node features of width [d], edges that
    stay inside the graph, and edge weights that are absent or of shape
    [E, d]; on every other input it raises. *)
Theorem GMNlayer_forward_domain (L : GMNlayer.t) (d : nat) (x1 x2 : Tensor)
    (edge_index1 edge_index2 : EdgeIndex) (edge_weight1 edge_weight2 : option Tensor) :
  GMNlayer.init_ok d d L = true ->
  wfT x1 = true -> wfT x2 = true ->
  wf_weight edge_weight1 = true -> wf_weight edge_weight2 = true ->
  is_Ok (GMNlayer.forward L x1 x2 edge_index1 edge_index2 edge_weight1 edge_weight2)
  = valid_graph d x1 edge_index1 edge_weight1
    && valid_graph d x2 edge_index2 edge_weight2.
Proof.
  intros Hinit Hx1 Hx2 Hw1 Hw2.
  destruct (valid_graph d x1 edge_index1 edge_weight1
            && valid_graph d x2 edge_index2 edge_weight2) eqn:E.
  - apply andb_true_iff in E as [Hg1 Hg2].
    destruct (forward_spec L d x1 x2 _ _ _ _ Hinit Hg1 Hg2)
      as (m1 & m2 & a1 & a2 & u1 & u2 & c1 & c2 & h1 & h2 & _ & _ & _ & _ & _ & _ & _
          & Hfw & _).
    by rewrite Hfw.
  - destruct (GMNlayer.forward L x1 x2 edge_index1 edge_index2 edge_weight1
                edge_weight2) as [[h1 h2]|e] eqn:Hfw; [|reflexivity].
    exfalso.
    destruct (forward_Ok_inv L d _ _ _ _ _ _ _ _ Hinit Hfw)
      as ((Hd1 & Hei1 & Hs1) & (Hd2 & Hei2 & Hs2)).
    assert (Hv : forall (ei : EdgeIndex) ew, wf_weight ew = true ->
              match ew with
              | None => True
              | Some w => size0 w = length ei /\ ncols w = d
              end -> valid_weight (length ei) d ew = true).
    { intros ei [w|] Hwf Hs; [|reflexivity]. simpl in *. destruct Hs as [-> ->].
      by rewrite Hwf, !Nat.eqb_refl. }
    rewrite (valid_graph_intro d x1 edge_index1 edge_weight1) in E by auto.
    rewrite (valid_graph_intro d x2 edge_index2 edge_weight2) in E by auto.
    discriminate.
Qed.

Lemma GMNlayer_forward_domain_witness :
  is_Ok (GMNlayer.forward layer0 X1 X2 [(0, 1)] [] None None) = true
  /\ is_Ok (GMNlayer.forward layer0 X1 X2 [(0, 2)] [] None None) = false
  /\ is_Ok (GMNlayer.forward layer0 X1 (mkTensor 2 [[1%R; 1%R]]) [(0, 1)] [] None None)
     = false.
Proof.
  split; [|split];
    rewrite (GMNlayer_forward_domain layer0 1) by reflexivity; reflexivity.
Defined.

(** X5: an edge of graph 1 that names a node outside the graph makes
    [GMNlayer.forward] raise [IndexError], whatever the layer and the rest
    of the input; so does such an edge of graph 2 once the message passing
    on graph 1 has gone through. *)
Theorem GMNlayer_forward_edge_out_of_range (L : GMNlayer.t) (d : nat) (x1 x2 : Tensor)
    (edge_index1 edge_index2 : EdgeIndex) (edge_weight1 edge_weight2 : option Tensor) :
  valid_edges (size0 x1) edge_index1 = false
  \/ (GMNlayer.init_ok d d L = true
      /\ valid_graph d x1 edge_index1 edge_weight1 = true
      /\ valid_edges (size0 x2) edge_index2 = false) ->
  GMNlayer.forward L x1 x2 edge_index1 edge_index2 edge_weight1 edge_weight2
  = Raise IndexError.
Proof.
  intros [H|(Hinit & Hg1 & H)].
  - unfold GMNlayer.forward. by rewrite (propagate_bad_edge L _ x1 _ H).
  - destruct (init_ok_inv _ _ _ Hinit) as (Hlw & Hin & _).
    destruct (valid_graph_inv _ _ _ _ Hg1) as (_ & Hd & Hei & Hew).
    rewrite <- Hd in Hin, Hew.
    destruct (propagate_spec L x1 edge_index1 edge_weight1 Hei Hew Hlw Hin)
      as (m & Hm & _).
    unfold GMNlayer.forward. rewrite Hm, bind_Ok.
    by rewrite (propagate_bad_edge L _ x2 _ H).
Qed.

Lemma GMNlayer_forward_edge_out_of_range_witness :
  GMNlayer.forward layer0 X1 X2 [(0, 2)] [] None None = Raise IndexError
  /\ GMNlayer.forward layer0 X1 X2 [(0, 1)] [(1, 0)] None None = Raise IndexError.
Proof.
  split.
  - apply (GMNlayer_forward_edge_out_of_range layer0 1). left. reflexivity.
  - apply (GMNlayer_forward_edge_out_of_range layer0 1). right.
    repeat split; reflexivity.
Defined.

(** ** Swapping the two graphs *)

Lemma dot_comm (u v : list R) : dot u v = dot v u.
Proof.
  unfold dot. revert v. induction u as [|a u IH]; intros [|b v]; simpl; auto.
  rewrite IH. lra.
Qed.

(** Two tensors of one shape with the same entries are the same tensor. *)
Lemma tensor_eq_entries (a b : Tensor) :
  wfT a = true -> wfT b = true ->
  size0 a = size0 b -> ncols a = ncols b ->
  (forall i j, i < size0 a -> j < ncols a -> entry i j a = entry i j b) ->
  a = b.
Proof.
  intros Ha Hb H0 H1 He. apply tensor_eq; [done | done |].
  intros i Hi. apply nth_ext with (d := 0%R) (d' := 0%R).
  - rewrite (wfT_row a i), (wfT_row b i) by (done || lia). exact H1.
  - intros j Hj. rewrite (wfT_row a i) in Hj by done. by apply He.
Qed.

(** The attention block with the graphs swapped returns the same four
    tensors, swapped. *)
Lemma forward_attention_swap (x1 x2 a1 a2 u1 u2 : Tensor) :
  wfT x1 = true -> wfT x2 = true -> ncols x1 = ncols x2 ->
  GMNlayer.forward_attention x1 x2 = Ok (a1, a2, u1, u2) ->
  GMNlayer.forward_attention x2 x1 = Ok (a2, a1, u2, u1).
Proof.
  intros H1 H2 Hd Hatt.
  destruct (forward_attention_spec x1 x2 H1 H2 Hd)
    as (a1' & a2' & u1' & u2' & Hatt' & (Ha1_0 & Ha1_1 & Ha1wf)
        & (Ha2_0 & Ha2_1 & Ha2wf) & He1 & He2 & _).
  rewrite Hatt in Hatt'. injection Hatt' as <- <- <- <-.
  destruct (forward_attention_spec x2 x1 H2 H1 (eq_sym Hd))
    as (b1 & b2 & v1 & v2 & Hsw & (Hb1_0 & Hb1_1 & Hb1wf)
        & (Hb2_0 & Hb2_1 & Hb2wf) & Hf1 & Hf2 & _).
  assert (Eb1 : b1 = a2).
  { apply tensor_eq_entries; try done; try lia.
    intros k i Hk Hi. rewrite Hb1_0 in Hk. rewrite Hb1_1 in Hi.
    rewrite Hf1, He2 by done. rewrite (dot_comm (row k x2)). f_equal.
    apply sum_to_ext. intros i' _. by rewrite dot_comm. }
  assert (Eb2 : b2 = a1).
  { apply tensor_eq_entries; try done; try lia.
    intros i k Hi Hk. rewrite Hb2_0 in Hi. rewrite Hb2_1 in Hk.
    rewrite Hf2, He1 by done. rewrite (dot_comm (row k x2)). f_equal.
    apply sum_to_ext. intros k' _. by rewrite dot_comm. }
  subst b1 b2.
  destruct (forward_attention_inv _ _ _ _ _ _ Hatt)
    as (s & s0 & as1 & as2 & _ & _ & _ & _ & Has1 & Has2 & Hu1 & Hu2).
  destruct (forward_attention_inv _ _ _ _ _ _ Hsw)
    as (t & t0 & bs1 & bs2 & _ & _ & _ & _ & Hbs1 & Hbs2 & Hv1 & Hv2).
  rewrite Has2 in Hbs1. injection Hbs1 as <-.
  rewrite Has1 in Hbs2. injection Hbs2 as <-.
  rewrite Hu2 in Hv1. injection Hv1 as <-.
  rewrite Hu1 in Hv2. injection Hv2 as <-.
  exact Hsw.
Qed.

Lemma forward_swap (L : GMNlayer.t) (d : nat) (x1 x2 h1 h2 : Tensor)
    (ei1 ei2 : EdgeIndex) (ew1 ew2 : option Tensor) :
  GMNlayer.init_ok d d L = true ->
  valid_graph d x1 ei1 ew1 = true ->
  valid_graph d x2 ei2 ew2 = true ->
  GMNlayer.forward L x1 x2 ei1 ei2 ew1 ew2 = Ok (h1, h2) ->
  GMNlayer.forward L x2 x1 ei2 ei1 ew2 ew1 = Ok (h2, h1).
Proof.
  intros Hinit Hg1 Hg2 Hfw.
  destruct (forward_spec L d x1 x2 _ _ _ _ Hinit Hg1 Hg2)
    as (m1 & m2 & a1 & a2 & u1 & u2 & c1 & c2 & g1 & g2 & Hm1 & Hm2 & Hatt & Hc1
        & Hh1 & Hc2 & Hh2 & Hfw' & _).
  rewrite Hfw in Hfw'. injection Hfw' as <- <-.
  destruct (valid_graph_inv _ _ _ _ Hg1) as (Hx1 & Hd1 & _).
  destruct (valid_graph_inv _ _ _ _ Hg2) as (Hx2 & Hd2 & _).
  rewrite forward_as_blocks, Hm2, bind_Ok, Hm1, bind_Ok.
  rewrite (forward_attention_swap x1 x2 a1 a2 u1 u2 Hx1 Hx2 ltac:(lia) Hatt), bind_Ok.
  by rewrite Hc2, bind_Ok, Hh2, bind_Ok, Hc1, bind_Ok, Hh1, bind_Ok.
Qed.

(** X6: [GMNlayer.forward] treats its two graphs alike: called with the
    two graphs in the other order it returns the same two tensors of node
    states, in the other order. *)
Theorem GMNlayer_forward_symmetric (L : GMNlayer.t) (d : nat) (x1 x2 : Tensor)
    (edge_index1 edge_index2 : EdgeIndex) (edge_weight1 edge_weight2 : option Tensor) :
  GMNlayer.init_ok d d L = true ->
  valid_graph d x1 edge_index1 edge_weight1 = true ->
  valid_graph d x2 edge_index2 edge_weight2 = true ->
  exists h1 h2,
    GMNlayer.forward L x1 x2 edge_index1 edge_index2 edge_weight1 edge_weight2
    = Ok (h1, h2)
    /\ GMNlayer.forward L x2 x1 edge_index2 edge_index1 edge_weight2 edge_weight1
       = Ok (h2, h1).
Proof.
  intros Hinit Hg1 Hg2.
  destruct (forward_spec L d x1 x2 _ _ _ _ Hinit Hg1 Hg2)
    as (m1 & m2 & a1 & a2 & u1 & u2 & c1 & c2 & h1 & h2 & _ & _ & _ & _ & _ & _ & _
        & Hfw & _).
  exists h1, h2. split; [exact Hfw|]. by apply (forward_swap L d).
Qed.

Lemma GMNlayer_forward_symmetric_witness :
  exists h1 h2,
    GMNlayer.forward layer0 X1 X2 [(0, 1)] [] None None = Ok (h1, h2)
    /\ GMNlayer.forward layer0 X2 X1 [] [(0, 1)] None None = Ok (h2, h1).
Proof.
  exact (GMNlayer_forward_symmetric layer0 1 X1 X2 [(0, 1)] [] None None
           eq_refl eq_refl eq_refl).
Defined.

(** ** The inputs on which [GMNnet.forward] returns *)

Lemma embed_squeeze_inv (E : nn.Embedding) (idx : list nat) (x : Tensor) :
  (nn.Embedding_forward E idx ≫= nn.squeeze1) = Ok x ->
  forallb (fun i => i <? nn.num_embeddings E) idx = true /\ size0 x = length idx.
Proof.
  unfold nn.Embedding_forward.
  destruct (forallb _ idx); [|done]. rewrite bind_Ok. unfold nn.squeeze1. simpl.
  intros [= <-]. unfold size0. simpl. by rewrite !length_map.
Qed.

Lemma embed_squeeze_Raise (E : nn.Embedding) (idx : list nat) :
  forallb (fun i => i <? nn.num_embeddings E) idx = false ->
  nn.Embedding_forward E idx = Raise IndexError.
Proof. intros H. unfold nn.Embedding_forward. by rewrite H. Qed.

Lemma embed_steps_inv (E : nn.Embedding) (idx : list nat) {B : Type}
    (k : Tensor -> Res B) (b : B) :
  (nn.Embedding_forward E idx ≫= fun a => nn.squeeze1 a ≫= k) = Ok b ->
  exists x, (nn.Embedding_forward E idx ≫= nn.squeeze1) = Ok x /\ k x = Ok b.
Proof.
  intros H. apply bind_inv in H as (a & Ha & H). apply bind_inv in H as (x & Hx & H).
  exists x. by rewrite Ha, bind_Ok.
Qed.

Lemma edge_weights_inv (N : GMNnet.t) (ea1 ea2 : option (list nat))
    (ew1 ew2 : option Tensor) :
  GMNnet.edge_weights N ea1 ea2 = Ok (ew1, ew2) ->
  match ea1 with
  | None => ew1 = None /\ ew2 = None
  | Some a1 =>
      exists a2 w1 w2,
        ea2 = Some a2 /\ ew1 = Some w1 /\ ew2 = Some w2
        /\ forallb (fun i => i <? nn.num_embeddings (GMNnet.edge_embed N)) a1 = true
        /\ forallb (fun i => i <? nn.num_embeddings (GMNnet.edge_embed N)) a2 = true
        /\ size0 w1 = length a1 /\ size0 w2 = length a2
        /\ (nn.Embedding_forward (GMNnet.edge_embed N) a1 ≫= nn.squeeze1) = Ok w1
        /\ (nn.Embedding_forward (GMNnet.edge_embed N) a2 ≫= nn.squeeze1) = Ok w2
  end.
Proof.
  unfold GMNnet.edge_weights. destruct ea1 as [a1|].
  2: { by intros [= <- <-]. }
  intros H. apply embed_steps_inv in H as (w1 & Hw1 & H).
  destruct ea2 as [a2|]; [|done].
  apply embed_steps_inv in H as (w2 & Hw2 & H). injection H as <- <-.
  exists a2, w1, w2.
  destruct (embed_squeeze_inv _ _ _ Hw1) as [? ?].
  destruct (embed_squeeze_inv _ _ _ Hw2) as [? ?]. repeat split; done.
Qed.

Lemma for_range_first {A : Type} (n : nat) (body : nat -> A -> Res A) (a b : A) :
  0 < n -> for_range n body a = Ok b -> exists a', body 0 a = Ok a'.
Proof.
  intros Hn. unfold for_range. destruct n as [|n]; [lia|]. simpl.
  intros H. apply bind_inv in H as (a' & Ha' & _). by exists a'.
Qed.

Lemma GMNnet_forward_Ok_inv (V d n : nat) (N : GMNnet.t) (x1 x2 : list nat)
    (ei1 ei2 : EdgeIndex) (ea1 ea2 : option (list nat)) (hg1 hg2 : Tensor) :
  GMNnet.init_ok V d n N = true -> 0 < n ->
  GMNnet.forward N (x1, x2, ei1, ei2, ea1, ea2) = Ok (hg1, hg2) ->
  valid_data V (x1, x2, ei1, ei2, ea1, ea2) = true.
Proof.
  intros Hinit Hn H.
  destruct (GMNnet_init_ok_inv _ _ _ _ Hinit)
    as (Hnl & _ & HeV & _ & _ & He20 & _ & Hlayer & _).
  unfold GMNnet.forward in H.
  apply embed_steps_inv in H as (e1 & He1 & H).
  apply embed_steps_inv in H as (e2 & He2 & H).
  apply bind_inv in H as ([ew1 ew2] & Hew & H).
  apply bind_inv in H as ([y1 y2] & Hloop & _).
  rewrite Hnl in Hloop.
  apply for_range_first in Hloop as ([h1 h2] & Hfw); [|done].
  destruct (forward_Ok_inv _ d _ _ _ _ _ _ _ _ Hlayer Hfw)
    as ((_ & Hei1 & Hs1) & (_ & Hei2 & Hs2)).
  apply embed_squeeze_inv in He1 as [Hx1 Hl1].
  apply embed_squeeze_inv in He2 as [Hx2 Hl2].
  apply edge_weights_inv in Hew.
  unfold valid_data. rewrite HeV in Hx1, Hx2. rewrite Hl1 in Hei1. rewrite Hl2 in Hei2.
  rewrite Hx1, Hx2, Hei1, Hei2. simpl.
  unfold valid_attrs. destruct ea1 as [a1|]; [|reflexivity].
  destruct Hew as (a2 & w1 & w2 & -> & -> & -> & Ha1 & Ha2 & Hw1 & Hw2 & _).
  rewrite He20 in Ha1, Ha2. rewrite Ha1, Ha2. simpl.
  destruct Hs1 as [Hs1 _]. destruct Hs2 as [Hs2 _].
  rewrite <- Hw1, Hs1, <- Hw2, Hs2, !Nat.eqb_refl. reflexivity.
Qed.

(** X7: for a network built with at least one layer, [GMNnet.forward]
    returns exactly on the inputs that are valid: node indices below
    [vocablen], edges between nodes of their graph, and edge attributes
    that are absent for graph 1, or given for both graphs with one index
    below 20 per edge; on every other input it raises. *)
Theorem GMNnet_forward_domain (vocablen embedding_dim num_layers : nat)
    (N : GMNnet.t) (data : GMNnet.Data) :
  GMNnet.init_ok vocablen embedding_dim num_layers N = true ->
  0 < num_layers ->
  is_Ok (GMNnet.forward N data) = valid_data vocablen data.
Proof.
  intros Hinit Hn. destruct data as [[[[[x1 x2] ei1] ei2] ea1] ea2].
  destruct (valid_data vocablen (x1, x2, ei1, ei2, ea1, ea2)) eqn:E.
  - destruct (GMNnet_forward_spec _ _ _ _ _ _ _ _ _ _ Hinit E)
      as (e1 & e2 & ew1 & ew2 & st & hg1 & hg2 & _ & _ & _ & _ & _ & _ & _ & _
          & Hfw & _).
    by rewrite Hfw.
  - destruct (GMNnet.forward N (x1, x2, ei1, ei2, ea1, ea2)) as [[hg1 hg2]|e] eqn:Hfw;
      [|reflexivity].
    apply (GMNnet_forward_Ok_inv _ _ _ _ _ _ _ _ _ _ _ _ Hinit Hn) in Hfw.
    congruence.
Qed.

Lemma GMNnet_forward_domain_witness :
  is_Ok (GMNnet.forward net0 data0) = true
  /\ is_Ok (GMNnet.forward net0 ([0; 2], [1], [(0, 1)], [], None, None)) = false
  /\ is_Ok (GMNnet.forward net0 ([0; 1], [1], [(0, 1)], [], Some [3; 4], Some []))
     = false.
Proof.
  split; [|split];
    rewrite (GMNnet_forward_domain 2 1 2 net0) by (reflexivity || lia); reflexivity.
Defined.

Lemma edge_weights_swap (N : GMNnet.t) (E1 E2 : nat) (ea1 ea2 : option (list nat))
    (ew1 ew2 : option Tensor) :
  valid_attrs E2 E1 ea2 ea1 = true ->
  GMNnet.edge_weights N ea1 ea2 = Ok (ew1, ew2) ->
  GMNnet.edge_weights N ea2 ea1 = Ok (ew2, ew1).
Proof.
  intros Hv H. apply edge_weights_inv in H. destruct ea1 as [a1|].
  - destruct H as (a2 & w1 & w2 & -> & -> & -> & _ & _ & _ & _ & Hw1 & Hw2).
    unfold GMNnet.edge_weights.
    by rewrite (embed_steps _ _ _ _ Hw2), (embed_steps _ _ _ _ Hw1).
  - destruct H as [-> ->]. destruct ea2 as [a2|]; [|reflexivity].
    simpl in Hv. by rewrite andb_false_r in Hv.
Qed.

(** X8: [GMNnet.forward] treats its two graphs alike: when a pair of
    graphs is valid in both orders, the network called on the pair in the
    other order returns the same two graph vectors, in the other order. *)
Theorem GMNnet_forward_symmetric (vocablen embedding_dim num_layers : nat)
    (N : GMNnet.t) (x1 x2 : list nat) (edge_index1 edge_index2 : EdgeIndex)
    (edge_attr1 edge_attr2 : option (list nat)) :
  GMNnet.init_ok vocablen embedding_dim num_layers N = true ->
  valid_data vocablen (x1, x2, edge_index1, edge_index2, edge_attr1, edge_attr2) = true ->
  valid_data vocablen (x2, x1, edge_index2, edge_index1, edge_attr2, edge_attr1) = true ->
  exists hg1 hg2,
    GMNnet.forward N (x1, x2, edge_index1, edge_index2, edge_attr1, edge_attr2)
    = Ok (hg1, hg2)
    /\ GMNnet.forward N (x2, x1, edge_index2, edge_index1, edge_attr2, edge_attr1)
       = Ok (hg2, hg1).
Proof.
  intros Hinit Hv Hv'.
  destruct (GMNnet_forward_spec _ _ _ _ _ _ _ _ _ _ Hinit Hv)
    as (e1 & e2 & ew1 & ew2 & st & hg1 & hg2 & He1 & He2 & Hew & H0 & Hstep & Hshape
        & Hp1 & Hp2 & Hfw & _).
  destruct (GMNnet_init_ok_inv _ _ _ _ Hinit) as (Hn & _ & _ & _ & _ & _ & _ & Hlayer & _).
  exists hg1, hg2. split; [exact Hfw|].
  assert (Hattr : valid_attrs (length edge_index2) (length edge_index1)
                    edge_attr2 edge_attr1 = true).
  { unfold valid_data in Hv'. rewrite !andb_true_iff in Hv'. tauto. }
  unfold GMNnet.forward.
  rewrite (embed_steps _ _ _ _ He2), (embed_steps _ _ _ _ He1).
  rewrite (edge_weights_swap _ _ _ _ _ _ _ Hattr Hew), bind_Ok.
  set (sw := fun k => ((st k).2, (st k).1)).
  assert (Hrun : for_range (GMNnet.num_layers N)
                   (fun (_ : nat) '(y2, y1) =>
                      GMNlayer.forward (GMNnet.gmnlayer N) y2 y1 edge_index2
                        edge_index1 ew2 ew1)
                   (e2, e1)
                 = Ok (sw num_layers)).
  { rewrite Hn. unfold for_range.
    replace (e2, e1) with (sw 0) by (unfold sw; by rewrite H0).
    apply (for_each_steps _ sw 0 num_layers).
    intros k Hk. unfold sw. simpl.
    destruct (Hshape k ltac:(lia)) as (Hg1 & Hg2 & _).
    apply (forward_swap _ embedding_dim _ _ _ _ _ _ _ _ Hlayer Hg1 Hg2).
    rewrite (Hstep k ltac:(lia)). by destruct (st (S k)). }
  rewrite Hrun, bind_Ok. unfold sw. simpl.
  unfold GMNnet.pool in Hp1, Hp2 |- *.
  by rewrite Hp2, bind_Ok, Hp1, bind_Ok.
Qed.

Lemma GMNnet_forward_symmetric_witness :
  exists hg1 hg2,
    GMNnet.forward net0 ([0; 1], [1], [(0, 1)], [], Some [3], Some [])
    = Ok (hg1, hg2)
    /\ GMNnet.forward net0 ([1], [0; 1], [], [(0, 1)], Some [], Some [3])
       = Ok (hg2, hg1).
Proof.
  exact (GMNnet_forward_symmetric 2 1 2 net0 [0; 1] [1] [(0, 1)] [] (Some [3])
           (Some []) eq_refl eq_refl eq_refl).
Defined.

(** ** The test for missing edge attributes, and indices out of range *)

(** X9: [GMNnet.forward] tests the edge attributes of graph 1 only: when
    they are [None], those of graph 2 are dropped, whatever they are; when
    they are given and valid but those of graph 2 are [None], the call
    raises [TypeError]. *)
Theorem GMNnet_forward_edge_attr_test (vocablen embedding_dim num_layers : nat)
    (N : GMNnet.t) (x1 x2 : list nat) (edge_index1 edge_index2 : EdgeIndex)
    (a1 : list nat) (edge_attr2 : option (list nat)) :
  GMNnet.init_ok vocablen embedding_dim num_layers N = true ->
  forallb (fun i => i <? vocablen) x1 = true ->
  forallb (fun i => i <? vocablen) x2 = true ->
  forallb (fun i => i <? 20) a1 = true ->
  GMNnet.forward N (x1, x2, edge_index1, edge_index2, None, edge_attr2)
  = GMNnet.forward N (x1, x2, edge_index1, edge_index2, None, None)
  /\ GMNnet.forward N (x1, x2, edge_index1, edge_index2, Some a1, None)
     = Raise TypeError.
Proof.
  intros Hinit Hx1 Hx2 Ha1. split; [reflexivity|].
  destruct (GMNnet_init_ok_inv _ _ _ _ Hinit)
    as (_ & Hewf & HeV & _ & Hwwf & He20 & _).
  apply forallb_lt_Forall in Hx1, Hx2, Ha1.
  rewrite <- HeV in Hx1, Hx2. rewrite <- He20 in Ha1.
  destruct (embed_squeeze_Ok _ x1 Hewf Hx1) as (e1 & He1 & _).
  destruct (embed_squeeze_Ok _ x2 Hewf Hx2) as (e2 & He2 & _).
  destruct (embed_squeeze_Ok _ a1 Hwwf Ha1) as (w1 & Hw1 & _).
  unfold GMNnet.forward.
  rewrite (embed_steps _ _ _ _ He1), (embed_steps _ _ _ _ He2).
  unfold GMNnet.edge_weights. by rewrite (embed_steps _ _ _ _ Hw1).
Qed.

Lemma GMNnet_forward_edge_attr_test_witness :
  GMNnet.forward net0 ([0; 1], [1], [(0, 1)], [], None, Some [7; 7; 7])
  = GMNnet.forward net0 ([0; 1], [1], [(0, 1)], [], None, None)
  /\ GMNnet.forward net0 ([0; 1], [1], [(0, 1)], [], Some [3], None)
     = Raise TypeError.
Proof.
  exact (GMNnet_forward_edge_attr_test 2 1 2 net0 [0; 1] [1] [(0, 1)] [] [3]
           (Some [7; 7; 7]) eq_refl eq_refl eq_refl eq_refl).
Defined.

(** X10: a node index outside the vocabulary makes [GMNnet.forward]
    raise [IndexError], in graph 1 whatever the rest of the input, in
    graph 2 when the indices of graph 1 are valid. *)
Theorem GMNnet_forward_unknown_node (vocablen embedding_dim num_layers : nat)
    (N : GMNnet.t) (x1 x2 : list nat) (edge_index1 edge_index2 : EdgeIndex)
    (edge_attr1 edge_attr2 : option (list nat)) :
  GMNnet.init_ok vocablen embedding_dim num_layers N = true ->
  forallb (fun i => i <? vocablen) x1 && forallb (fun i => i <? vocablen) x2 = false ->
  GMNnet.forward N (x1, x2, edge_index1, edge_index2, edge_attr1, edge_attr2)
  = Raise IndexError.
Proof.
  intros Hinit H.
  destruct (GMNnet_init_ok_inv _ _ _ _ Hinit) as (_ & Hewf & HeV & _).
  unfold GMNnet.forward.
  destruct (forallb (fun i => i <? vocablen) x1) eqn:E1.
  - simpl in H. apply forallb_lt_Forall in E1. rewrite <- HeV in E1, H.
    destruct (embed_squeeze_Ok _ x1 Hewf E1) as (e1 & He1 & _).
    rewrite (embed_steps _ _ _ _ He1). by rewrite (embed_squeeze_Raise _ _ H).
  - rewrite <- HeV in E1. by rewrite (embed_squeeze_Raise _ _ E1).
Qed.

Lemma GMNnet_forward_unknown_node_witness :
  GMNnet.forward net0 ([0; 1], [2], [(0, 1)], [], None, None) = Raise IndexError.
Proof.
  exact (GMNnet_forward_unknown_node 2 1 2 net0 [0; 1] [2] [(0, 1)] [] None None
           eq_refl eq_refl).
Defined.

(** ** The inputs on which [GGNN.forward] returns *)

Lemma mm_size0 (a b c : Tensor) : torch.mm a b = Ok c -> size0 c = size0 a.
Proof.
  unfold torch.mm. destruct (ncols a =? size0 b); [|done].
  intros [= <-]. unfold size0. simpl. by rewrite length_map.
Qed.

Lemma scatter_add_idx (src out : Tensor) (idx : list nat) (n : nat) :
  torch.scatter_add src idx n = Ok out -> forallb (fun i => i <? n) idx = true.
Proof.
  unfold torch.scatter_add. destruct (negb _); [done|].
  by destruct (forallb _ idx).
Qed.

Lemma GatedGraphConv_step_inv (G : torch_geometric.GatedGraphConv)
    (ei : EdgeIndex) (i : nat) (x y : Tensor) :
  torch_geometric.GatedGraphConv_step G ei i x = Ok y ->
  valid_edges (size0 x) ei = true.
Proof.
  unfold torch_geometric.GatedGraphConv_step.
  destruct (torch_geometric.weight G !! i) as [w|]; [|done].
  intros H. apply bind_inv in H as (m & Hm & H). apply bind_inv in H as (m' & Hp & _).
  apply mm_size0 in Hm.
  unfold torch_geometric.propagate, torch_geometric.set_size, torch_geometric.lift in Hp.
  simpl in Hp.
  apply bind_inv in Hp as (x_j & Hj & Hp). apply bind_inv in Hp as (out & Hs & _).
  apply index_select_inv in Hj as (Hj & _). apply scatter_add_idx in Hs.
  rewrite Hm in Hj, Hs. by rewrite valid_edges_split, Hs, Hj.
Qed.

Lemma GGNN_forward_Ok_inv (V d n : nat) (G : GGNN.t) (x : list nat)
    (ei : EdgeIndex) (ea : option (list nat)) (hg : Tensor) :
  GGNN.init_ok V d n G = true -> 0 < n ->
  GGNN.forward G (x, ei, ea) = Ok hg ->
  GGNN_valid_data V (x, ei, ea) = true.
Proof.
  intros Hinit Hn H.
  destruct (GGNN_init_ok_inv _ _ _ _ Hinit)
    as (Hewf & HeV & Hed & H20 & _ & Hcd & Hcn & _).
  unfold GGNN.forward in H.
  apply embed_steps_inv in H as (e & He & H).
  apply bind_inv in H as (ew & Hew & H).
  apply bind_inv in H as (y & Hconv & _).
  pose proof He as He'. apply embed_squeeze_inv in He' as [Hx Hl].
  assert (Hed' : ncols e = d).
  { rewrite HeV in Hx. apply forallb_lt_Forall in Hx. rewrite <- HeV in Hx.
    destruct (embed_squeeze_Ok _ x Hewf Hx) as (e' & He'' & _ & Hc & _).
    rewrite He in He''. injection He'' as <-. lia. }
  unfold GGNN_valid_data. rewrite HeV in Hx. rewrite Hx. simpl.
  assert (Hei : valid_edges (length x) ei = true).
  { unfold torch_geometric.GatedGraphConv_forward, size1 in Hconv.
    rewrite Hed', Hcd, Nat.ltb_irrefl, bind_Ok, Hcn in Hconv.
    apply for_range_first in Hconv as (y' & Hstep); [|done].
    apply GatedGraphConv_step_inv in Hstep. by rewrite Hl in Hstep. }
  rewrite Hei. simpl.
  destruct ea as [a|]; [|reflexivity]. simpl.
  apply embed_steps_inv in Hew as (w & Hw & _).
  apply embed_squeeze_inv in Hw as [Ha _]. by rewrite H20 in Ha.
Qed.

(** X11: for a network built with at least one propagation step,
    [GGNN.forward] returns exactly on the inputs that are valid: node
    indices below [vocablen], edges between nodes of the graph, and edge
    attributes that are absent or hold indices below 20; on every other
    input it raises. *)
Theorem GGNN_forward_domain (vocablen embedding_dim num_layers : nat)
    (G : GGNN.t) (data : GGNN.Data) :
  GGNN.init_ok vocablen embedding_dim num_layers G = true ->
  0 < num_layers ->
  is_Ok (GGNN.forward G data) = GGNN_valid_data vocablen data.
Proof.
  intros Hinit Hn. destruct data as [[x ei] ea].
  destruct (GGNN_valid_data vocablen (x, ei, ea)) eqn:E.
  - destruct (GGNN_forward_spec _ _ _ _ _ _ _ Hinit E)
      as (e & st & hg & _ & _ & _ & _ & _ & _ & Hfw & _).
    by rewrite Hfw.
  - destruct (GGNN.forward G (x, ei, ea)) as [hg|e] eqn:Hfw; [|reflexivity].
    apply (GGNN_forward_Ok_inv _ _ _ _ _ _ _ _ Hinit Hn) in Hfw. congruence.
Qed.

Lemma GGNN_forward_domain_witness :
  is_Ok (GGNN.forward ggnn0 gdata0) = true
  /\ is_Ok (GGNN.forward ggnn0 ([0; 1], [(0, 2)], None)) = false.
Proof.
  split; rewrite (GGNN_forward_domain 2 1 2 ggnn0) by (reflexivity || lia);
    reflexivity.
Defined.

(** X12: [GGNN.forward] raises [IndexError] on an edge attribute of 20 or
    more, for any valid node indices and any edges, although it never
    uses the edge weights it looks up. *)
Theorem GGNN_forward_bad_edge_attr_raises (vocablen embedding_dim num_layers : nat)
    (G : GGNN.t) (x : list nat) (edge_index : EdgeIndex) (a : list nat) :
  GGNN.init_ok vocablen embedding_dim num_layers G = true ->
  forallb (fun i => i <? vocablen) x = true ->
  forallb (fun i => i <? 20) a = false ->
  GGNN.forward G (x, edge_index, Some a) = Raise IndexError.
Proof.
  intros Hinit Hx Ha.
  destruct (GGNN_init_ok_inv _ _ _ _ Hinit) as (Hewf & HeV & _ & H20 & _).
  apply forallb_lt_Forall in Hx. rewrite <- HeV in Hx. rewrite <- H20 in Ha.
  destruct (embed_squeeze_Ok _ x Hewf Hx) as (e & He & _).
  unfold GGNN.forward. rewrite (embed_steps _ _ _ _ He).
  by rewrite (embed_squeeze_Raise _ _ Ha).
Qed.

Lemma GGNN_forward_bad_edge_attr_raises_witness :
  GGNN.forward ggnn0 ([0; 1], [(0, 1)], Some [3; 20]) = Raise IndexError.
Proof.
  exact (GGNN_forward_bad_edge_attr_raises 2 1 2 ggnn0 [0; 1] [(0, 1)] [3; 20]
           eq_refl eq_refl eq_refl).
Defined.

(** ** The split of the parameter names of [match] *)

Example special_match_args_of : GMNlayer.special_match_args = special_of GMNlayer.match_argspec.
Proof. reflexivity. Qed.

Example match_args_of : GMNlayer.match_args = plain_of GMNlayer.match_argspec.
Proof. reflexivity. Qed.

Lemma py_insert_app {A : Type} (pre rest : list A) (v : A) :
  py_insert (length pre) v (pre ++ rest) = (pre ++ [v]) ++ rest.
Proof.
  unfold py_insert. rewrite take_app_length, drop_app_length.
  by rewrite <- app_assoc.
Qed.

Lemma filter_cons_eq {A : Type} (f : A -> bool) (a : A) (l : list A) :
  List.filter f (a :: l) = if f a then a :: List.filter f l else List.filter f l.
Proof. reflexivity. Qed.

Lemma insert_specials_cons {A : Type} (val : string -> A) (p : nat * string)
    (ps : list (nat * string)) (m : list A) :
  insert_specials val (p :: ps) m = insert_specials val ps (py_insert p.1 (val p.2) m).
Proof. reflexivity. Qed.

Lemma insert_specials_from {A : Type} (val : string -> A) (l : list string)
    (pre : list A) :
  insert_specials val
    (List.filter (fun p => str_in p.2 special_args)
       (imap (fun i a => (length pre + i, a)) l))
    (pre ++ map val (plain_of l))
  = pre ++ map val l.
Proof.
  revert pre. induction l as [|a l IH]; intros pre; [reflexivity|].
  rewrite imap_cons.
  rewrite (imap_ext _ (fun i b => (length (pre ++ [val a]) + i, b))).
  2: { intros i b _. simpl. rewrite length_app. simpl. f_equal. lia. }
  unfold plain_of. rewrite !filter_cons_eq. fold (plain_of l).
  change ((length pre + 0, a).2) with a.
  destruct (str_in a special_args) eqn:E; cbn [negb].
  - rewrite insert_specials_cons. cbn [fst snd].
    rewrite Nat.add_0_r, py_insert_app. rewrite IH. by rewrite <- app_assoc.
  - rewrite map_cons.
    replace (pre ++ val a :: map val (plain_of l))
      with ((pre ++ [val a]) ++ map val (plain_of l)) by (by rewrite <- app_assoc).
    rewrite IH. by rewrite <- app_assoc.
Qed.

Lemma insert_specials_round_trip {A : Type} (val : string -> A) (argspec : list string) :
  insert_specials val (special_of argspec) (map val (plain_of argspec))
  = map val argspec.
Proof. exact (insert_specials_from val argspec []). Qed.

Lemma insert_special_arg_value (L : GMNlayer.t) (kwargs : gmap string PyVal)
    (idx : nat) (arg : string) (margs : list PyVal) :
  GMNlayer.insert_special_arg L kwargs (idx, arg) margs
  = (v ← special_value L kwargs arg; Ok (py_insert idx v margs)).
Proof.
  unfold GMNlayer.insert_special_arg, special_value.
  destruct (str_in (last2 arg) _); [|reflexivity].
  destruct (py_lookup kwargs (drop_last2 arg)) as [c|e]; reflexivity.
Qed.

(** While every special name has a value, the second loop does the
    inserts and nothing else. *)
Lemma insert_loop_Ok (L : GMNlayer.t) (kwargs : gmap string PyVal)
    (val : string -> PyVal) (specials : list (nat * string)) (margs : list PyVal) :
  Forall (fun p => special_value L kwargs p.2 = Ok (val p.2)) specials ->
  for_each (GMNlayer.insert_special_arg L kwargs) specials margs
  = Ok (insert_specials val specials margs).
Proof.
  intros H. revert margs. induction H as [|[idx arg] l Hv Hl IH]; intros margs.
  - reflexivity.
  - cbn [for_each]. rewrite insert_special_arg_value. simpl in Hv.
    rewrite Hv, !bind_Ok, IH. reflexivity.
Qed.

(** X13: the split that [__init__] makes of the parameter names of
    [match], and the second loop of [propagate_match], undo one another
    for every list of names.  When the first loop has collected the
    values of the names that are not special, in their order, and every
    special name has a value in [kwargs], the second loop returns the
    values of all names in the order of the signature. *)
Theorem GMNlayer_special_args_round_trip (L : GMNlayer.t)
    (kwargs : gmap string PyVal) (val : string -> PyVal) (argspec : list string) :
  Forall (fun p => special_value L kwargs p.2 = Ok (val p.2)) (special_of argspec) ->
  for_each (GMNlayer.insert_special_arg L kwargs) (special_of argspec)
           (map val (plain_of argspec))
  = Ok (map val argspec).
Proof.
  intros H. rewrite (insert_loop_Ok L kwargs val _ _ H).
  by rewrite insert_specials_round_trip.
Qed.

Lemma GMNlayer_special_args_round_trip_witness :
  for_each (GMNlayer.insert_special_arg layer0 kwargs0) GMNlayer.special_match_args
           [VTensor X1; VTensor X1]
  = Ok [VLong [1]; VTensor X1; VTensor X1; VInt 2].
Proof.
  apply (GMNlayer_special_args_round_trip layer0 kwargs0 val0 GMNlayer.match_argspec).
  repeat constructor.
Defined.

(** ** A graph compared with itself *)

Lemma forward_same (L : GMNlayer.t) (d : nat) (x h1 h2 : Tensor) (ei : EdgeIndex)
    (ew : option Tensor) :
  GMNlayer.init_ok d d L = true -> valid_graph d x ei ew = true ->
  GMNlayer.forward L x x ei ei ew ew = Ok (h1, h2) -> h1 = h2.
Proof.
  intros Hinit Hg Hfw.
  pose proof (forward_swap L d x x h1 h2 ei ei ew ew Hinit Hg Hg Hfw) as Hsw.
  rewrite Hfw in Hsw. by injection Hsw.
Qed.

Lemma edge_weights_same (N : GMNnet.t) (ea : option (list nat)) (ew1 ew2 : option Tensor) :
  GMNnet.edge_weights N ea ea = Ok (ew1, ew2) -> ew1 = ew2.
Proof.
  intros H. apply edge_weights_inv in H. destruct ea as [a|].
  - destruct H as (a2 & w1 & w2 & [= <-] & -> & -> & _ & _ & _ & _ & Hw1 & Hw2).
    rewrite Hw1 in Hw2. by injection Hw2 as <-.
  - by destruct H as [-> ->].
Qed.

(** X17: a graph compared with itself gets the same graph vector twice:
    on a valid pair made of one graph taken two times, [GMNnet.forward]
    returns two equal tensors. *)
Theorem GMNnet_forward_same_graph (vocablen embedding_dim num_layers : nat)
    (N : GMNnet.t) (x : list nat) (edge_index : EdgeIndex)
    (edge_attr : option (list nat)) :
  GMNnet.init_ok vocablen embedding_dim num_layers N = true ->
  valid_data vocablen (x, x, edge_index, edge_index, edge_attr, edge_attr) = true ->
  exists hg,
    GMNnet.forward N (x, x, edge_index, edge_index, edge_attr, edge_attr)
    = Ok (hg, hg).
Proof.
  intros Hinit Hv.
  destruct (GMNnet_forward_spec _ _ _ _ _ _ _ _ _ _ Hinit Hv)
    as (e1 & e2 & ew1 & ew2 & st & hg1 & hg2 & He1 & He2 & Hew & H0 & Hstep & Hshape
        & Hp1 & Hp2 & Hfw & _).
  destruct (GMNnet_init_ok_inv _ _ _ _ Hinit) as (_ & _ & _ & _ & _ & _ & _ & Hlayer & _).
  rewrite He1 in He2. injection He2 as <-.
  apply edge_weights_same in Hew. subst ew2.
  assert (Hst : forall k, k <= num_layers -> (st k).1 = (st k).2).
  { induction k as [|k IH]; intros Hk.
    - by rewrite H0.
    - specialize (IH ltac:(lia)). specialize (Hstep k ltac:(lia)).
      destruct (Hshape k ltac:(lia)) as (Hg1 & _).
      rewrite <- IH in Hstep. destruct (st (S k)) as [h1 h2]. simpl.
      by apply (forward_same _ embedding_dim _ _ _ _ _ Hlayer Hg1 Hstep). }
  rewrite <- (Hst num_layers (le_n _)) in Hp2. rewrite Hp1 in Hp2. injection Hp2 as <-.
  by exists hg1.
Qed.

Lemma GMNnet_forward_same_graph_witness :
  exists hg,
    GMNnet.forward net0 ([0; 1], [0; 1], [(0, 1)], [(0, 1)], Some [3], Some [3])
    = Ok (hg, hg).
Proof.
  exact (GMNnet_forward_same_graph 2 1 2 net0 [0; 1] [(0, 1)] (Some [3])
           eq_refl eq_refl).
Defined.

(** ** The size check of [propagate_match] *)

Lemma init_ok_flow (d_in d_out : nat) (L : GMNlayer.t) :
  GMNlayer.init_ok d_in d_out L = true -> GMNlayer.flow L = "source_to_target"%string.
Proof.
  unfold GMNlayer.init_ok. rewrite !andb_true_iff. intros H.
  apply String.eqb_eq. tauto.
Qed.

Lemma ij_source_to_target (L : GMNlayer.t) :
  GMNlayer.flow L = "source_to_target"%string ->
  GMNlayer.ij L "_i" = 1 /\ GMNlayer.ij L "_j" = 0.
Proof. intros H. unfold GMNlayer.ij. rewrite H. split; reflexivity. Qed.

(** One turn of the first loop, for node features given as a tensor. *)
Lemma collect_match_arg_tensor (L : GMNlayer.t) (ei : EdgeIndex)
    (kwargs : gmap string PyVal) (x : Tensor) (arg : string) (k : nat)
    (size : option nat * option nat) (margs : list PyVal) :
  kwargs !! drop_last2 arg = Some (VTensor x) ->
  str_in (last2 arg) ["_i"; "_j"]%string = true ->
  GMNlayer.ij L (last2 arg) = k ->
  GMNlayer.collect_match_arg L ei kwargs arg (size, margs)
  = (size' ← GMNlayer.check_size size k (VTensor x);
     tmp ← torch.index_select x (edge_row k ei);
     Ok (size', margs ++ [VTensor tmp])).
Proof.
  intros Hx Hin Hk. unfold GMNlayer.collect_match_arg. rewrite Hin, Hx, Hk. simpl.
  destruct (GMNlayer.check_size size k (VTensor x)) as [size'|e]; [|reflexivity].
  simpl. destruct (torch.index_select x (edge_row k ei)); reflexivity.
Qed.

Lemma check_size_mismatch (size : option nat * option nat) (k n : nat) (x : Tensor) :
  GMNlayer.size_get size k = Some n -> n <> size0 x ->
  GMNlayer.check_size size k (VTensor x) = Raise ValueError.
Proof.
  intros Hget Hne. unfold GMNlayer.check_size. simpl. rewrite Hget, Hget.
  by rewrite (proj2 (Nat.eqb_neq _ _) Hne).
Qed.

Lemma check_size_pass (size : option nat * option nat) (k : nat) (x : Tensor) :
  (GMNlayer.size_get size k = None \/ GMNlayer.size_get size k = Some (size0 x)) ->
  exists size',
    GMNlayer.check_size size k (VTensor x) = Ok size'
    /\ forall k', (k' =? 0) <> (k =? 0) ->
         GMNlayer.size_get size' k' = GMNlayer.size_get size k'.
Proof.
  intros [H|H]; unfold GMNlayer.check_size; simpl; rewrite H.
  - exists (GMNlayer.size_set size k (size0 x)).
    assert (Hset : GMNlayer.size_get (GMNlayer.size_set size k (size0 x)) k
                   = Some (size0 x)).
    { unfold GMNlayer.size_get, GMNlayer.size_set.
      destruct (k =? 0) eqn:E; simpl; by rewrite ?E. }
    rewrite Hset, Nat.eqb_refl. split; [reflexivity|].
    intros k' Hk'. unfold GMNlayer.size_get, GMNlayer.size_set.
    destruct (k =? 0), (k' =? 0); simpl; congruence.
  - rewrite H, Nat.eqb_refl. by exists size.
Qed.

(** X20: [propagate_match] checks the declared sizes against the node
    features.  For a layer as [__init__] builds it, node features [x]
    given as a tensor and edges between the nodes of the graph, a
    declared size that is a number other than [x.size(0)], at either
    position, makes the call raise [ValueError]. *)
Theorem GMNlayer_propagate_match_size_mismatch (in_channels out_channels : nat)
    (L : GMNlayer.t) (edge_index : EdgeIndex) (kwargs : gmap string PyVal)
    (x : Tensor) (a b : option nat) (n : nat) :
  GMNlayer.init_ok in_channels out_channels L = true ->
  kwargs !! "x"%string = Some (VTensor x) ->
  valid_edges (size0 x) edge_index = true ->
  a = Some n \/ b = Some n ->
  n <> size0 x ->
  GMNlayer.propagate_match L edge_index (Some [a; b]) kwargs = Raise ValueError.
Proof.
  intros Hinit Hx Hei Hab Hn.
  destruct (ij_source_to_target L (init_ok_flow _ _ _ Hinit)) as [Hi Hj].
  destruct (valid_edges_Forall _ _ Hei) as [Hsrc Htgt].
  unfold GMNlayer.propagate_match. cbv beta iota. rewrite bind_Ok, match_args_value.
  cbn [for_each].
  rewrite (collect_match_arg_tensor L edge_index kwargs x "x_i" 1) by done.
  assert (Hcase : (GMNlayer.size_get (a, b) 1 = None
                   \/ GMNlayer.size_get (a, b) 1 = Some (size0 x))
                  \/ exists m, GMNlayer.size_get (a, b) 1 = Some m /\ m <> size0 x).
  { simpl. destruct b as [m|]; [|by left; left].
    destruct (Nat.eq_dec m (size0 x)) as [->|Hm]; [by left; right|].
    right. by exists m. }
  destruct Hcase as [Hb|[m [Hb Hm]]].
  2: { by rewrite (check_size_mismatch (a, b) 1 m x Hb Hm). }
  destruct (check_size_pass (a, b) 1 x Hb) as (size' & Hc & Hkeep).
  rewrite Hc, bind_Ok, (index_select_Ok x _ Htgt), !bind_Ok.
  rewrite (collect_match_arg_tensor L edge_index kwargs x "x_j" 0) by done.
  assert (Ha : GMNlayer.size_get size' 0 = Some n).
  { rewrite (Hkeep 0) by done. simpl. destruct Hab as [Ha|Hb']; [done|].
    exfalso. unfold GMNlayer.size_get in Hb. cbn [Nat.eqb snd] in Hb.
    rewrite Hb' in Hb. destruct Hb as [Hb|Hb]; [discriminate|].
    injection Hb as Hb. by apply Hn. }
  by rewrite (check_size_mismatch size' 0 n x Ha Hn).
Qed.

Lemma GMNlayer_propagate_match_size_mismatch_witness :
  GMNlayer.propagate_match layer0 [(0, 1)] (Some [Some 3; None])
    (<["x"%string := VTensor X1]> ∅)
  = Raise ValueError.
Proof.
  apply (GMNlayer_propagate_match_size_mismatch 1 1 layer0 [(0, 1)] _ X1
           (Some 3) None 3); try reflexivity.
  - by left.
  - unfold size0, X1. simpl. lia.
Defined.
